(** * The Azure chroot builder: configuration resolution and step list

    A shallow embedding of [builder/azure/chroot/builder.go]: the methods
    [Builder.Prepare] and [Builder.Run], the three enumeration checks and
    [buildsteps], followed by the properties of the resolver and of the
    step list.

    Go values are embedded as follows.
    - A [string] is a Rocq [string]; [int32] is a [Z]; [bool] is [bool].
    - A slice whose nil-ness the code inspects is a [slice A], that is an
      [option (list A)] where [None] is the nil slice.
    - A pointer that may be nil is an [option].
    - An [error] is an [error] term that records how it was built
      ([errors.New], [fmt.Errorf] with its format string and arguments);
      a value of interface type [error] is an [error_value], which tells
      a nil interface from a [*MultiError] and from any other error.
    - A panic is the [Panicked] outcome.
    - The packages the builder calls but that are not part of this file
      (decoding, template rendering, the identifier parsers, the Azure
      client, the step runner, Go's [strings.EqualFold]) are the fields
      of the class [External]; every general theorem holds for all of
      them. The module [Sample] is a concrete instance on which the model
      is run on examples.
    - Calls to [log] and to [ui.Error] only write messages and are left
      out. *)

From Stdlib Require Import ZArith Ascii.
From stdpp Require Import base tactics option list strings gmap.

Local Open Scope string_scope.
Local Open Scope list_scope.

(** ** Go values *)

(** A slice: [None] is nil, [Some []] is empty but not nil. *)
Definition slice (A : Type) : Type := option (list A).

Definition len {A : Type} (s : slice A) : nat :=
  match s with
  | None => 0
  | Some l => length l
  end.

(** What a Go function that may panic produces. *)
Inductive outcome (A P : Type) : Type :=
| Returned (a : A)
| Panicked (p : P).
Arguments Returned {A P} a.
Arguments Panicked {A P} p.

(** ** Errors *)

(** An error built by [errors.New] or [fmt.Errorf]. The formatting verbs
    are not expanded: the format string and its arguments are kept. *)
Inductive error : Type :=
| errors_New (text : string)
| fmt_Errorf (format : string) (args : list fmt_arg)
with fmt_arg : Type :=
| arg_string (s : string)
| arg_strings (l : list string)
| arg_error (e : error).

(** [packer.MultiError]. *)
Record MultiError : Type := { Errors : list error }.

(** A value of the interface type [error]. [multi_error None] is a nil
    [*MultiError] stored in the interface, which is not the nil interface. *)
Inductive error_value : Type :=
| nil_error
| plain_error (e : error)
| multi_error (p : option MultiError).

(** Modelled from the spec: [packer.MultiErrorAppend(err error, errs ...error) *MultiError]
    lives in [packer/multi_error.go], which is not among the sources. The
    first argument is the accumulator and the remaining ones are appended to
    it; an accumulator that is not an aggregate (the spec's design note on
    [image_resource_id]: the call is made "with a plain error value rather
    than the aggregate") is turned into an aggregate holding that one error.
    The result is never nil. *)
Definition MultiErrorAppend (err : error_value) (errs : list error) : MultiError :=
  match err with
  | nil_error => {| Errors := errs |}
  | multi_error None => {| Errors := errs |}
  | multi_error (Some m) => {| Errors := m.(Errors) ++ errs |}
  | plain_error e => {| Errors := e :: errs |}
  end.

(** ** Data of the builder *)

(** [client.PlatformImage]. *)
Record PlatformImage : Type :=
  { Publisher : string; Offer : string; Sku : string; Version : string }.

(** [azure.Resource], the result of [azure.ParseResourceID]. *)
Record Resource : Type :=
  { SubscriptionID : string; ResourceGroup : string; Provider : string;
    ResourceType : string; ResourceName : string }.

(** [client.ComputeInfo]: the two fields the builder reads. *)
Record ComputeInfo : Type :=
  { info_SubscriptionID : string; Location : string }.

(** [type sourceType string] and its two constants. *)
Definition sourceTypeT : Type := string.
Definition sourcePlatformImage : sourceTypeT := "PlatformImage".
Definition sourceDisk : sourceTypeT := "Disk".

(** The types of the collaborating packages, of which the builder only
    moves values around. *)
Class Opaque : Type := {
  Raws : Type;                           (* raws ...interface{} *)
  common_PackerConfig : Type;            (* common.PackerConfig *)
  client_Config : Type;                  (* client.Config *)
  interpolate_Context : Type;            (* interpolate.Context *)
  SharedImageGalleryDestinationT : Type; (* SharedImageGalleryDestination *)
  AzureClientSet : Type;                 (* client.AzureClientSet *)
  Runner : Type;                         (* multistep.Runner *)
  context_Context : Type;                (* context.Context *)
  Ui : Type;                             (* packer.Ui *)
  Hook : Type;                           (* packer.Hook *)
  Dyn : Type                             (* any other value a step stores *)
}.

Section Data.
Context {O : Opaque}.

(** [Config]. *)
Record Config : Type := {
  PackerConfig : common_PackerConfig;
  ClientConfig : client_Config;
  FromScratch : bool;
  Source : string;
  sourceType : sourceTypeT;
  CommandWrapper : string;
  PreMountCommands : slice string;
  MountOptions : slice string;
  MountPartition : string;
  MountPath : string;
  PostMountCommands : slice string;
  ChrootMounts : slice (list string);
  CopyFiles : slice string;
  OSDiskSizeGB : Z;
  OSDiskStorageAccountType : string;
  OSDiskCacheType : string;
  ImageHyperVGeneration : string;
  TemporaryOSDiskID : string;
  TemporaryOSDiskSnapshotID : string;
  SkipCleanup : bool;
  ImageResourceID : string;
  SharedImageGalleryDestination : SharedImageGalleryDestinationT;
  ctx : interpolate_Context
}.

(** Assignments to one field of the configuration. *)
Definition set_ClientConfig (v : client_Config) (c : Config) : Config :=
  {| PackerConfig := c.(PackerConfig); ClientConfig := v; FromScratch := c.(FromScratch);
     Source := c.(Source); sourceType := c.(sourceType); CommandWrapper := c.(CommandWrapper);
     PreMountCommands := c.(PreMountCommands); MountOptions := c.(MountOptions);
     MountPartition := c.(MountPartition); MountPath := c.(MountPath);
     PostMountCommands := c.(PostMountCommands); ChrootMounts := c.(ChrootMounts);
     CopyFiles := c.(CopyFiles); OSDiskSizeGB := c.(OSDiskSizeGB);
     OSDiskStorageAccountType := c.(OSDiskStorageAccountType);
     OSDiskCacheType := c.(OSDiskCacheType); ImageHyperVGeneration := c.(ImageHyperVGeneration);
     TemporaryOSDiskID := c.(TemporaryOSDiskID);
     TemporaryOSDiskSnapshotID := c.(TemporaryOSDiskSnapshotID); SkipCleanup := c.(SkipCleanup);
     ImageResourceID := c.(ImageResourceID);
     SharedImageGalleryDestination := c.(SharedImageGalleryDestination); ctx := c.(ctx) |}.

Definition set_sourceType (v : sourceTypeT) (c : Config) : Config :=
  {| PackerConfig := c.(PackerConfig); ClientConfig := c.(ClientConfig);
     FromScratch := c.(FromScratch); Source := c.(Source); sourceType := v;
     CommandWrapper := c.(CommandWrapper); PreMountCommands := c.(PreMountCommands);
     MountOptions := c.(MountOptions); MountPartition := c.(MountPartition);
     MountPath := c.(MountPath); PostMountCommands := c.(PostMountCommands);
     ChrootMounts := c.(ChrootMounts); CopyFiles := c.(CopyFiles);
     OSDiskSizeGB := c.(OSDiskSizeGB); OSDiskStorageAccountType := c.(OSDiskStorageAccountType);
     OSDiskCacheType := c.(OSDiskCacheType); ImageHyperVGeneration := c.(ImageHyperVGeneration);
     TemporaryOSDiskID := c.(TemporaryOSDiskID);
     TemporaryOSDiskSnapshotID := c.(TemporaryOSDiskSnapshotID); SkipCleanup := c.(SkipCleanup);
     ImageResourceID := c.(ImageResourceID);
     SharedImageGalleryDestination := c.(SharedImageGalleryDestination); ctx := c.(ctx) |}.

Definition set_CommandWrapper (v : string) (c : Config) : Config :=
  {| PackerConfig := c.(PackerConfig); ClientConfig := c.(ClientConfig);
     FromScratch := c.(FromScratch); Source := c.(Source); sourceType := c.(sourceType);
     CommandWrapper := v; PreMountCommands := c.(PreMountCommands);
     MountOptions := c.(MountOptions); MountPartition := c.(MountPartition);
     MountPath := c.(MountPath); PostMountCommands := c.(PostMountCommands);
     ChrootMounts := c.(ChrootMounts); CopyFiles := c.(CopyFiles);
     OSDiskSizeGB := c.(OSDiskSizeGB); OSDiskStorageAccountType := c.(OSDiskStorageAccountType);
     OSDiskCacheType := c.(OSDiskCacheType); ImageHyperVGeneration := c.(ImageHyperVGeneration);
     TemporaryOSDiskID := c.(TemporaryOSDiskID);
     TemporaryOSDiskSnapshotID := c.(TemporaryOSDiskSnapshotID); SkipCleanup := c.(SkipCleanup);
     ImageResourceID := c.(ImageResourceID);
     SharedImageGalleryDestination := c.(SharedImageGalleryDestination); ctx := c.(ctx) |}.

Definition set_MountPartition (v : string) (c : Config) : Config :=
  {| PackerConfig := c.(PackerConfig); ClientConfig := c.(ClientConfig);
     FromScratch := c.(FromScratch); Source := c.(Source); sourceType := c.(sourceType);
     CommandWrapper := c.(CommandWrapper); PreMountCommands := c.(PreMountCommands);
     MountOptions := c.(MountOptions); MountPartition := v; MountPath := c.(MountPath);
     PostMountCommands := c.(PostMountCommands); ChrootMounts := c.(ChrootMounts);
     CopyFiles := c.(CopyFiles); OSDiskSizeGB := c.(OSDiskSizeGB);
     OSDiskStorageAccountType := c.(OSDiskStorageAccountType);
     OSDiskCacheType := c.(OSDiskCacheType); ImageHyperVGeneration := c.(ImageHyperVGeneration);
     TemporaryOSDiskID := c.(TemporaryOSDiskID);
     TemporaryOSDiskSnapshotID := c.(TemporaryOSDiskSnapshotID); SkipCleanup := c.(SkipCleanup);
     ImageResourceID := c.(ImageResourceID);
     SharedImageGalleryDestination := c.(SharedImageGalleryDestination); ctx := c.(ctx) |}.

Definition set_MountPath (v : string) (c : Config) : Config :=
  {| PackerConfig := c.(PackerConfig); ClientConfig := c.(ClientConfig);
     FromScratch := c.(FromScratch); Source := c.(Source); sourceType := c.(sourceType);
     CommandWrapper := c.(CommandWrapper); PreMountCommands := c.(PreMountCommands);
     MountOptions := c.(MountOptions); MountPartition := c.(MountPartition); MountPath := v;
     PostMountCommands := c.(PostMountCommands); ChrootMounts := c.(ChrootMounts);
     CopyFiles := c.(CopyFiles); OSDiskSizeGB := c.(OSDiskSizeGB);
     OSDiskStorageAccountType := c.(OSDiskStorageAccountType);
     OSDiskCacheType := c.(OSDiskCacheType); ImageHyperVGeneration := c.(ImageHyperVGeneration);
     TemporaryOSDiskID := c.(TemporaryOSDiskID);
     TemporaryOSDiskSnapshotID := c.(TemporaryOSDiskSnapshotID); SkipCleanup := c.(SkipCleanup);
     ImageResourceID := c.(ImageResourceID);
     SharedImageGalleryDestination := c.(SharedImageGalleryDestination); ctx := c.(ctx) |}.

Definition set_ChrootMounts (v : slice (list string)) (c : Config) : Config :=
  {| PackerConfig := c.(PackerConfig); ClientConfig := c.(ClientConfig);
     FromScratch := c.(FromScratch); Source := c.(Source); sourceType := c.(sourceType);
     CommandWrapper := c.(CommandWrapper); PreMountCommands := c.(PreMountCommands);
     MountOptions := c.(MountOptions); MountPartition := c.(MountPartition);
     MountPath := c.(MountPath); PostMountCommands := c.(PostMountCommands); ChrootMounts := v;
     CopyFiles := c.(CopyFiles); OSDiskSizeGB := c.(OSDiskSizeGB);
     OSDiskStorageAccountType := c.(OSDiskStorageAccountType);
     OSDiskCacheType := c.(OSDiskCacheType); ImageHyperVGeneration := c.(ImageHyperVGeneration);
     TemporaryOSDiskID := c.(TemporaryOSDiskID);
     TemporaryOSDiskSnapshotID := c.(TemporaryOSDiskSnapshotID); SkipCleanup := c.(SkipCleanup);
     ImageResourceID := c.(ImageResourceID);
     SharedImageGalleryDestination := c.(SharedImageGalleryDestination); ctx := c.(ctx) |}.

Definition set_CopyFiles (v : slice string) (c : Config) : Config :=
  {| PackerConfig := c.(PackerConfig); ClientConfig := c.(ClientConfig);
     FromScratch := c.(FromScratch); Source := c.(Source); sourceType := c.(sourceType);
     CommandWrapper := c.(CommandWrapper); PreMountCommands := c.(PreMountCommands);
     MountOptions := c.(MountOptions); MountPartition := c.(MountPartition);
     MountPath := c.(MountPath); PostMountCommands := c.(PostMountCommands);
     ChrootMounts := c.(ChrootMounts); CopyFiles := v; OSDiskSizeGB := c.(OSDiskSizeGB);
     OSDiskStorageAccountType := c.(OSDiskStorageAccountType);
     OSDiskCacheType := c.(OSDiskCacheType); ImageHyperVGeneration := c.(ImageHyperVGeneration);
     TemporaryOSDiskID := c.(TemporaryOSDiskID);
     TemporaryOSDiskSnapshotID := c.(TemporaryOSDiskSnapshotID); SkipCleanup := c.(SkipCleanup);
     ImageResourceID := c.(ImageResourceID);
     SharedImageGalleryDestination := c.(SharedImageGalleryDestination); ctx := c.(ctx) |}.

Definition set_OSDiskStorageAccountType (v : string) (c : Config) : Config :=
  {| PackerConfig := c.(PackerConfig); ClientConfig := c.(ClientConfig);
     FromScratch := c.(FromScratch); Source := c.(Source); sourceType := c.(sourceType);
     CommandWrapper := c.(CommandWrapper); PreMountCommands := c.(PreMountCommands);
     MountOptions := c.(MountOptions); MountPartition := c.(MountPartition);
     MountPath := c.(MountPath); PostMountCommands := c.(PostMountCommands);
     ChrootMounts := c.(ChrootMounts); CopyFiles := c.(CopyFiles);
     OSDiskSizeGB := c.(OSDiskSizeGB); OSDiskStorageAccountType := v;
     OSDiskCacheType := c.(OSDiskCacheType); ImageHyperVGeneration := c.(ImageHyperVGeneration);
     TemporaryOSDiskID := c.(TemporaryOSDiskID);
     TemporaryOSDiskSnapshotID := c.(TemporaryOSDiskSnapshotID); SkipCleanup := c.(SkipCleanup);
     ImageResourceID := c.(ImageResourceID);
     SharedImageGalleryDestination := c.(SharedImageGalleryDestination); ctx := c.(ctx) |}.

Definition set_OSDiskCacheType (v : string) (c : Config) : Config :=
  {| PackerConfig := c.(PackerConfig); ClientConfig := c.(ClientConfig);
     FromScratch := c.(FromScratch); Source := c.(Source); sourceType := c.(sourceType);
     CommandWrapper := c.(CommandWrapper); PreMountCommands := c.(PreMountCommands);
     MountOptions := c.(MountOptions); MountPartition := c.(MountPartition);
     MountPath := c.(MountPath); PostMountCommands := c.(PostMountCommands);
     ChrootMounts := c.(ChrootMounts); CopyFiles := c.(CopyFiles);
     OSDiskSizeGB := c.(OSDiskSizeGB); OSDiskStorageAccountType := c.(OSDiskStorageAccountType);
     OSDiskCacheType := v; ImageHyperVGeneration := c.(ImageHyperVGeneration);
     TemporaryOSDiskID := c.(TemporaryOSDiskID);
     TemporaryOSDiskSnapshotID := c.(TemporaryOSDiskSnapshotID); SkipCleanup := c.(SkipCleanup);
     ImageResourceID := c.(ImageResourceID);
     SharedImageGalleryDestination := c.(SharedImageGalleryDestination); ctx := c.(ctx) |}.

Definition set_ImageHyperVGeneration (v : string) (c : Config) : Config :=
  {| PackerConfig := c.(PackerConfig); ClientConfig := c.(ClientConfig);
     FromScratch := c.(FromScratch); Source := c.(Source); sourceType := c.(sourceType);
     CommandWrapper := c.(CommandWrapper); PreMountCommands := c.(PreMountCommands);
     MountOptions := c.(MountOptions); MountPartition := c.(MountPartition);
     MountPath := c.(MountPath); PostMountCommands := c.(PostMountCommands);
     ChrootMounts := c.(ChrootMounts); CopyFiles := c.(CopyFiles);
     OSDiskSizeGB := c.(OSDiskSizeGB); OSDiskStorageAccountType := c.(OSDiskStorageAccountType);
     OSDiskCacheType := c.(OSDiskCacheType); ImageHyperVGeneration := v;
     TemporaryOSDiskID := c.(TemporaryOSDiskID);
     TemporaryOSDiskSnapshotID := c.(TemporaryOSDiskSnapshotID); SkipCleanup := c.(SkipCleanup);
     ImageResourceID := c.(ImageResourceID);
     SharedImageGalleryDestination := c.(SharedImageGalleryDestination); ctx := c.(ctx) |}.

Definition set_TemporaryOSDiskID (v : string) (c : Config) : Config :=
  {| PackerConfig := c.(PackerConfig); ClientConfig := c.(ClientConfig);
     FromScratch := c.(FromScratch); Source := c.(Source); sourceType := c.(sourceType);
     CommandWrapper := c.(CommandWrapper); PreMountCommands := c.(PreMountCommands);
     MountOptions := c.(MountOptions); MountPartition := c.(MountPartition);
     MountPath := c.(MountPath); PostMountCommands := c.(PostMountCommands);
     ChrootMounts := c.(ChrootMounts); CopyFiles := c.(CopyFiles);
     OSDiskSizeGB := c.(OSDiskSizeGB); OSDiskStorageAccountType := c.(OSDiskStorageAccountType);
     OSDiskCacheType := c.(OSDiskCacheType); ImageHyperVGeneration := c.(ImageHyperVGeneration);
     TemporaryOSDiskID := v; TemporaryOSDiskSnapshotID := c.(TemporaryOSDiskSnapshotID);
     SkipCleanup := c.(SkipCleanup); ImageResourceID := c.(ImageResourceID);
     SharedImageGalleryDestination := c.(SharedImageGalleryDestination); ctx := c.(ctx) |}.

Definition set_TemporaryOSDiskSnapshotID (v : string) (c : Config) : Config :=
  {| PackerConfig := c.(PackerConfig); ClientConfig := c.(ClientConfig);
     FromScratch := c.(FromScratch); Source := c.(Source); sourceType := c.(sourceType);
     CommandWrapper := c.(CommandWrapper); PreMountCommands := c.(PreMountCommands);
     MountOptions := c.(MountOptions); MountPartition := c.(MountPartition);
     MountPath := c.(MountPath); PostMountCommands := c.(PostMountCommands);
     ChrootMounts := c.(ChrootMounts); CopyFiles := c.(CopyFiles);
     OSDiskSizeGB := c.(OSDiskSizeGB); OSDiskStorageAccountType := c.(OSDiskStorageAccountType);
     OSDiskCacheType := c.(OSDiskCacheType); ImageHyperVGeneration := c.(ImageHyperVGeneration);
     TemporaryOSDiskID := c.(TemporaryOSDiskID); TemporaryOSDiskSnapshotID := v;
     SkipCleanup := c.(SkipCleanup); ImageResourceID := c.(ImageResourceID);
     SharedImageGalleryDestination := c.(SharedImageGalleryDestination); ctx := c.(ctx) |}.

Definition set_ctx (v : interpolate_Context) (c : Config) : Config :=
  {| PackerConfig := c.(PackerConfig); ClientConfig := c.(ClientConfig);
     FromScratch := c.(FromScratch); Source := c.(Source); sourceType := c.(sourceType);
     CommandWrapper := c.(CommandWrapper); PreMountCommands := c.(PreMountCommands);
     MountOptions := c.(MountOptions); MountPartition := c.(MountPartition);
     MountPath := c.(MountPath); PostMountCommands := c.(PostMountCommands);
     ChrootMounts := c.(ChrootMounts); CopyFiles := c.(CopyFiles);
     OSDiskSizeGB := c.(OSDiskSizeGB); OSDiskStorageAccountType := c.(OSDiskStorageAccountType);
     OSDiskCacheType := c.(OSDiskCacheType); ImageHyperVGeneration := c.(ImageHyperVGeneration);
     TemporaryOSDiskID := c.(TemporaryOSDiskID);
     TemporaryOSDiskSnapshotID := c.(TemporaryOSDiskSnapshotID); SkipCleanup := c.(SkipCleanup);
     ImageResourceID := c.(ImageResourceID);
     SharedImageGalleryDestination := c.(SharedImageGalleryDestination); ctx := v |}.

(** [Config.GetContext], lines 119-121. *)
Definition GetContext (c : Config) : interpolate_Context := c.(ctx).

(** [Builder]. *)
Record Builder : Type := { config : Config; runner : option Runner }.

(** The steps [buildsteps] emits, each with the fields the builder sets;
    a field the builder leaves out has Go's zero value. *)
Record StepCreateNewDiskT : Type := {
  cnd_ResourceID : string;
  cnd_DiskSizeGB : Z;
  cnd_DiskStorageAccountType : string;
  cnd_HyperVGeneration : string;
  cnd_Location : string;
  cnd_PlatformImage : option PlatformImage;
  cnd_SourceDiskResourceID : string;
  cnd_SkipCleanup : bool
}.

Inductive Step : Type :=
| StepVerifySharedImageDestination (Image : SharedImageGalleryDestinationT) (location : string)
| StepCreateNewDisk (d : StepCreateNewDiskT)
| StepResolvePlatformImageVersion (pi : PlatformImage) (location : string)
| StepVerifySourceDisk (SourceDiskResourceID : string) (location : string)
| StepAttachDisk
| StepPreMountCommands (Commands : slice string)
| StepMountDevice (mountOptions : slice string) (mountPartition mountPath : string)
| StepPostMountCommands (Commands : slice string)
| StepMountExtra (chrootMounts : slice (list string))
| StepCopyFiles (Files : slice string)
| StepChrootProvision
| StepEarlyCleanup
| StepCreateImage (imageResourceID ImageOSState osDiskCacheType
                   osDiskStorageAccountType location : string)
| StepCreateSnapshot (ResourceID location : string) (skipCleanup : bool)
| StepCreateSharedImageVersion (Destination : SharedImageGalleryDestinationT)
                               (osDiskCacheType location : string).

(** What the state bag holds. [config_ptr] is [&b.config]: the steps reach
    the builder's configuration through it. [wrappedCommand_value] is the
    closure over the builder that renders [CommandWrapper]. *)
Inductive StateValue : Type :=
| nil_value
| config_ptr
| hook_value (h : Hook)
| ui_value (u : Ui)
| azureclient_value (a : AzureClientSet)
| wrappedCommand_value
| instance_value (i : ComputeInfo)
| error_in_state (e : error)
| dyn_value (d : Dyn).

(** Modelled from the spec: the type [azcommon.Artifact] is declared outside
    [builder.go]. By the data model an artifact holds references to the
    created cloud resources, the field [Resources]; [BuilderIdValue] and
    [StateData] are the two fields that [Run] sets. *)
Record Artifact : Type := {
  Resources : slice string;
  BuilderIdValue : string;
  StateData : gmap string StateValue
}.

(** [config.DecodeOpts] as [Prepare] fills it. *)
Record DecodeOpts : Type := {
  Interpolate : bool;
  InterpolateContext : interpolate_Context;
  InterpolateFilter_Exclude : list string
}.

End Data.

(** ** The collaborating packages *)

(** The functions and constants the builder takes from other packages.
    A function returning [(value, error)] whose value is only used when
    the error is nil is a sum ([inl] the value, [inr] the error); one that
    works on its receiver in place returns the new receiver next to the
    error. *)
Class External {O : Opaque} : Type := {
  (* lines 134-135: ctx.Funcs = azcommon.TemplateFuncs; ctx.Funcs["vm"] = ... *)
  with_template_funcs : interpolate_Context -> interpolate_Context;
  (* config.Decode: the decoded configuration, md.Keys and the error *)
  config_Decode : Config -> DecodeOpts -> Raws -> Config * list string * option error;
  (* client.Config.SetDefaultValues and FillParameters *)
  SetDefaultValues : client_Config -> client_Config * option error;
  FillParameters : client_Config -> client_Config * option error;
  ClientSecret : client_Config -> string;
  ClientJWT : client_Config -> string;
  (* interpolate.Render *)
  interpolate_Render : string -> interpolate_Context -> string + error;
  (* client.ParsePlatformImageURN and azure.ParseResourceID *)
  ParsePlatformImageURN : string -> PlatformImage + error;
  ParseResourceID : string -> Resource + error;
  (* strings.EqualFold and azcommon.StringsContains *)
  EqualFold : string -> string -> bool;
  StringsContains : list string -> string -> bool;
  (* SharedImageGalleryDestination.Validate and .ResourceID *)
  Validate : SharedImageGalleryDestinationT -> string -> list error * list string;
  ResourceID : SharedImageGalleryDestinationT -> string -> string;
  (* constants of the compute package *)
  compute_PremiumLRS : string;
  compute_CachingTypesReadOnly : string;
  compute_V1 : string;
  compute_Generalized : string;
  PossibleCachingTypesValues : list string;
  PossibleDiskStorageAccountTypesValues : list string;
  PossibleHyperVGenerationValues : list string;
  (* runtime.GOOS *)
  runtime_GOOS : string;
  (* client.New, MetadataClient().GetComputeInfo() *)
  client_New : client_Config -> Ui -> AzureClientSet + error;
  GetComputeInfo : AzureClientSet -> ComputeInfo + error;
  (* common.NewRunner, and Runner.Run: the steps work on the state bag and,
     through the pointer stored under "config", on the configuration *)
  common_NewRunner : list Step -> common_PackerConfig -> Ui -> Runner;
  Runner_Run : Runner -> context_Context -> Config -> gmap string StateValue ->
               Config * gmap string StateValue
}.

Section Builder.
Context {O : Opaque} {E : External}.

(** ** Prepare *)

(** The local variables of [Prepare] after decoding: the configuration
    being completed, [errs] and [warns]. [warns] is only ever nil or
    non-empty, so a list stands for it. *)
Record acc : Type := {
  cfg : Config;
  errs : option MultiError;
  warns : list string
}.

Definition on_cfg (f : Config -> Config) (a : acc) : acc :=
  {| cfg := f a.(cfg); errs := a.(errs); warns := a.(warns) |}.

(** [errs = packer.MultiErrorAppend(errs, es...)]. *)
Definition append_errs (es : list error) (a : acc) : acc :=
  {| cfg := a.(cfg);
     errs := Some (MultiErrorAppend (multi_error a.(errs)) es);
     warns := a.(warns) |}.

Definition append_warns (ws : list string) (a : acc) : acc :=
  {| cfg := a.(cfg); errs := a.(errs); warns := a.(warns) ++ ws |}.

Definition default_ChrootMounts : list (list string) :=
  [ ["proc"; "proc"; "/proc"];
    ["sysfs"; "sysfs"; "/sys"];
    ["bind"; "/dev"; "/dev"];
    ["devpts"; "devpts"; "/dev/pts"];
    ["binfmt_misc"; "binfmt_misc"; "/proc/sys/fs/binfmt_misc"] ].

(** Lines 165-184. *)
Definition default_lists (c : Config) : Config :=
  let c := match c.(ChrootMounts) with
           | None => set_ChrootMounts (Some []) c
           | Some _ => c
           end in
  let c := if decide (len c.(ChrootMounts) = 0)
           then set_ChrootMounts (Some default_ChrootMounts) c
           else c in
  match c.(CopyFiles) with
  | None => if negb c.(FromScratch)
            then set_CopyFiles (Some ["/etc/resolv.conf"]) c
            else c
  | Some _ => c
  end.

(** Lines 186-196. *)
Definition default_templates (c : Config) : Config :=
  let c := if decide (c.(CommandWrapper) = "")
           then set_CommandWrapper "{{.Command}}" c else c in
  let c := if decide (c.(MountPath) = "")
           then set_MountPath "/mnt/packer-azure-chroot-disks/{{.Device}}" c else c in
  if decide (c.(MountPartition) = "") then set_MountPartition "1" c else c.

Definition temporary_disk_template : string :=
  "/subscriptions/{{ vm `subscription_id` }}/resourceGroups/{{ vm `resource_group` }}/providers/Microsoft.Compute/disks/PackerTemp-osdisk-{{timestamp}}".

Definition temporary_snapshot_template : string :=
  "/subscriptions/{{ vm `subscription_id` }}/resourceGroups/{{ vm `resource_group` }}/providers/Microsoft.Compute/snapshots/PackerTemp-osdisk-snapshot-{{timestamp}}".

(** Lines 198-206. *)
Definition default_TemporaryOSDiskID (a : acc) : acc :=
  if decide (a.(cfg).(TemporaryOSDiskID) = "") then
    match interpolate_Render temporary_disk_template a.(cfg).(ctx) with
    | inl def => on_cfg (set_TemporaryOSDiskID def) a
    | inr err =>
        append_errs [fmt_Errorf "unable to render temporary disk id: %s" [arg_error err]] a
    end
  else a.

(** Lines 208-216. *)
Definition default_TemporaryOSDiskSnapshotID (a : acc) : acc :=
  if decide (a.(cfg).(TemporaryOSDiskSnapshotID) = "") then
    match interpolate_Render temporary_snapshot_template a.(cfg).(ctx) with
    | inl def => on_cfg (set_TemporaryOSDiskSnapshotID def) a
    | inr err =>
        append_errs [fmt_Errorf "unable to render temporary snapshot id: %s" [arg_error err]] a
    end
  else a.

(** Lines 218-228. *)
Definition default_enums (c : Config) : Config :=
  let c := if decide (c.(OSDiskStorageAccountType) = "")
           then set_OSDiskStorageAccountType compute_PremiumLRS c else c in
  let c := if decide (c.(OSDiskCacheType) = "")
           then set_OSDiskCacheType compute_CachingTypesReadOnly c else c in
  if decide (c.(ImageHyperVGeneration) = "")
  then set_ImageHyperVGeneration compute_V1 c else c.

(** The error of line 255. *)
Definition source_error (source : string) : error :=
  fmt_Errorf "source: %q is not a valid platform image specifier, nor is it a disk resource ID"
             [arg_string source].

(** Lines 232-257. *)
Definition check_source (a : acc) : acc :=
  let c := a.(cfg) in
  if c.(FromScratch) then
    let a := if decide (c.(Source) <> "")
             then append_errs [errors_New "source cannot be specified when building from_scratch"] a
             else a in
    let a := if decide (c.(OSDiskSizeGB) = 0%Z)
             then append_errs [errors_New "os_disk_size_gb is required with from_scratch"] a
             else a in
    if decide (len c.(PreMountCommands) = 0)
    then append_errs [errors_New "pre_mount_commands is required with from_scratch"] a
    else a
  else
    match ParsePlatformImageURN c.(Source) with
    | inl _ => on_cfg (set_sourceType sourcePlatformImage) a
    | inr _ =>
        match ParseResourceID c.(Source) with
        | inl id =>
            if EqualFold id.(Provider) "Microsoft.Compute" && EqualFold id.(ResourceType) "disks"
            then on_cfg (set_sourceType sourceDisk) a
            else append_errs [source_error c.(Source)] a
        | inr _ => append_errs [source_error c.(Source)] a
        end
    end.

(** The loop shared by the three enumeration checks: is [s] one of the
    possible values? *)
Fixpoint is_possible_value (s : string) (values : list string) : bool :=
  match values with
  | [] => false
  | v :: rest => if decide (s = v) then true else is_possible_value s rest
  end.

Definition not_a_valid_value (s : string) (values : list string) : error :=
  fmt_Errorf "%q is not a valid value %v" [arg_string s; arg_strings values].

Definition checkDiskCacheType (s : string) : option error :=
  if is_possible_value s PossibleCachingTypesValues then None
  else Some (not_a_valid_value s PossibleCachingTypesValues).

Definition checkStorageAccountType (s : string) : option error :=
  if is_possible_value s PossibleDiskStorageAccountTypesValues then None
  else Some (not_a_valid_value s PossibleDiskStorageAccountTypesValues).

Definition checkHyperVGeneration (s : string) : option error :=
  if is_possible_value s PossibleHyperVGenerationValues then None
  else Some (not_a_valid_value s PossibleHyperVGenerationValues).

(** Lines 259-265. *)
Definition check_os_disk (a : acc) : acc :=
  let a := match checkDiskCacheType a.(cfg).(OSDiskCacheType) with
           | Some err => append_errs [fmt_Errorf "os_disk_cache_type: %v" [arg_error err]] a
           | None => a
           end in
  match checkStorageAccountType a.(cfg).(OSDiskStorageAccountType) with
  | Some err => append_errs [fmt_Errorf "os_disk_storage_account_type: %v" [arg_error err]] a
  | None => a
  end.

(** The error of lines 272-273. *)
Definition image_resource_id_error (id : string) : error :=
  fmt_Errorf "image_resource_id: %q is not a valid image resource id" [arg_string id].

(** The condition of lines 269-271. *)
Definition not_an_image_id (id : string) : bool :=
  match ParseResourceID id with
  | inr _ => true
  | inl r => negb (EqualFold r.(Provider) "Microsoft.Compute")
             || negb (EqualFold r.(ResourceType) "images")
  end.

(** Lines 267-275. The call on line 272 passes the new error as the first
    argument of [MultiErrorAppend] and does not pass [errs]. *)
Definition check_image_resource_id (a : acc) : acc :=
  if decide (a.(cfg).(ImageResourceID) <> "") then
    if not_an_image_id a.(cfg).(ImageResourceID) then
      {| cfg := a.(cfg);
         errs := Some (MultiErrorAppend
                         (plain_error (image_resource_id_error a.(cfg).(ImageResourceID))) []);
         warns := a.(warns) |}
    else a
  else a.

(** Lines 277-289. *)
Definition check_outputs (md_Keys : list string) (a : acc) : acc :=
  let a :=
    if StringsContains md_Keys "shared_image_destination" then
      let '(e, w) := Validate a.(cfg).(SharedImageGalleryDestination) "shared_image_destination" in
      let a := if decide (0 < length e) then append_errs e a else a in
      if decide (0 < length w) then append_warns w a else a
    else a in
  if negb (StringsContains md_Keys "shared_image_destination")
     && bool_decide (a.(cfg).(ImageResourceID) = "")
  then append_errs [errors_New "image_resource_id or shared_image_destination is required"] a
  else a.

(** Lines 291-293. *)
Definition check_hyperv (a : acc) : acc :=
  match checkHyperVGeneration a.(cfg).(ImageHyperVGeneration) with
  | Some err => append_errs [fmt_Errorf "image_hyperv_generation: %v" [arg_error err]] a
  | None => a
  end.

(** Lines 165-228: the defaults, and lines 165-293: everything between the
    two early returns and the final test of [errs]. *)
Definition apply_defaults (c : Config) : acc :=
  let a := {| cfg := default_templates (default_lists c); errs := None; warns := [] |} in
  let a := default_TemporaryOSDiskID a in
  let a := default_TemporaryOSDiskSnapshotID a in
  on_cfg default_enums a.

Definition resolve (md_Keys : list string) (c : Config) : acc :=
  let a := apply_defaults c in
  let a := check_source a in
  let a := check_os_disk a in
  let a := check_image_resource_id a in
  let a := check_outputs md_Keys a in
  check_hyperv a.

(** What [Prepare] returns, and what it hands to [packer.LogSecretFilter.Set]
    (nothing unless it succeeds). *)
Record PrepareReturn : Type := {
  generated : list string;
  warnings : list string;
  err : error_value;
  secrets : list string
}.

Definition decode_opts (c : Config) : DecodeOpts :=
  {| Interpolate := true;
     InterpolateContext := c.(ctx);
     InterpolateFilter_Exclude :=
       ["command_wrapper"; "post_mount_commands"; "pre_mount_commands"; "mount_path"] |}.

Definition set_config (c : Config) (b : Builder) : Builder :=
  {| config := c; runner := b.(runner) |}.

(** Lines 134-151: the configuration as decoded from the raw input, with
    [md.Keys] and the decoding error. *)
Definition decode_raws (b : Builder) (raws : Raws) : Config * list string * option error :=
  let c := set_ctx (with_template_funcs b.(config).(ctx)) b.(config) in
  config_Decode c (decode_opts c) raws.

Definition Prepare (b : Builder) (raws : Raws) : Builder * PrepareReturn :=
  let '(c, md_Keys, err) := decode_raws b raws in
  match err with
  | Some e =>
      (set_config c b,
       {| generated := []; warnings := []; err := plain_error e; secrets := [] |})
  | None =>
      let '(cc, err) := SetDefaultValues c.(ClientConfig) in
      let c := set_ClientConfig cc c in
      match err with
      | Some e =>
          (set_config c b,
           {| generated := []; warnings := []; err := plain_error e; secrets := [] |})
      | None =>
          let a := resolve md_Keys c in
          match a.(errs) with
          | Some m =>
              (set_config a.(cfg) b,
               {| generated := []; warnings := a.(warns);
                  err := multi_error (Some m); secrets := [] |})
          | None =>
              (set_config a.(cfg) b,
               {| generated := []; warnings := a.(warns); err := nil_error;
                  secrets := [ClientSecret a.(cfg).(ClientConfig);
                              ClientJWT a.(cfg).(ClientConfig)] |})
          end
      end
  end.

(** ** buildsteps *)

(** The values [buildsteps] and [Run] panic with: a string built by
    concatenation (line 452), an error (line 473), and the failed type
    assertion [rawErr.(error)] of line 383. *)
Inductive PanicValue : Type :=
| panic_text (pieces : list fmt_arg)
| panic_error (e : error)
| panic_type_assertion (v : StateValue).

(** Lines 422-475: the steps that acquire the disk. In the platform-image
    branch both steps receive the same pointer [pi]; the model gives each
    the parsed value. *)
Definition source_steps (config : Config) (info : ComputeInfo)
  : outcome (list Step) PanicValue :=
  if config.(FromScratch) then
    Returned
      [StepCreateNewDisk
         {| cnd_ResourceID := config.(TemporaryOSDiskID);
            cnd_DiskSizeGB := config.(OSDiskSizeGB);
            cnd_DiskStorageAccountType := config.(OSDiskStorageAccountType);
            cnd_HyperVGeneration := config.(ImageHyperVGeneration);
            cnd_Location := info.(Location);
            cnd_PlatformImage := None;
            cnd_SourceDiskResourceID := "";
            cnd_SkipCleanup := false |}]
  else if decide (config.(sourceType) = sourcePlatformImage) then
    match ParsePlatformImageURN config.(Source) with
    | inl pi =>
        let steps := if EqualFold pi.(Version) "latest"
                     then [StepResolvePlatformImageVersion pi info.(Location)]
                     else [] in
        Returned
          (steps ++
           [StepCreateNewDisk
              {| cnd_ResourceID := config.(TemporaryOSDiskID);
                 cnd_DiskSizeGB := config.(OSDiskSizeGB);
                 cnd_DiskStorageAccountType := config.(OSDiskStorageAccountType);
                 cnd_HyperVGeneration := config.(ImageHyperVGeneration);
                 cnd_Location := info.(Location);
                 cnd_PlatformImage := Some pi;
                 cnd_SourceDiskResourceID := "";
                 cnd_SkipCleanup := config.(SkipCleanup) |}])
    | inr err =>
        Panicked (panic_text [arg_string "Couldn't parse platfrom image urn: ";
                              arg_string config.(Source);
                              arg_string " err: ";
                              arg_error err])
    end
  else if decide (config.(sourceType) = sourceDisk) then
    Returned
      [StepVerifySourceDisk config.(Source) info.(Location);
       StepCreateNewDisk
         {| cnd_ResourceID := config.(TemporaryOSDiskID);
            cnd_DiskSizeGB := config.(OSDiskSizeGB);
            cnd_DiskStorageAccountType := config.(OSDiskStorageAccountType);
            cnd_HyperVGeneration := config.(ImageHyperVGeneration);
            cnd_Location := info.(Location);
            cnd_PlatformImage := None;
            cnd_SourceDiskResourceID := config.(Source);
            cnd_SkipCleanup := config.(SkipCleanup) |}]
  else
    Panicked (panic_error (fmt_Errorf "Unknown source type: %+q"
                                      [arg_string config.(sourceType)])).

(** Lines 409-410. *)
Definition hasValidSharedImage (config : Config) : bool :=
  let '(e, _) := Validate config.(SharedImageGalleryDestination) "" in
  bool_decide (length e = 0).

(** Lines 477-498. *)
Definition mount_and_provision_steps (config : Config) : list Step :=
  [StepAttachDisk;
   StepPreMountCommands config.(PreMountCommands);
   StepMountDevice config.(MountOptions) config.(MountPartition) config.(MountPath);
   StepPostMountCommands config.(PostMountCommands);
   StepMountExtra config.(ChrootMounts);
   StepCopyFiles config.(CopyFiles);
   StepChrootProvision;
   StepEarlyCleanup].

(** Lines 500-522. *)
Definition output_steps (config : Config) (info : ComputeInfo) : list Step :=
  let steps := [] in
  let steps :=
    if decide (config.(ImageResourceID) <> "") then
      steps ++ [StepCreateImage config.(ImageResourceID) compute_Generalized
                                config.(OSDiskCacheType) config.(OSDiskStorageAccountType)
                                info.(Location)]
    else steps in
  if hasValidSharedImage config then
    steps ++ [StepCreateSnapshot config.(TemporaryOSDiskSnapshotID) info.(Location)
                                 config.(SkipCleanup);
              StepCreateSharedImageVersion config.(SharedImageGalleryDestination)
                                           config.(OSDiskCacheType) info.(Location)]
  else steps.

(** Lines 412-420. *)
Definition verify_destination_steps (config : Config) (info : ComputeInfo) : list Step :=
  if hasValidSharedImage config then
    [StepVerifySharedImageDestination config.(SharedImageGalleryDestination) info.(Location)]
  else [].

Definition buildsteps (config : Config) (info : ComputeInfo)
  : outcome (list Step) PanicValue :=
  let steps := [] in
  let steps := steps ++ verify_destination_steps config info in
  match source_steps config info with
  | Panicked p => Panicked p
  | Returned s =>
      let steps := steps ++ s in
      let steps := steps ++ mount_and_provision_steps config in
      Returned (steps ++ output_steps config info)
  end.

(** ** Run *)

Definition BuilderID : string := "azure.chroot".

(** [state.Get]: nil when the key is absent. *)
Definition state_Get (state : gmap string StateValue) (k : string) : StateValue :=
  default nil_value (state !! k).

Definition set_runner (r : Runner) (b : Builder) : Builder :=
  {| config := b.(config); runner := Some r |}.

Definition Run (b : Builder) (ctx : context_Context) (ui : Ui) (hook : Hook)
  : outcome (Builder * (option Artifact * error_value)) PanicValue :=
  if decide (runtime_GOOS <> "linux") then
    Returned (b, (None, plain_error
      (errors_New "the azure-chroot builder only works on Linux environments")))
  else
    let '(cc, err) := FillParameters b.(config).(ClientConfig) in
    let b := set_config (set_ClientConfig cc b.(config)) b in
    match err with
    | Some err =>
        Returned (b, (None, plain_error
          (fmt_Errorf "error setting Azure client defaults: %v" [arg_error err])))
    | None =>
        match client_New b.(config).(ClientConfig) ui with
        | inr err =>
            Returned (b, (None, plain_error
              (fmt_Errorf "error creating Azure client: %v" [arg_error err])))
        | inl azcli =>
            let state : gmap string StateValue := ∅ in
            let state := <["config" := config_ptr]> state in
            let state := <["hook" := hook_value hook]> state in
            let state := <["ui" := ui_value ui]> state in
            let state := <["azureclient" := azureclient_value azcli]> state in
            let state := <["wrappedCommand" := wrappedCommand_value]> state in
            match GetComputeInfo azcli with
            | inr _ =>
                Returned (b, (None, plain_error
                  (fmt_Errorf ("Error retrieving information ARM resource ID and location"
                               +:+ "of the VM that Packer is running on." +:+ String "010" ""
                               +:+ "Please verify that Packer is running on a proper Azure VM.")
                              [])))
            | inl info =>
                let state := <["instance" := instance_value info]> state in
                match buildsteps b.(config) info with
                | Panicked p => Panicked p
                | Returned steps =>
                    let r := common_NewRunner steps b.(config).(PackerConfig) ui in
                    let b := set_runner r b in
                    let '(c, state) := Runner_Run r ctx b.(config) state in
                    let b := set_config c b in
                    match state !! "error" with
                    | Some (error_in_state e) => Returned (b, (None, plain_error e))
                    | Some v => Panicked (panic_type_assertion v)
                    | None =>
                        let artifact :=
                          {| Resources := None;
                             BuilderIdValue := BuilderID;
                             StateData :=
                               {["generated_data" := state_Get state "generated_data"]} |} in
                        let resources : list string := [] in
                        let resources :=
                          if decide (b.(config).(ImageResourceID) <> "")
                          then resources ++ [b.(config).(ImageResourceID)]
                          else resources in
                        let resources :=
                          if hasValidSharedImage b.(config)
                          then resources ++
                               [ResourceID b.(config).(SharedImageGalleryDestination)
                                           info.(info_SubscriptionID)]
                          else resources in
                        Returned (b, (Some artifact, nil_error))
                    end
                end
            end
        end
    end.

End Builder.

(** ** A concrete instance of the collaborators

    The instance below stands in for the collaborating packages so that
    [Prepare], [buildsteps] and [Run] can be evaluated on examples. It is
    not the code of those packages: raw input is a list of keys with
    values, a platform image specifier is four non-empty fields separated
    by colons, a resource identifier is the nine-segment path
    [/subscriptions/_/resourceGroups/_/providers/_/_/_], and
    [EqualFold] folds the ASCII letters only, which is what Go's
    [strings.EqualFold] does on ASCII strings. *)
Module Sample.

Record Destination : Type := {
  SigResourceGroup : string;
  SigGalleryName : string;
  SigImageName : string;
  SigImageVersion : string
}.

Inductive RawValue : Type :=
| raw_bool (b : bool)
| raw_string (s : string)
| raw_int (z : Z)
| raw_strings (l : list string)
| raw_mounts (l : list (list string))
| raw_destination (d : Destination).

Definition opaque : Opaque :=
  {| Raws := list (string * RawValue);
     common_PackerConfig := unit;
     client_Config := string * string;
     interpolate_Context := bool;
     SharedImageGalleryDestinationT := Destination;
     AzureClientSet := unit;
     Runner := nat;
     context_Context := unit;
     Ui := unit;
     Hook := unit;
     Dyn := string |}.

#[local] Existing Instance opaque.

Fixpoint raw_get (k : string) (raws : list (string * RawValue)) : option RawValue :=
  match raws with
  | [] => None
  | (k', v) :: rest => if decide (k = k') then Some v else raw_get k rest
  end.

Definition get_bool (k : string) (raws : list (string * RawValue)) (d : bool) : bool :=
  match raw_get k raws with Some (raw_bool b) => b | _ => d end.

Definition get_string (k : string) (raws : list (string * RawValue)) (d : string) : string :=
  match raw_get k raws with Some (raw_string s) => s | _ => d end.

Definition get_int (k : string) (raws : list (string * RawValue)) (d : Z) : Z :=
  match raw_get k raws with Some (raw_int z) => z | _ => d end.

Definition get_strings (k : string) (raws : list (string * RawValue)) (d : slice string)
  : slice string :=
  match raw_get k raws with Some (raw_strings l) => Some l | _ => d end.

Definition get_mounts (k : string) (raws : list (string * RawValue))
  (d : slice (list string)) : slice (list string) :=
  match raw_get k raws with Some (raw_mounts l) => Some l | _ => d end.

Definition get_destination (k : string) (raws : list (string * RawValue)) (d : Destination)
  : Destination :=
  match raw_get k raws with Some (raw_destination x) => x | _ => d end.

Definition known_keys : list string :=
  ["from_scratch"; "source"; "command_wrapper"; "pre_mount_commands"; "mount_options";
   "mount_partition"; "mount_path"; "post_mount_commands"; "chroot_mounts"; "copy_files";
   "os_disk_size_gb"; "os_disk_storage_account_type"; "os_disk_cache_type";
   "image_hyperv_generation"; "temporary_os_disk_id"; "temporary_os_disk_snapshot_id";
   "skip_cleanup"; "image_resource_id"; "shared_image_destination"].

Definition decode (c : Config) (opts : DecodeOpts) (raws : list (string * RawValue))
  : Config * list string * option error :=
  match List.find (fun k => negb (bool_decide (k ∈ known_keys))) (map fst raws) with
  | Some k => (c, [], Some (fmt_Errorf "unknown configuration key: %q" [arg_string k]))
  | None =>
      ({| PackerConfig := c.(PackerConfig);
          ClientConfig := c.(ClientConfig);
          FromScratch := get_bool "from_scratch" raws c.(FromScratch);
          Source := get_string "source" raws c.(Source);
          sourceType := c.(sourceType);
          CommandWrapper := get_string "command_wrapper" raws c.(CommandWrapper);
          PreMountCommands := get_strings "pre_mount_commands" raws c.(PreMountCommands);
          MountOptions := get_strings "mount_options" raws c.(MountOptions);
          MountPartition := get_string "mount_partition" raws c.(MountPartition);
          MountPath := get_string "mount_path" raws c.(MountPath);
          PostMountCommands := get_strings "post_mount_commands" raws c.(PostMountCommands);
          ChrootMounts := get_mounts "chroot_mounts" raws c.(ChrootMounts);
          CopyFiles := get_strings "copy_files" raws c.(CopyFiles);
          OSDiskSizeGB := get_int "os_disk_size_gb" raws c.(OSDiskSizeGB);
          OSDiskStorageAccountType :=
            get_string "os_disk_storage_account_type" raws c.(OSDiskStorageAccountType);
          OSDiskCacheType := get_string "os_disk_cache_type" raws c.(OSDiskCacheType);
          ImageHyperVGeneration :=
            get_string "image_hyperv_generation" raws c.(ImageHyperVGeneration);
          TemporaryOSDiskID := get_string "temporary_os_disk_id" raws c.(TemporaryOSDiskID);
          TemporaryOSDiskSnapshotID :=
            get_string "temporary_os_disk_snapshot_id" raws c.(TemporaryOSDiskSnapshotID);
          SkipCleanup := get_bool "skip_cleanup" raws c.(SkipCleanup);
          ImageResourceID := get_string "image_resource_id" raws c.(ImageResourceID);
          SharedImageGalleryDestination :=
            get_destination "shared_image_destination" raws c.(SharedImageGalleryDestination);
          ctx := c.(ctx) |},
       map fst raws, None)
  end.

(** Splitting at a separator, as [strings.Split] does for a one-byte
    separator. *)
Fixpoint split_on (sep : ascii) (s : string) : list string :=
  match s with
  | EmptyString => [""]
  | String a rest =>
      if decide (a = sep) then "" :: split_on sep rest
      else match split_on sep rest with
           | [] => [String a ""]
           | h :: t => String a h :: t
           end
  end.

Definition nonempty (s : string) : bool := negb (bool_decide (s = "")).

Definition parse_urn (urn : string) : PlatformImage + error :=
  match split_on ":" urn with
  | [p; o; s; v] =>
      if nonempty p && nonempty o && nonempty s && nonempty v
      then inl {| Publisher := p; Offer := o; Sku := s; Version := v |}
      else inr (fmt_Errorf "%q is not a valid platform image specifier" [arg_string urn])
  | _ => inr (fmt_Errorf "%q is not a valid platform image specifier" [arg_string urn])
  end.

Definition to_lower (a : ascii) : ascii :=
  let n := N_of_ascii a in
  if ((65 <=? n) && (n <=? 90))%N then ascii_of_N (n + 32) else a.

Fixpoint lower (s : string) : string :=
  match s with
  | EmptyString => EmptyString
  | String a rest => String (to_lower a) (lower rest)
  end.

Definition equal_fold (s t : string) : bool := bool_decide (lower s = lower t).

Definition parse_resource_id (id : string) : Resource + error :=
  match split_on "/" id with
  | [e; k1; sub; k2; rg; k3; prov; ty; name] =>
      if bool_decide (e = "") && equal_fold k1 "subscriptions"
         && equal_fold k2 "resourceGroups" && equal_fold k3 "providers"
         && nonempty sub && nonempty rg && nonempty prov && nonempty ty && nonempty name
      then inl {| SubscriptionID := sub; ResourceGroup := rg; Provider := prov;
                  ResourceType := ty; ResourceName := name |}
      else inr (fmt_Errorf "parsing failed for %s. Invalid resource Id format" [arg_string id])
  | _ => inr (fmt_Errorf "parsing failed for %s. Invalid resource Id format" [arg_string id])
  end.

Definition strings_contains (haystack : list string) (needle : string) : bool :=
  existsb (fun s => equal_fold s needle) haystack.

Definition required (prefix field value : string) : list error :=
  if nonempty value then []
  else [fmt_Errorf "%s.%s is required" [arg_string prefix; arg_string field]].

Definition validate (d : Destination) (prefix : string) : list error * list string :=
  (required prefix "resource_group" d.(SigResourceGroup)
   ++ required prefix "gallery_name" d.(SigGalleryName)
   ++ required prefix "image_name" d.(SigImageName)
   ++ required prefix "image_version" d.(SigImageVersion),
   []).

Definition resource_id (d : Destination) (subscription : string) : string :=
  "/subscriptions/" +:+ subscription +:+ "/resourceGroups/" +:+ d.(SigResourceGroup)
  +:+ "/providers/Microsoft.Compute/galleries/" +:+ d.(SigGalleryName)
  +:+ "/images/" +:+ d.(SigImageName) +:+ "/versions/" +:+ d.(SigImageVersion).

(** Rendering succeeds once the template functions are installed; the
    template is returned as it is. *)
Definition render (template : string) (funcs_installed : bool) : string + error :=
  if funcs_installed then inl template
  else inr (errors_New "template: function vm not defined").

(** A runner whose steps all succeed and store nothing but
    ["generated_data"]. *)
Definition run_all (r : nat) (ctx : unit) (c : Config) (state : gmap string StateValue)
  : Config * gmap string StateValue :=
  (c, <["generated_data" := dyn_value "data"]> state).

Definition external : External :=
  {| with_template_funcs := fun _ => true;
     config_Decode := decode;
     SetDefaultValues := fun cc => (cc, None);
     FillParameters := fun cc => (cc, None);
     ClientSecret := fst;
     ClientJWT := snd;
     interpolate_Render := render;
     ParsePlatformImageURN := parse_urn;
     ParseResourceID := parse_resource_id;
     EqualFold := equal_fold;
     StringsContains := strings_contains;
     Validate := validate;
     ResourceID := resource_id;
     compute_PremiumLRS := "Premium_LRS";
     compute_CachingTypesReadOnly := "ReadOnly";
     compute_V1 := "V1";
     compute_Generalized := "Generalized";
     PossibleCachingTypesValues := ["None"; "ReadOnly"; "ReadWrite"];
     PossibleDiskStorageAccountTypesValues :=
       ["Premium_LRS"; "Standard_LRS"; "StandardSSD_LRS"; "UltraSSD_LRS"];
     PossibleHyperVGenerationValues := ["V1"; "V2"];
     runtime_GOOS := "linux";
     client_New := fun _ _ => inl tt;
     GetComputeInfo := fun _ =>
       inl {| info_SubscriptionID := "sub-1"; Location := "westus" |};
     common_NewRunner := fun steps _ _ => length steps;
     Runner_Run := run_all |}.

#[local] Existing Instance external.

(** A builder that has not been prepared: Go's zero value. *)
Definition zero_Config : Config :=
  {| PackerConfig := tt; ClientConfig := ("", ""); FromScratch := false; Source := "";
     sourceType := ""; CommandWrapper := ""; PreMountCommands := None; MountOptions := None;
     MountPartition := ""; MountPath := ""; PostMountCommands := None; ChrootMounts := None;
     CopyFiles := None; OSDiskSizeGB := 0; OSDiskStorageAccountType := "";
     OSDiskCacheType := ""; ImageHyperVGeneration := ""; TemporaryOSDiskID := "";
     TemporaryOSDiskSnapshotID := ""; SkipCleanup := false; ImageResourceID := "";
     SharedImageGalleryDestination :=
       {| SigResourceGroup := ""; SigGalleryName := ""; SigImageName := "";
          SigImageVersion := "" |};
     ctx := false |}.

Definition new_Builder : Builder := {| config := zero_Config; runner := None |}.

Definition info : ComputeInfo := {| info_SubscriptionID := "sub-1"; Location := "westus" |}.

Definition image_id : string :=
  "/subscriptions/sub-1/resourceGroups/rg-1/providers/Microsoft.Compute/images/img-1".

Definition disk_id : string :=
  "/subscriptions/x/resourceGroups/y/providers/Microsoft.Compute/disks/z".

Definition gallery : Destination :=
  {| SigResourceGroup := "rg-1"; SigGalleryName := "gal"; SigImageName := "img";
     SigImageVersion := "1.0.0" |}.

(** Raw configurations used as examples. *)
Definition raws_platform_image : list (string * RawValue) :=
  [("source", raw_string "Canonical:UbuntuServer:18.04-LTS:latest");
   ("image_resource_id", raw_string image_id)].

Definition raws_disk : list (string * RawValue) :=
  [("source", raw_string disk_id);
   ("skip_cleanup", raw_bool true);
   ("shared_image_destination", raw_destination gallery)].

Definition raws_from_scratch : list (string * RawValue) :=
  [("from_scratch", raw_bool true);
   ("os_disk_size_gb", raw_int 30);
   ("pre_mount_commands", raw_strings ["mkfs.ext4 {{.Device}}"]);
   ("skip_cleanup", raw_bool true);
   ("image_resource_id", raw_string image_id)].

(** A version that is not the literal [latest]. *)
Definition raws_upper_case_latest : list (string * RawValue) :=
  [("source", raw_string "Canonical:UbuntuServer:18.04-LTS:LATEST");
   ("image_resource_id", raw_string image_id)].

(** An explicitly empty [chroot_mounts] and [copy_files]. *)
Definition raws_empty_lists : list (string * RawValue) :=
  [("source", raw_string disk_id);
   ("chroot_mounts", raw_mounts []);
   ("copy_files", raw_strings []);
   ("image_resource_id", raw_string image_id)].

(** Three violated rules of [from_scratch], then an [image_resource_id]
    that is not an image identifier. *)
Definition raws_many_errors : list (string * RawValue) :=
  [("from_scratch", raw_bool true);
   ("source", raw_string "Canonical:UbuntuServer:18.04-LTS:latest");
   ("image_resource_id", raw_string "not-an-image-id")].

(** No output at all, and a source that is neither kind. *)
Definition raws_no_output : list (string * RawValue) :=
  [("source", raw_string "not-a-valid-thing")].

(** A disk source, an image and a shared image destination. *)
Definition raws_two_outputs : list (string * RawValue) :=
  [("source", raw_string disk_id);
   ("image_resource_id", raw_string image_id);
   ("shared_image_destination", raw_destination gallery)].

Definition upper_case_latest : PlatformImage :=
  {| Publisher := "Canonical"; Offer := "UbuntuServer"; Sku := "18.04-LTS";
     Version := "LATEST" |}.

(** From scratch with a source, no disk size and no pre-mount commands, and
    a well formed [image_resource_id]. *)
Definition raws_from_scratch_with_source : list (string * RawValue) :=
  [("from_scratch", raw_bool true);
   ("source", raw_string "Canonical:UbuntuServer:18.04-LTS:latest");
   ("image_resource_id", raw_string image_id)].

(** The disk creation step of [raws_disk]. *)
Definition disk_step : StepCreateNewDiskT :=
  {| cnd_ResourceID := temporary_disk_template;
     cnd_DiskSizeGB := 0;
     cnd_DiskStorageAccountType := "Premium_LRS";
     cnd_HyperVGeneration := "V1";
     cnd_Location := "westus";
     cnd_PlatformImage := None;
     cnd_SourceDiskResourceID := disk_id;
     cnd_SkipCleanup := true |}.

(** The same collaborators with a runner one of whose steps stores a value
    that is not an error under ["error"]. *)
Definition external_stray_value : External :=
  {| with_template_funcs := with_template_funcs;
     config_Decode := config_Decode;
     SetDefaultValues := SetDefaultValues;
     FillParameters := FillParameters;
     ClientSecret := ClientSecret;
     ClientJWT := ClientJWT;
     interpolate_Render := interpolate_Render;
     ParsePlatformImageURN := ParsePlatformImageURN;
     ParseResourceID := ParseResourceID;
     EqualFold := EqualFold;
     StringsContains := StringsContains;
     Validate := Validate;
     ResourceID := ResourceID;
     compute_PremiumLRS := compute_PremiumLRS;
     compute_CachingTypesReadOnly := compute_CachingTypesReadOnly;
     compute_V1 := compute_V1;
     compute_Generalized := compute_Generalized;
     PossibleCachingTypesValues := PossibleCachingTypesValues;
     PossibleDiskStorageAccountTypesValues := PossibleDiskStorageAccountTypesValues;
     PossibleHyperVGenerationValues := PossibleHyperVGenerationValues;
     runtime_GOOS := runtime_GOOS;
     client_New := client_New;
     GetComputeInfo := GetComputeInfo;
     common_NewRunner := common_NewRunner;
     Runner_Run := fun r ctx c state => (c, <["error" := dyn_value "halted"]> state) |}.

(** The configuration and keys decoded from a raw configuration, and the
    configuration that [Prepare] leaves in a new builder. *)
Definition decoded (raws : list (string * RawValue)) : Config :=
  (decode_raws new_Builder raws).1.1.

Definition decoded_keys (raws : list (string * RawValue)) : list string :=
  (decode_raws new_Builder raws).1.2.

Definition prepared (raws : list (string * RawValue)) : Config :=
  (Prepare new_Builder raws).1.(config).

End Sample.

(** * Vocabulary of the properties *)

Section Vocabulary.
Context {O : Opaque} {E : External}.

(** [c'] carries the same request as [c]: the fields without a default. *)
Definition same_request (c c' : Config) : Prop :=
  c'.(PackerConfig) = c.(PackerConfig) /\
  c'.(FromScratch) = c.(FromScratch) /\
  c'.(Source) = c.(Source) /\
  c'.(PreMountCommands) = c.(PreMountCommands) /\
  c'.(MountOptions) = c.(MountOptions) /\
  c'.(PostMountCommands) = c.(PostMountCommands) /\
  c'.(OSDiskSizeGB) = c.(OSDiskSizeGB) /\
  c'.(SkipCleanup) = c.(SkipCleanup) /\
  c'.(ImageResourceID) = c.(ImageResourceID) /\
  c'.(SharedImageGalleryDestination) = c.(SharedImageGalleryDestination).

(** The list fields are the same in [c] and [c']. *)
Definition same_lists (c c' : Config) : Prop :=
  c'.(ChrootMounts) = c.(ChrootMounts) /\ c'.(CopyFiles) = c.(CopyFiles).

(** Every string field with a default that is not empty in [c] is the same
    in [c']. *)
Definition given_kept (c c' : Config) : Prop :=
  (c.(CommandWrapper) <> "" -> c'.(CommandWrapper) = c.(CommandWrapper)) /\
  (c.(MountPath) <> "" -> c'.(MountPath) = c.(MountPath)) /\
  (c.(MountPartition) <> "" -> c'.(MountPartition) = c.(MountPartition)) /\
  (c.(TemporaryOSDiskID) <> "" -> c'.(TemporaryOSDiskID) = c.(TemporaryOSDiskID)) /\
  (c.(TemporaryOSDiskSnapshotID) <> "" ->
   c'.(TemporaryOSDiskSnapshotID) = c.(TemporaryOSDiskSnapshotID)) /\
  (c.(OSDiskStorageAccountType) <> "" ->
   c'.(OSDiskStorageAccountType) = c.(OSDiskStorageAccountType)) /\
  (c.(OSDiskCacheType) <> "" -> c'.(OSDiskCacheType) = c.(OSDiskCacheType)) /\
  (c.(ImageHyperVGeneration) <> "" ->
   c'.(ImageHyperVGeneration) = c.(ImageHyperVGeneration)).

(** The two tests of lines 246-250 on a source string. *)
Definition is_platform_image (s : string) : Prop :=
  exists pi, ParsePlatformImageURN s = inl pi.

Definition is_disk_id (s : string) : Prop :=
  exists id, ParseResourceID s = inl id /\
             EqualFold id.(Provider) "Microsoft.Compute" = true /\
             EqualFold id.(ResourceType) "disks" = true.

(** The three ways lines 246-256 can end: the source type is recorded, or
    the error of line 255 is appended. *)
Definition classified (t : sourceTypeT) (a a' : acc) : Prop :=
  a' = on_cfg (set_sourceType t) a.

Definition rejected (a a' : acc) : Prop :=
  a' = append_errs [source_error a.(cfg).(Source)] a.

(** The shared image destination was given and its validator, called as on
    line 278, reports no error. *)
Definition valid_shared_image_destination (keys : list string) (c : Config) : Prop :=
  StringsContains keys "shared_image_destination" = true /\
  (Validate c.(SharedImageGalleryDestination) "shared_image_destination").1 = [].

(** Kinds of steps. *)
Definition is_resolve_version (s : Step) : bool :=
  match s with StepResolvePlatformImageVersion _ _ => true | _ => false end.

Definition is_create_disk (s : Step) : bool :=
  match s with StepCreateNewDisk _ => true | _ => false end.

Definition is_output_step (s : Step) : bool :=
  match s with
  | StepCreateImage _ _ _ _ _ => true
  | StepCreateSnapshot _ _ _ => true
  | StepCreateSharedImageVersion _ _ _ => true
  | _ => false
  end.

(** Neither a disk creation step nor a version resolution step. *)
Definition not_source_step (s : Step) : Prop :=
  is_create_disk s = false /\ is_resolve_version s = false.

(** [x] occurs in [l] somewhere before an occurrence of [y]. *)
Definition precedes (x y : Step) (l : list Step) : Prop :=
  exists l1 l2 l3, l = l1 ++ x :: l2 ++ y :: l3.

(** The client configuration and the interpolation context are the same in
    [c] and [c']. *)
Definition same_client (c c' : Config) : Prop :=
  c'.(ClientConfig) = c.(ClientConfig) /\ c'.(ctx) = c.(ctx).

(** The two temporary identifiers are the same in [c] and [c']. *)
Definition same_ids (c c' : Config) : Prop :=
  c'.(TemporaryOSDiskID) = c.(TemporaryOSDiskID) /\
  c'.(TemporaryOSDiskSnapshotID) = c.(TemporaryOSDiskSnapshotID).

(** The three enumerated fields and the image identifier are the same in
    [c] and [c']. *)
Definition same_checked (c c' : Config) : Prop :=
  c'.(OSDiskCacheType) = c.(OSDiskCacheType) /\
  c'.(OSDiskStorageAccountType) = c.(OSDiskStorageAccountType) /\
  c'.(ImageHyperVGeneration) = c.(ImageHyperVGeneration).

(** The local variables of [Prepare] after lines 165-196, after line 206 and
    after line 216. *)
Definition stage0 (c : Config) : acc :=
  {| cfg := default_templates (default_lists c); errs := None; warns := [] |}.

Definition stage1 (c : Config) : acc := default_TemporaryOSDiskID (stage0 c).

Definition stage2 (c : Config) : acc := default_TemporaryOSDiskSnapshotID (stage1 c).

(** The errors accumulated so far; none when [errs] is nil. *)
Definition errors_of (a : acc) : list error :=
  match a.(errs) with
  | Some m => m.(Errors)
  | None => []
  end.

(** The three errors of lines 233-244. *)
Definition from_scratch_errors : list error :=
  [errors_New "source cannot be specified when building from_scratch";
   errors_New "os_disk_size_gb is required with from_scratch";
   errors_New "pre_mount_commands is required with from_scratch"].



Definition is_verify_source_disk (s : Step) : bool :=
  match s with StepVerifySourceDisk _ _ => true | _ => false end.

(** An image identifier as lines 268-271 accept it. *)
Definition is_image_id (s : string) : Prop :=
  exists r, ParseResourceID s = inl r /\
            EqualFold r.(Provider) "Microsoft.Compute" = true /\
            EqualFold r.(ResourceType) "images" = true.

(** The conditions under which [Prepare] accepts a decoded configuration:
    each identifier left empty renders, *)
Definition renders_ok (c : Config) : Prop :=
  (c.(TemporaryOSDiskID) = "" ->
   exists s, interpolate_Render temporary_disk_template c.(ctx) = inl s) /\
  (c.(TemporaryOSDiskSnapshotID) = "" ->
   exists s, interpolate_Render temporary_snapshot_template c.(ctx) = inl s).

(** the source mode is well formed, *)
Definition source_ok (c : Config) : Prop :=
  if c.(FromScratch)
  then c.(Source) = "" /\ c.(OSDiskSizeGB) <> 0%Z /\ len c.(PreMountCommands) <> 0
  else is_platform_image c.(Source) \/ is_disk_id c.(Source).

(** each enumerated field, or its default when it is empty, is a possible
    value, *)
Definition enum_or_default (s d : string) : string := if decide (s = "") then d else s.

Definition enums_ok (c : Config) : Prop :=
  enum_or_default c.(OSDiskCacheType) compute_CachingTypesReadOnly
    ∈ PossibleCachingTypesValues /\
  enum_or_default c.(OSDiskStorageAccountType) compute_PremiumLRS
    ∈ PossibleDiskStorageAccountTypesValues /\
  enum_or_default c.(ImageHyperVGeneration) compute_V1 ∈ PossibleHyperVGenerationValues.

(** the image identifier is empty or well formed, *)
Definition image_ok (c : Config) : Prop :=
  c.(ImageResourceID) = "" \/ is_image_id c.(ImageResourceID).

(** and the destination, when its key was decoded, validates, while without
    the key there is an image identifier. *)
Definition outputs_ok (keys : list string) (c : Config) : Prop :=
  if StringsContains keys "shared_image_destination"
  then (Validate c.(SharedImageGalleryDestination) "shared_image_destination").1 = []
  else c.(ImageResourceID) <> "".

Definition acceptable (keys : list string) (c : Config) : Prop :=
  renders_ok c /\ source_ok c /\ enums_ok c /\ image_ok c /\ outputs_ok keys c.

End Vocabulary.

(** * Properties *)

Section Properties.
Context {O : Opaque} {E : External}.

(** ** The accumulator never goes back to nil *)

Lemma append_errs_is_Some es a : is_Some (append_errs es a).(errs).
Proof. by eexists. Qed.

Ltac block_cases :=
  repeat first [ progress simpl
               | case_decide
               | case_match
               | case_bool_decide ].

Lemma default_TemporaryOSDiskID_errs a :
  is_Some a.(errs) -> is_Some (default_TemporaryOSDiskID a).(errs).
Proof. unfold default_TemporaryOSDiskID. block_cases; eauto. Qed.

Lemma default_TemporaryOSDiskSnapshotID_errs a :
  is_Some a.(errs) -> is_Some (default_TemporaryOSDiskSnapshotID a).(errs).
Proof. unfold default_TemporaryOSDiskSnapshotID. block_cases; eauto. Qed.

Lemma check_source_errs a : is_Some a.(errs) -> is_Some (check_source a).(errs).
Proof. unfold check_source. block_cases; eauto. Qed.

Lemma check_os_disk_errs a : is_Some a.(errs) -> is_Some (check_os_disk a).(errs).
Proof. unfold check_os_disk. block_cases; eauto. Qed.

Lemma check_image_resource_id_errs a :
  is_Some a.(errs) -> is_Some (check_image_resource_id a).(errs).
Proof. unfold check_image_resource_id. block_cases; eauto. Qed.

Lemma check_outputs_errs keys a : is_Some a.(errs) -> is_Some (check_outputs keys a).(errs).
Proof. unfold check_outputs. block_cases; eauto. Qed.

Lemma check_hyperv_errs a : is_Some a.(errs) -> is_Some (check_hyperv a).(errs).
Proof. unfold check_hyperv. block_cases; eauto. Qed.

(** The accumulator read backwards: a check that leaves [errs] nil
    started from nil. *)
Lemma nil_before (f : acc -> acc) a :
  (is_Some a.(errs) -> is_Some (f a).(errs)) -> (f a).(errs) = None -> a.(errs) = None.
Proof.
  intros Hmono Hnone. destruct a.(errs) as [m0|] eqn:Ha; [|done].
  destruct Hmono as [m1 Hm]; [by eexists|]. congruence.
Qed.

(** ** The checks do not touch the configuration *)

Lemma check_os_disk_cfg a : (check_os_disk a).(cfg) = a.(cfg).
Proof. unfold check_os_disk. by block_cases. Qed.

Lemma check_image_resource_id_cfg a : (check_image_resource_id a).(cfg) = a.(cfg).
Proof. unfold check_image_resource_id. by block_cases. Qed.

Lemma check_outputs_cfg keys a : (check_outputs keys a).(cfg) = a.(cfg).
Proof. unfold check_outputs. by block_cases. Qed.

Lemma check_hyperv_cfg a : (check_hyperv a).(cfg) = a.(cfg).
Proof. unfold check_hyperv. by block_cases. Qed.

(** ** Fields that [Prepare] only reads *)

Lemma same_request_refl c : same_request c c.
Proof. by repeat split. Qed.

Lemma same_request_trans c1 c2 c3 :
  same_request c1 c2 -> same_request c2 c3 -> same_request c1 c3.
Proof. unfold same_request. intros ? ?. intuition congruence. Qed.

Ltac same_request_block := block_cases; by repeat split.

Lemma default_lists_request c : same_request c (default_lists c).
Proof. unfold default_lists. same_request_block. Qed.

Lemma default_templates_request c : same_request c (default_templates c).
Proof. unfold default_templates. same_request_block. Qed.

Lemma default_enums_request c : same_request c (default_enums c).
Proof. unfold default_enums. same_request_block. Qed.

Lemma default_TemporaryOSDiskID_request a :
  same_request a.(cfg) (default_TemporaryOSDiskID a).(cfg).
Proof. unfold default_TemporaryOSDiskID. same_request_block. Qed.

Lemma default_TemporaryOSDiskSnapshotID_request a :
  same_request a.(cfg) (default_TemporaryOSDiskSnapshotID a).(cfg).
Proof. unfold default_TemporaryOSDiskSnapshotID. same_request_block. Qed.

Lemma check_source_request a : same_request a.(cfg) (check_source a).(cfg).
Proof. unfold check_source. same_request_block. Qed.

Lemma set_ClientConfig_request cc c : same_request c (set_ClientConfig cc c).
Proof. by repeat split. Qed.

Lemma apply_defaults_request c : same_request c (apply_defaults c).(cfg).
Proof.
  unfold apply_defaults. cbn zeta. unfold on_cfg at 1. cbn [cfg].
  eapply same_request_trans; [|apply default_enums_request].
  eapply same_request_trans; [|apply default_TemporaryOSDiskSnapshotID_request].
  eapply same_request_trans; [|apply default_TemporaryOSDiskID_request].
  cbn [cfg].
  eapply same_request_trans; [apply default_lists_request|apply default_templates_request].
Qed.

(** ** [resolve], one check at a time *)

Lemma resolve_cfg keys c : (resolve keys c).(cfg) = (check_source (apply_defaults c)).(cfg).
Proof.
  unfold resolve. cbn zeta.
  by rewrite check_hyperv_cfg, check_outputs_cfg, check_image_resource_id_cfg,
    check_os_disk_cfg.
Qed.

Lemma resolve_request keys c : same_request c (resolve keys c).(cfg).
Proof.
  rewrite resolve_cfg.
  eapply same_request_trans; [apply apply_defaults_request|apply check_source_request].
Qed.

(** When [resolve] ends with [errs] nil, [errs] was nil after every check. *)
Lemma resolve_nil keys c :
  (resolve keys c).(errs) = None ->
  (check_source (apply_defaults c)).(errs) = None /\
  (check_image_resource_id (check_os_disk (check_source (apply_defaults c)))).(errs) = None /\
  (check_outputs keys
     (check_image_resource_id (check_os_disk (check_source (apply_defaults c))))).(errs) = None.
Proof.
  unfold resolve. cbn zeta. intros H.
  apply nil_before in H; [|apply check_hyperv_errs].
  split_and!; [|by apply nil_before in H; [|apply check_outputs_errs]|done].
  apply nil_before in H; [|apply check_outputs_errs].
  apply nil_before in H; [|apply check_image_resource_id_errs].
  by apply nil_before in H; [|apply check_os_disk_errs].
Qed.

(** If [errs] is set after some check, it is set at the end. *)
Lemma resolve_source_error keys c :
  is_Some (check_source (apply_defaults c)).(errs) -> is_Some (resolve keys c).(errs).
Proof.
  intros H. unfold resolve. cbn zeta.
  by apply check_hyperv_errs, check_outputs_errs, check_image_resource_id_errs,
    check_os_disk_errs.
Qed.

(** ** [Prepare] in terms of [resolve] *)

Lemma Prepare_success b raws :
  (Prepare b raws).2.(err) = nil_error ->
  exists c keys cc,
    decode_raws b raws = (c, keys, None) /\
    SetDefaultValues c.(ClientConfig) = (cc, None) /\
    (resolve keys (set_ClientConfig cc c)).(errs) = None /\
    (Prepare b raws).1.(config) = (resolve keys (set_ClientConfig cc c)).(cfg).
Proof.
  unfold Prepare.
  destruct (decode_raws b raws) as [[c keys] [e|]]; [done|].
  destruct (SetDefaultValues c.(ClientConfig)) as [cc [e|]] eqn:Hdef; [done|].
  destruct (resolve keys (set_ClientConfig cc c)).(errs) eqn:Herrs; [done|].
  intros _. by exists c, keys, cc.
Qed.

Lemma Prepare_fails b raws c keys :
  decode_raws b raws = (c, keys, None) ->
  (forall cc, is_Some (resolve keys (set_ClientConfig cc c)).(errs)) ->
  (Prepare b raws).2.(err) <> nil_error.
Proof.
  intros Hdec Herrs. unfold Prepare. rewrite Hdec.
  destruct (SetDefaultValues c.(ClientConfig)) as [cc [e|]]; [done|].
  by destruct (Herrs cc) as [m ->].
Qed.

(** ** Source mode *)

Lemma check_source_nil a :
  (check_source a).(errs) = None ->
  (a.(cfg).(FromScratch) = true /\ a.(cfg).(Source) = "") \/
  (a.(cfg).(FromScratch) = false /\
   (is_platform_image a.(cfg).(Source) \/ is_disk_id a.(cfg).(Source))).
Proof.
  unfold check_source, is_platform_image, is_disk_id.
  destruct a.(cfg).(FromScratch).
  - intros H. left. split; [done|].
    destruct (decide (a.(cfg).(Source) = "")) as [|Hne]; [done|].
    revert H. by repeat case_decide.
  - intros H. right. split; [done|].
    destruct (ParsePlatformImageURN _) as [pi|e1]; [by eauto|].
    destruct (ParseResourceID _) as [id|e2]; [|done].
    destruct (EqualFold id.(Provider) _) eqn:H1; [|done].
    destruct (EqualFold id.(ResourceType) _) eqn:H2; [|done].
    right. by exists id.
Qed.

(** C3. After a successful [Prepare] exactly one of [from_scratch] and a
    non-empty [source] holds, and a decoded configuration that sets both or
    neither makes [Prepare] return an error. The two parsers are assumed to
    reject the empty string. *)
Theorem Prepare_source_mode_exclusive b raws c keys derr :
  (forall pi, ParsePlatformImageURN "" <> inl pi) ->
  (forall id, ParseResourceID "" <> inl id) ->
  decode_raws b raws = (c, keys, derr) ->
  ((Prepare b raws).2.(err) = nil_error ->
   let c' := (Prepare b raws).1.(config) in
   (c'.(FromScratch) = true /\ c'.(Source) = "") \/
   (c'.(FromScratch) = false /\ c'.(Source) <> "")) /\
  ((c.(FromScratch) = true /\ c.(Source) <> "") \/
   (c.(FromScratch) = false /\ c.(Source) = "") ->
   (Prepare b raws).2.(err) <> nil_error).
Proof.
  intros Hurn Hrid Hdec.
  assert (Hok : (Prepare b raws).2.(err) = nil_error ->
    let c' := (Prepare b raws).1.(config) in
    same_request c c' /\
    ((c'.(FromScratch) = true /\ c'.(Source) = "") \/
     (c'.(FromScratch) = false /\ c'.(Source) <> ""))).
  { intros Hnil. destruct (Prepare_success _ _ Hnil) as (c0 & keys0 & cc & Hdec0 & _ & Hres & Hcfg).
    rewrite Hdec in Hdec0. simplify_eq. cbn zeta. rewrite Hcfg.
    pose proof (resolve_request keys0 (set_ClientConfig cc c0)) as Hreq.
    split; [by eapply same_request_trans; [apply set_ClientConfig_request|]|].
    destruct (resolve_nil _ _ Hres) as (Hsrc & _).
    pose proof (apply_defaults_request (set_ClientConfig cc c0)) as Hreq0.
    destruct Hreq as (_ & -> & -> & _). destruct Hreq0 as (_ & Hfs & Hs & _).
    rewrite <-Hfs, <-Hs.
    destruct (check_source_nil _ Hsrc) as [?|[Hfalse Hcls]]; [by left|].
    right. split; [done|]. intros Hempty. rewrite Hempty in Hcls.
    destruct Hcls as [[pi Hpi]|(id & Hid & _)]; [by eapply Hurn|by eapply Hrid]. }
  split; [intros Hnil; by apply Hok|].
  intros Hbad Hnil. destruct (Hok Hnil) as [(_ & Hfs & Hs & _) Hone].
  rewrite Hfs, Hs in Hone. destruct Hbad as [[??]|[??]], Hone as [[??]|[??]]; congruence.
Qed.

(** ** Outputs *)

Lemma check_outputs_missing keys a :
  a.(cfg).(ImageResourceID) = "" ->
  ~ valid_shared_image_destination keys a.(cfg) ->
  is_Some (check_outputs keys a).(errs).
Proof.
  unfold valid_shared_image_destination, check_outputs. intros Hid Hinvalid.
  destruct (StringsContains keys _) eqn:Hkey; cbn [negb andb].
  - destruct (Validate _ _) as [e w] eqn:Hval. cbn [fst] in Hinvalid.
    assert (0 < length e) by (destruct e; [tauto|simpl; lia]).
    repeat case_decide; simpl; try lia; eauto.
  - rewrite bool_decide_eq_true_2 by done. eauto.
Qed.

(** C4. A decoded configuration with neither [image_resource_id] nor a
    valid [shared_image_destination] makes [Prepare] return an error. *)
Theorem Prepare_requires_output b raws c keys derr :
  decode_raws b raws = (c, keys, derr) ->
  c.(ImageResourceID) = "" ->
  ~ valid_shared_image_destination keys c ->
  (Prepare b raws).2.(err) <> nil_error.
Proof.
  intros Hdec Hid Hinvalid. destruct derr as [e|].
  { unfold Prepare. by rewrite Hdec. }
  eapply Prepare_fails; [done|]. intros cc. unfold resolve. cbn zeta.
  apply check_hyperv_errs.
  set (a := check_image_resource_id _).
  assert (Hreq : same_request c a.(cfg)).
  { subst a. rewrite check_image_resource_id_cfg, check_os_disk_cfg.
    eapply same_request_trans; [apply set_ClientConfig_request|].
    eapply same_request_trans; [apply apply_defaults_request|apply check_source_request]. }
  destruct Hreq as (_ & _ & _ & _ & _ & _ & _ & _ & Himg & Hdest).
  apply check_outputs_missing; [congruence|].
  unfold valid_shared_image_destination in *. by rewrite Hdest.
Qed.

(** ** Classification of the source *)

Lemma classified_inj t1 t2 a a' : classified t1 a a' -> classified t2 a a' -> t1 = t2.
Proof.
  unfold classified. intros -> H.
  by apply (f_equal (fun x => x.(cfg).(sourceType))) in H.
Qed.

Lemma append_errs_changes e a f : append_errs [e] a <> on_cfg f a.
Proof.
  intros H. apply (f_equal errs) in H. cbn in H.
  destruct a.(errs) as [m|]; [|done]. simplify_eq.
  apply (f_equal (fun x => length x.(Errors))) in H. cbn in H.
  rewrite length_app in H. cbn in H. lia.
Qed.

Lemma classified_not_rejected t a a' : classified t a a' -> ~ rejected a a'.
Proof.
  unfold classified, rejected. intros -> H. symmetry in H.
  by apply append_errs_changes in H.
Qed.

Lemma check_source_cases a :
  a.(cfg).(FromScratch) = false ->
  (is_platform_image a.(cfg).(Source) /\
   classified sourcePlatformImage a (check_source a)) \/
  (~ is_platform_image a.(cfg).(Source) /\ is_disk_id a.(cfg).(Source) /\
   classified sourceDisk a (check_source a)) \/
  (~ is_platform_image a.(cfg).(Source) /\ ~ is_disk_id a.(cfg).(Source) /\
   rejected a (check_source a)).
Proof.
  intros Hfs. unfold check_source, is_platform_image, is_disk_id, classified, rejected.
  rewrite Hfs.
  destruct (ParsePlatformImageURN _) as [pi|e1]; [left; by eauto|].
  right.
  assert (Hnot : ~ (exists pi : PlatformImage, @inr PlatformImage error e1 = inl pi))
    by (by intros [? ?]).
  destruct (ParseResourceID _) as [id|e2].
  - destruct (EqualFold id.(Provider) _) eqn:H1, (EqualFold id.(ResourceType) _) eqn:H2;
      cbn [andb].
    + left. split_and!; [done| |done]. by exists id.
    + right. split_and!; [done| |done]. intros (id' & ? & ? & ?). congruence.
    + right. split_and!; [done| |done]. intros (id' & ? & ? & ?). congruence.
    + right. split_and!; [done| |done]. intros (id' & ? & ? & ?). congruence.
  - right. split_and!; [done| |done]. by intros (id' & ? & ?).
Qed.

(** C5. With [from_scratch] false, lines 246-256 end in exactly one of three
    ways: the source is recorded as a platform image, recorded as a disk, or
    rejected with an error. It is a platform image exactly when the
    platform image parser accepts it, whatever the resource identifier
    parser says; a disk exactly when the first parser fails, the second
    succeeds, and provider and resource type equal [Microsoft.Compute] and
    [disks] under [EqualFold]; rejected otherwise, and then [Prepare]
    returns an error. *)
Theorem source_classification a b raws c keys :
  a.(cfg).(FromScratch) = false ->
  let s := a.(cfg).(Source) in
  let a' := check_source a in
  ((classified sourcePlatformImage a a' /\ ~ classified sourceDisk a a' /\ ~ rejected a a') \/
   (~ classified sourcePlatformImage a a' /\ classified sourceDisk a a' /\ ~ rejected a a') \/
   (~ classified sourcePlatformImage a a' /\ ~ classified sourceDisk a a' /\ rejected a a')) /\
  (classified sourcePlatformImage a a' <-> is_platform_image s) /\
  (classified sourceDisk a a' <-> ~ is_platform_image s /\ is_disk_id s) /\
  (rejected a a' <-> ~ is_platform_image s /\ ~ is_disk_id s) /\
  (decode_raws b raws = (c, keys, None) ->
   c.(FromScratch) = false ->
   ~ is_platform_image c.(Source) -> ~ is_disk_id c.(Source) ->
   (Prepare b raws).2.(err) <> nil_error).
Proof.
  intros Hfs s a'.
  assert (Hpd : classified sourcePlatformImage a a' -> ~ classified sourceDisk a a').
  { intros H1 H2. by pose proof (classified_inj _ _ _ _ H1 H2). }
  pose proof (classified_not_rejected sourcePlatformImage a a') as Hpr.
  pose proof (classified_not_rejected sourceDisk a a') as Hdr.
  pose proof (check_source_cases a Hfs) as Hcases. fold s a' in Hcases.
  split_and!; [tauto|tauto|tauto|tauto|].
  intros Hdec Hcfs Hnp Hnd. eapply Prepare_fails; [done|]. intros cc.
  apply resolve_source_error.
  pose proof (same_request_trans _ _ _ (set_ClientConfig_request cc c)
                (apply_defaults_request _)) as (_ & Hfs0 & Hs0 & _).
  set (a0 := apply_defaults (set_ClientConfig cc c)) in *.
  destruct (check_source_cases a0) as [[Hp _]|[(_ & Hd & _)|(_ & _ & Hrej)]].
  - congruence.
  - by rewrite Hs0 in Hp.
  - by rewrite Hs0 in Hd.
  - rewrite Hrej. apply append_errs_is_Some.
Qed.

(** ** The step list *)

Lemma buildsteps_eq config info :
  buildsteps config info =
  match source_steps config info with
  | Panicked p => Panicked p
  | Returned s =>
      Returned (verify_destination_steps config info ++ s ++
                mount_and_provision_steps config ++ output_steps config info)
  end.
Proof.
  unfold buildsteps. destruct (source_steps config info); [|done].
  cbn [app]. by rewrite <-!app_assoc.
Qed.

Lemma verify_destination_steps_kinds config info :
  Forall (fun s => not_source_step s /\ is_output_step s = false /\ s <> StepEarlyCleanup)
         (verify_destination_steps config info).
Proof. unfold verify_destination_steps. case_match; by repeat constructor. Qed.

Lemma mount_and_provision_steps_kinds config :
  Forall not_source_step (mount_and_provision_steps config).
Proof. by repeat constructor. Qed.

Lemma output_steps_kinds config info :
  Forall (fun s => not_source_step s /\ is_output_step s = true) (output_steps config info).
Proof. unfold output_steps. do 2 case_match; by repeat constructor. Qed.

Lemma around_source_steps config info (P : Step -> Prop) :
  (forall s, not_source_step s -> P s) ->
  Forall P (verify_destination_steps config info ++
            mount_and_provision_steps config ++ output_steps config info).
Proof.
  intros HP. rewrite !Forall_app. split_and!.
  - eapply Forall_impl; [apply verify_destination_steps_kinds|]. intros s [Hs _]. auto.
  - eapply Forall_impl; [apply mount_and_provision_steps_kinds|]. auto.
  - eapply Forall_impl; [apply output_steps_kinds|]. intros s [Hs _]. auto.
Qed.

(** C9. A configuration that [Prepare] accepted never takes [buildsteps] to
    one of its two panics: with [from_scratch] false its source type is one
    of the two constants and, for a platform image, the source parses
    again. *)
Theorem buildsteps_never_panics b raws info :
  (Prepare b raws).2.(err) = nil_error ->
  let c := (Prepare b raws).1.(config) in
  (c.(FromScratch) = false ->
   (c.(sourceType) = sourcePlatformImage /\ is_platform_image c.(Source)) \/
   c.(sourceType) = sourceDisk) /\
  exists steps, buildsteps c info = Returned steps.
Proof.
  intros Hnil. destruct (Prepare_success _ _ Hnil) as (c0 & keys & cc & _ & _ & Hres & Hcfg).
  cbn zeta. rewrite Hcfg, resolve_cfg. clear Hcfg.
  destruct (resolve_nil _ _ Hres) as (Hsrc & _). clear Hres.
  set (a := apply_defaults (set_ClientConfig cc c0)) in *.
  destruct (check_source_request a) as (_ & Hfs & Hs & _).
  assert (Hinv : (check_source a).(cfg).(FromScratch) = false ->
    ((check_source a).(cfg).(sourceType) = sourcePlatformImage /\
     is_platform_image (check_source a).(cfg).(Source)) \/
    (check_source a).(cfg).(sourceType) = sourceDisk).
  { rewrite Hfs, Hs. intros Hfalse.
    destruct (check_source_cases a Hfalse) as [[Hp Hc]|[(_ & _ & Hc)|(_ & _ & Hc)]];
      rewrite Hc in Hsrc |- *; [by left|by right|done]. }
  split; [done|].
  unfold buildsteps, source_steps.
  destruct (check_source a).(cfg).(FromScratch); [by eexists|].
  destruct Hinv as [[-> [pi ->]]| ->]; [done| |]; by eexists.
Qed.


(** C6, as amended. For a platform image source whose version equals
    [latest] under [EqualFold], the step list has the version resolution
    step immediately before the only disk creation step; for a version
    that does not, the list has no version resolution step. *)
Theorem resolve_version_step config info pi :
  config.(FromScratch) = false ->
  config.(sourceType) = sourcePlatformImage ->
  ParsePlatformImageURN config.(Source) = inl pi ->
  exists steps, buildsteps config info = Returned steps /\
    (EqualFold pi.(Version) "latest" = true ->
     exists d pre post,
       steps = pre ++ StepResolvePlatformImageVersion pi info.(Location)
                   :: StepCreateNewDisk d :: post /\
       precedes (StepResolvePlatformImageVersion pi info.(Location))
                (StepCreateNewDisk d) steps /\
       Forall (fun s => is_create_disk s = false) (pre ++ post)) /\
    (EqualFold pi.(Version) "latest" = false ->
     Forall (fun s => is_resolve_version s = false) steps).
Proof.
  intros Hfs Hty Hpi. rewrite buildsteps_eq. unfold source_steps. rewrite Hfs, Hty, Hpi.
  rewrite decide_True by done. eexists. split; [done|]. split; intros ->.
  - eexists _, (verify_destination_steps config info),
      (mount_and_provision_steps config ++ output_steps config info).
    split_and!; [done| |].
    + by eexists (verify_destination_steps config info), [], _.
    + apply around_source_steps. by intros s [? ?].
  - cbn [app]. apply Forall_app. split.
    + eapply Forall_impl; [apply verify_destination_steps_kinds|]. by intros s [[? ?] _].
    + constructor; [done|]. apply Forall_app. split.
      * eapply Forall_impl; [apply mount_and_provision_steps_kinds|]. by intros s [? ?].
      * eapply Forall_impl; [apply output_steps_kinds|]. by intros s [[? ?] _].
Qed.

Lemma not_source_not_create_disk s : not_source_step s -> is_create_disk s = false.
Proof. by intros [? ?]. Qed.



(** C10. From scratch, the disk creation step has [SkipCleanup] false
    whatever [skip_cleanup] says; in the two other source modes it carries
    the configuration's [skip_cleanup]. In each mode there is exactly one
    disk creation step. *)
Theorem create_disk_skip_cleanup config info :
  (config.(FromScratch) = true ->
   exists d pre post,
     buildsteps config info = Returned (pre ++ StepCreateNewDisk d :: post) /\
     Forall (fun s => is_create_disk s = false) (pre ++ post) /\
     d.(cnd_SkipCleanup) = false) /\
  (config.(FromScratch) = false ->
   forall steps, buildsteps config info = Returned steps ->
   exists d pre post,
     steps = pre ++ StepCreateNewDisk d :: post /\
     Forall (fun s => is_create_disk s = false) (pre ++ post) /\
     d.(cnd_SkipCleanup) = config.(SkipCleanup) /\
     (config.(sourceType) = sourcePlatformImage \/ config.(sourceType) = sourceDisk)).
Proof.
  rewrite buildsteps_eq. unfold source_steps. split; intros ->.
  - eexists _, (verify_destination_steps config info),
      (mount_and_provision_steps config ++ output_steps config info).
    split_and!; [done| |done]. apply around_source_steps. by intros s [? ?].
  - intros steps.
    destruct (decide (config.(sourceType) = sourcePlatformImage)) as [Hp|Hp].
    + destruct (ParsePlatformImageURN _) as [pi|e]; [|done]. intros [= <-].
      eexists _,
        (verify_destination_steps config info ++
         (if EqualFold pi.(Version) "latest"
          then [StepResolvePlatformImageVersion pi info.(Location)] else [])),
        (mount_and_provision_steps config ++ output_steps config info).
      split_and!; [by rewrite <-!app_assoc| |done|by left].
      pose proof (around_source_steps config info _ not_source_not_create_disk) as H.
      rewrite !Forall_app in H |- *. destruct H as (? & ? & ?).
      split_and!; [done| |by apply Forall_app]. case_match; by repeat constructor.
    + destruct (decide (config.(sourceType) = sourceDisk)) as [Hd|Hd]; [|done].
      intros [= <-].
      eexists _,
        (verify_destination_steps config info ++
         [StepVerifySourceDisk config.(Source) info.(Location)]),
        (mount_and_provision_steps config ++ output_steps config info).
      split_and!; [by rewrite <-!app_assoc| |done|by right].
      pose proof (around_source_steps config info _ not_source_not_create_disk) as H.
      rewrite !Forall_app in H |- *. destruct H as (? & ? & ?).
      split_and!; [done| |by apply Forall_app]. by repeat constructor.
Qed.

(** ** Defaults *)

Lemma given_kept_refl c : given_kept c c.
Proof. by repeat split. Qed.

Lemma given_kept_trans c1 c2 c3 : given_kept c1 c2 -> given_kept c2 c3 -> given_kept c1 c3.
Proof.
  unfold given_kept. intros H12 H23. destruct_and!.
  split_and!; intros Hne;
    match goal with
    | H1 : _ -> ?f c2 = ?f c1, H2 : _ -> ?f c3 = ?f c2 |- ?f c3 = ?f c1 =>
        rewrite <-(H1 Hne); apply H2; by rewrite (H1 Hne)
    end.
Qed.

Lemma same_lists_trans c1 c2 c3 : same_lists c1 c2 -> same_lists c2 c3 -> same_lists c1 c3.
Proof. unfold same_lists. intuition congruence. Qed.

Ltac kept_block := block_cases; repeat split; intros; simpl in *; congruence.

Lemma default_lists_kept c : given_kept c (default_lists c).
Proof. unfold default_lists. kept_block. Qed.

Lemma default_templates_kept c :
  same_lists c (default_templates c) /\ given_kept c (default_templates c).
Proof. unfold default_templates. kept_block. Qed.

Lemma default_enums_kept c :
  same_lists c (default_enums c) /\ given_kept c (default_enums c).
Proof. unfold default_enums. kept_block. Qed.

Lemma default_TemporaryOSDiskID_kept a :
  same_lists a.(cfg) (default_TemporaryOSDiskID a).(cfg) /\
  given_kept a.(cfg) (default_TemporaryOSDiskID a).(cfg).
Proof. unfold default_TemporaryOSDiskID. kept_block. Qed.

Lemma default_TemporaryOSDiskSnapshotID_kept a :
  same_lists a.(cfg) (default_TemporaryOSDiskSnapshotID a).(cfg) /\
  given_kept a.(cfg) (default_TemporaryOSDiskSnapshotID a).(cfg).
Proof. unfold default_TemporaryOSDiskSnapshotID. kept_block. Qed.

Lemma check_source_kept a :
  same_lists a.(cfg) (check_source a).(cfg) /\ given_kept a.(cfg) (check_source a).(cfg).
Proof. unfold check_source. kept_block. Qed.

Lemma after_default_lists keys c :
  same_lists (default_lists c) (resolve keys c).(cfg) /\
  given_kept c (resolve keys c).(cfg).
Proof.
  rewrite resolve_cfg. unfold apply_defaults. cbn zeta.
  set (a0 := {| cfg := default_templates (default_lists c); errs := None; warns := [] |}).
  set (a1 := default_TemporaryOSDiskID a0).
  set (a2 := default_TemporaryOSDiskSnapshotID a1).
  set (a3 := on_cfg default_enums a2).
  assert (H0 : same_lists (default_lists c) a0.(cfg) /\ given_kept (default_lists c) a0.(cfg))
    by exact (default_templates_kept (default_lists c)).
  assert (H3 : same_lists a2.(cfg) a3.(cfg) /\ given_kept a2.(cfg) a3.(cfg))
    by exact (default_enums_kept a2.(cfg)).
  destruct H0 as [L0 K0], H3 as [L3 K3].
  destruct (default_TemporaryOSDiskID_kept a0) as [L1 K1].
  destruct (default_TemporaryOSDiskSnapshotID_kept a1) as [L2 K2].
  destruct (check_source_kept a3) as [L4 K4].
  pose proof (default_lists_kept c) as K.
  fold a1 in L1, K1. fold a2 in L2, K2.
  clearbody a0 a1 a2 a3.
  split.
  - eauto using same_lists_trans.
  - eauto 7 using given_kept_trans.
Qed.

Lemma Prepare_config b raws c keys cc :
  decode_raws b raws = (c, keys, None) ->
  SetDefaultValues c.(ClientConfig) = (cc, None) ->
  (Prepare b raws).1.(config) = (resolve keys (set_ClientConfig cc c)).(cfg).
Proof.
  intros Hdec Hdef. unfold Prepare. rewrite Hdec, Hdef.
  by destruct (resolve keys (set_ClientConfig cc c)).(errs).
Qed.

(** C7, as amended. Once decoding and the client defaults succeed,
    [chroot_mounts] is the five-entry default exactly when the decoded list
    is nil or empty, and is the decoded list otherwise; [copy_files] is
    [/etc/resolv.conf] when the decoded list is nil and [from_scratch] is
    false, stays nil when it is nil and [from_scratch] is true, and is the
    decoded list, empty or not, otherwise; the fields without a default
    and the non-empty string fields are as decoded. *)
Theorem Prepare_defaults b raws c keys cc :
  decode_raws b raws = (c, keys, None) ->
  SetDefaultValues c.(ClientConfig) = (cc, None) ->
  let c' := (Prepare b raws).1.(config) in
  (len c.(ChrootMounts) = 0 -> c'.(ChrootMounts) = Some default_ChrootMounts) /\
  (len c.(ChrootMounts) <> 0 -> c'.(ChrootMounts) = c.(ChrootMounts)) /\
  (c.(CopyFiles) = None -> c.(FromScratch) = false ->
   c'.(CopyFiles) = Some ["/etc/resolv.conf"]) /\
  (c.(CopyFiles) = None -> c.(FromScratch) = true -> c'.(CopyFiles) = None) /\
  (c.(CopyFiles) <> None -> c'.(CopyFiles) = c.(CopyFiles)) /\
  same_request c c' /\
  given_kept c c'.
Proof.
  intros Hdec Hdef. cbn zeta. rewrite (Prepare_config _ _ _ _ _ Hdec Hdef).
  set (c1 := set_ClientConfig cc c).
  destruct (after_default_lists keys c1) as [[-> ->] K].
  assert (Hcm : (default_lists c1).(ChrootMounts) =
                if decide (len c.(ChrootMounts) = 0) then Some default_ChrootMounts
                else c.(ChrootMounts)).
  { unfold default_lists. subst c1. destruct c.(ChrootMounts) as [[|m l]|] eqn:H;
      destruct c; cbn in H |- *; rewrite H; block_cases; by simplify_eq. }
  assert (Hcf : (default_lists c1).(CopyFiles) =
                match c.(CopyFiles) with
                | None => if c.(FromScratch) then None else Some ["/etc/resolv.conf"]
                | Some l => Some l
                end).
  { unfold default_lists. subst c1.
    destruct c.(CopyFiles) eqn:H1, c.(FromScratch) eqn:H2;
      destruct c; cbn in H1, H2 |- *; rewrite H1, ?H2; by block_cases. }
  rewrite Hcm, Hcf. split_and!.
  - intros H. by rewrite decide_True.
  - intros H. by rewrite decide_False.
  - by intros -> ->.
  - by intros -> ->.
  - by destruct c.(CopyFiles).
  - eapply same_request_trans; [apply set_ClientConfig_request|apply resolve_request].
  - exact K.
Qed.

(** ** The error of [image_resource_id] *)

Lemma check_image_resource_id_bad a :
  a.(cfg).(ImageResourceID) <> "" ->
  not_an_image_id a.(cfg).(ImageResourceID) = true ->
  (check_image_resource_id a).(errs) =
  Some {| Errors := [image_resource_id_error a.(cfg).(ImageResourceID)] |}.
Proof.
  intros Hne Hbad. unfold check_image_resource_id.
  rewrite decide_True by done. by rewrite Hbad.
Qed.

Lemma check_outputs_appends keys a l :
  a.(cfg).(ImageResourceID) <> "" ->
  a.(errs) = Some {| Errors := l |} ->
  (check_outputs keys a).(errs) =
  Some {| Errors :=
            l ++ if StringsContains keys "shared_image_destination"
                 then (Validate a.(cfg).(SharedImageGalleryDestination)
                                "shared_image_destination").1
                 else [] |}.
Proof.
  intros Hne Herrs. unfold check_outputs.
  destruct (StringsContains keys _); cbn [negb andb].
  - destruct (Validate _ _) as [e w]. cbn [fst].
    destruct (decide (0 < length e)) as [|He].
    + case_decide; cbn; by rewrite Herrs.
    + assert (e = []) as -> by (destruct e; [done|cbn in He; lia]).
      rewrite app_nil_r. by case_decide.
  - rewrite bool_decide_eq_false_2 by done. by rewrite app_nil_r.
Qed.

Lemma check_hyperv_appends a l :
  a.(errs) = Some {| Errors := l |} ->
  (check_hyperv a).(errs) =
  Some {| Errors :=
            l ++ match checkHyperVGeneration a.(cfg).(ImageHyperVGeneration) with
                 | Some e => [fmt_Errorf "image_hyperv_generation: %v" [arg_error e]]
                 | None => []
                 end |}.
Proof.
  intros Herrs. unfold check_hyperv.
  destruct (checkHyperVGeneration _); cbn; rewrite Herrs; [done|by rewrite app_nil_r].
Qed.

(** C1 does not hold of the code. When [image_resource_id] is given and is
    not an image identifier, the aggregate that [Prepare] returns starts
    afresh with that error: it holds that error, then the errors of the
    shared image destination and of [image_hyperv_generation], and none of
    the errors that the checks of lines 198-265 had accumulated. *)
Theorem image_resource_id_error_restarts_errs b raws c keys cc :
  decode_raws b raws = (c, keys, None) ->
  SetDefaultValues c.(ClientConfig) = (cc, None) ->
  c.(ImageResourceID) <> "" ->
  not_an_image_id c.(ImageResourceID) = true ->
  (Prepare b raws).2.(err) =
  multi_error (Some {| Errors :=
    image_resource_id_error c.(ImageResourceID) ::
    (if StringsContains keys "shared_image_destination"
     then (Validate c.(SharedImageGalleryDestination) "shared_image_destination").1
     else []) ++
    match checkHyperVGeneration (Prepare b raws).1.(config).(ImageHyperVGeneration) with
    | Some e => [fmt_Errorf "image_hyperv_generation: %v" [arg_error e]]
    | None => []
    end |}).
Proof.
  intros Hdec Hdef Hne Hbad. rewrite (Prepare_config _ _ _ _ _ Hdec Hdef).
  unfold Prepare. rewrite Hdec, Hdef.
  set (c1 := set_ClientConfig cc c).
  pose proof (same_request_trans _ _ _ (set_ClientConfig_request cc c)
                (resolve_request keys c1)) as (_ & _ & _ & _ & _ & _ & _ & _ & Hid & Hdest).
  revert Hid Hdest. rewrite resolve_cfg. unfold resolve. cbn zeta.
  set (a := check_os_disk (check_source (apply_defaults c1))).
  rewrite <-(check_os_disk_cfg (check_source (apply_defaults c1))). fold a.
  intros Hid Hdest.
  assert (Ha : (check_image_resource_id a).(errs) =
               Some {| Errors := [image_resource_id_error c.(ImageResourceID)] |}).
  { rewrite <-Hid. apply check_image_resource_id_bad; by rewrite Hid. }
  apply (check_outputs_appends keys) in Ha;
    [|by rewrite check_image_resource_id_cfg, Hid].
  apply check_hyperv_appends in Ha.
  rewrite check_outputs_cfg, !check_image_resource_id_cfg in Ha.
  rewrite Ha, Hdest. by rewrite <-app_assoc.
Qed.

(** ** The artifact *)

(** C2 does not hold of the code. Whenever [Run] returns an artifact, the
    artifact's [Resources] is nil and its state data holds nothing but
    ["generated_data"]: the identifiers collected in [resources] on lines
    391-397 are not stored in it. *)
Theorem Run_artifact_without_resources b ctx ui hook b' artifact e :
  Run b ctx ui hook = Returned (b', (Some artifact, e)) ->
  artifact.(Resources) = None /\
  artifact.(BuilderIdValue) = BuilderID /\
  dom artifact.(StateData) = {["generated_data"]} /\
  e = nil_error.
Proof.
  unfold Run. case_decide; [done|].
  destruct (FillParameters _) as [cc [e1|]]; [done|].
  destruct (client_New _ _) as [azcli|e2]; [|done].
  destruct (GetComputeInfo _) as [info|e3]; [|done].
  destruct (buildsteps _ _) as [steps|p]; [|done].
  destruct (Runner_Run _ _ _ _) as [c state].
  destruct (state !! "error") as [[]|]; try done.
  intros [= <- <- <-]. cbn. split_and!; try done; by rewrite dom_singleton_L.
Qed.

(** * Further properties *)

(** ** The stages of [resolve] *)

Lemma cfg_on_cfg f a : (on_cfg f a).(cfg) = f a.(cfg).
Proof. reflexivity. Qed.

Lemma apply_defaults_stage2 c : apply_defaults c = on_cfg default_enums (stage2 c).
Proof. cbv delta [apply_defaults stage2 stage1 stage0] beta zeta. reflexivity. Qed.

(** A relation kept by the last blocks is kept from each stage to the end. *)
Lemma after_stage2 (R : Config -> Config -> Prop) keys c :
  (forall c1 c2 c3, R c1 c2 -> R c2 c3 -> R c1 c3) ->
  (forall c, R c (default_enums c)) ->
  (forall a, R a.(cfg) (check_source a).(cfg)) ->
  R (stage2 c).(cfg) (resolve keys c).(cfg).
Proof.
  intros Htrans Henums Hsource. rewrite resolve_cfg, apply_defaults_stage2.
  pose proof (Hsource (on_cfg default_enums (stage2 c))) as H.
  rewrite cfg_on_cfg in H. exact (Htrans _ _ _ (Henums (stage2 c).(cfg)) H).
Qed.

Lemma after_stage1 (R : Config -> Config -> Prop) keys c :
  (forall c1 c2 c3, R c1 c2 -> R c2 c3 -> R c1 c3) ->
  (forall a, R a.(cfg) (default_TemporaryOSDiskSnapshotID a).(cfg)) ->
  (forall c, R c (default_enums c)) ->
  (forall a, R a.(cfg) (check_source a).(cfg)) ->
  R (stage1 c).(cfg) (resolve keys c).(cfg).
Proof.
  intros Htrans Hsnap Henums Hsource.
  exact (Htrans _ _ _ (Hsnap (stage1 c)) (after_stage2 R keys c Htrans Henums Hsource)).
Qed.

Lemma after_stage0 (R : Config -> Config -> Prop) keys c :
  (forall c1 c2 c3, R c1 c2 -> R c2 c3 -> R c1 c3) ->
  (forall a, R a.(cfg) (default_TemporaryOSDiskID a).(cfg)) ->
  (forall a, R a.(cfg) (default_TemporaryOSDiskSnapshotID a).(cfg)) ->
  (forall c, R c (default_enums c)) ->
  (forall a, R a.(cfg) (check_source a).(cfg)) ->
  R (default_templates (default_lists c)) (resolve keys c).(cfg).
Proof.
  intros Htrans Hdisk Hsnap Henums Hsource.
  exact (Htrans _ _ _ (Hdisk (stage0 c))
           (after_stage1 R keys c Htrans Hsnap Henums Hsource)).
Qed.

Lemma through_resolve (R : Config -> Config -> Prop) keys c :
  (forall c1 c2 c3, R c1 c2 -> R c2 c3 -> R c1 c3) ->
  (forall c, R c (default_lists c)) ->
  (forall c, R c (default_templates c)) ->
  (forall a, R a.(cfg) (default_TemporaryOSDiskID a).(cfg)) ->
  (forall a, R a.(cfg) (default_TemporaryOSDiskSnapshotID a).(cfg)) ->
  (forall c, R c (default_enums c)) ->
  (forall a, R a.(cfg) (check_source a).(cfg)) ->
  R c (resolve keys c).(cfg).
Proof.
  intros Htrans Hlists Htemplates Hdisk Hsnap Henums Hsource.
  exact (Htrans _ _ _ (Hlists c)
           (Htrans _ _ _ (Htemplates (default_lists c))
              (after_stage0 R keys c Htrans Hdisk Hsnap Henums Hsource))).
Qed.

(** ** The client configuration and the context *)

Lemma same_client_trans c1 c2 c3 : same_client c1 c2 -> same_client c2 c3 -> same_client c1 c3.
Proof. unfold same_client. intuition congruence. Qed.

Lemma default_lists_client c : same_client c (default_lists c).
Proof. unfold default_lists. same_request_block. Qed.

Lemma default_templates_client c : same_client c (default_templates c).
Proof. unfold default_templates. same_request_block. Qed.

Lemma default_enums_client c : same_client c (default_enums c).
Proof. unfold default_enums. same_request_block. Qed.

Lemma default_TemporaryOSDiskID_client a :
  same_client a.(cfg) (default_TemporaryOSDiskID a).(cfg).
Proof. unfold default_TemporaryOSDiskID. same_request_block. Qed.

Lemma default_TemporaryOSDiskSnapshotID_client a :
  same_client a.(cfg) (default_TemporaryOSDiskSnapshotID a).(cfg).
Proof. unfold default_TemporaryOSDiskSnapshotID. same_request_block. Qed.

Lemma check_source_client a : same_client a.(cfg) (check_source a).(cfg).
Proof. unfold check_source. same_request_block. Qed.

Lemma resolve_client keys c : same_client c (resolve keys c).(cfg).
Proof.
  apply through_resolve;
    [exact same_client_trans|exact default_lists_client|exact default_templates_client|
     exact default_TemporaryOSDiskID_client|exact default_TemporaryOSDiskSnapshotID_client|
     exact default_enums_client|exact check_source_client].
Qed.

(** ** How [Prepare] ends *)

Lemma Prepare_return b raws c keys cc :
  decode_raws b raws = (c, keys, None) ->
  SetDefaultValues c.(ClientConfig) = (cc, None) ->
  let r := resolve keys (set_ClientConfig cc c) in
  (Prepare b raws).2.(warnings) = r.(warns) /\
  (Prepare b raws).2.(generated) = [] /\
  match r.(errs) with
  | Some m => (Prepare b raws).2.(err) = multi_error (Some m) /\
              (Prepare b raws).2.(secrets) = []
  | None => (Prepare b raws).2.(err) = nil_error /\
            (Prepare b raws).2.(secrets) = [ClientSecret cc; ClientJWT cc]
  end.
Proof.
  intros Hdec Hdef. cbn zeta.
  destruct (resolve_client keys (set_ClientConfig cc c)) as [Hcc _].
  unfold Prepare. rewrite Hdec, Hdef.
  destruct (resolve keys (set_ClientConfig cc c)).(errs); cbn; [done|].
  by rewrite Hcc.
Qed.

(** X9. [Prepare] hands the client secrets to the log filter exactly when it
    succeeds, and then they are those of the client configuration that
    [SetDefaultValues] returned. *)
Theorem secrets_only_on_success b raws :
  ((Prepare b raws).2.(err) <> nil_error -> (Prepare b raws).2.(secrets) = []) /\
  ((Prepare b raws).2.(err) = nil_error ->
   exists c keys cc,
     decode_raws b raws = (c, keys, None) /\
     SetDefaultValues c.(ClientConfig) = (cc, None) /\
     (Prepare b raws).1.(config).(ClientConfig) = cc /\
     (Prepare b raws).2.(secrets) = [ClientSecret cc; ClientJWT cc]).
Proof.
  destruct (decode_raws b raws) as [[c keys] [e|]] eqn:Hdec.
  { unfold Prepare. rewrite Hdec. by split. }
  destruct (SetDefaultValues c.(ClientConfig)) as [cc [e|]] eqn:Hdef.
  { unfold Prepare. rewrite Hdec, Hdef. by split. }
  pose proof (Prepare_return _ _ _ _ _ Hdec Hdef) as (_ & _ & Hend).
  pose proof (Prepare_config _ _ _ _ _ Hdec Hdef) as Hcfg.
  destruct (resolve_client keys (set_ClientConfig cc c)) as [Hcc _].
  destruct (resolve keys (set_ClientConfig cc c)).(errs) as [m|];
    destruct Hend as [Herr Hsec]; split; intros H; try congruence.
  exists c, keys, cc. split_and!; try done. by rewrite Hcfg, Hcc.
Qed.

(** ** Warnings *)

Lemma default_TemporaryOSDiskID_warns a : (default_TemporaryOSDiskID a).(warns) = a.(warns).
Proof. unfold default_TemporaryOSDiskID. by block_cases. Qed.

Lemma default_TemporaryOSDiskSnapshotID_warns a :
  (default_TemporaryOSDiskSnapshotID a).(warns) = a.(warns).
Proof. unfold default_TemporaryOSDiskSnapshotID. by block_cases. Qed.

Lemma check_source_warns a : (check_source a).(warns) = a.(warns).
Proof. unfold check_source. by block_cases. Qed.

Lemma check_os_disk_warns a : (check_os_disk a).(warns) = a.(warns).
Proof. unfold check_os_disk. by block_cases. Qed.

Lemma check_image_resource_id_warns a : (check_image_resource_id a).(warns) = a.(warns).
Proof. unfold check_image_resource_id. by block_cases. Qed.

Lemma check_hyperv_warns a : (check_hyperv a).(warns) = a.(warns).
Proof. unfold check_hyperv. by block_cases. Qed.

Lemma check_outputs_warns keys a :
  (check_outputs keys a).(warns) =
  a.(warns) ++ if StringsContains keys "shared_image_destination"
               then (Validate a.(cfg).(SharedImageGalleryDestination)
                              "shared_image_destination").2
               else [].
Proof.
  unfold check_outputs. destruct (StringsContains keys _); cbn [negb andb].
  - destruct (Validate _ _) as [e w]. cbn [snd].
    destruct (decide (0 < length w)) as [|Hw].
    + by case_decide.
    + assert (w = []) as -> by (destruct w; [done|cbn in Hw; lia]).
      rewrite app_nil_r. by case_decide.
  - rewrite app_nil_r. by case_bool_decide.
Qed.

Lemma apply_defaults_warns c : (apply_defaults c).(warns) = [].
Proof.
  rewrite apply_defaults_stage2. cbn [on_cfg warns]. unfold stage2, stage1.
  by rewrite default_TemporaryOSDiskSnapshotID_warns, default_TemporaryOSDiskID_warns.
Qed.

(** X8. The warnings [Prepare] returns once decoding and the client defaults
    have succeeded are exactly those of the destination's validator when
    [shared_image_destination] was decoded, and none otherwise, whether
    [Prepare] then fails or not. *)
Theorem Prepare_warnings b raws c keys cc :
  decode_raws b raws = (c, keys, None) ->
  SetDefaultValues c.(ClientConfig) = (cc, None) ->
  (Prepare b raws).2.(warnings) =
  if StringsContains keys "shared_image_destination"
  then (Validate c.(SharedImageGalleryDestination) "shared_image_destination").2
  else [].
Proof.
  intros Hdec Hdef. destruct (Prepare_return _ _ _ _ _ Hdec Hdef) as (-> & _).
  set (c1 := set_ClientConfig cc c).
  pose proof (same_request_trans _ _ _ (set_ClientConfig_request cc c)
                (resolve_request keys c1)) as (_ & _ & _ & _ & _ & _ & _ & _ & _ & Hdest).
  revert Hdest. rewrite resolve_cfg. unfold resolve. cbn zeta.
  rewrite check_hyperv_warns, check_outputs_warns, check_image_resource_id_warns,
    check_os_disk_warns, check_source_warns, apply_defaults_warns.
  rewrite check_image_resource_id_cfg, check_os_disk_cfg. by intros ->.
Qed.

(** ** What a check that leaves [errs] nil has found *)

Lemma check_os_disk_nil a :
  (check_os_disk a).(errs) = None ->
  checkDiskCacheType a.(cfg).(OSDiskCacheType) = None /\
  checkStorageAccountType a.(cfg).(OSDiskStorageAccountType) = None /\
  a.(errs) = None.
Proof.
  unfold check_os_disk.
  destruct (checkDiskCacheType _); cbn [cfg append_errs];
    destruct (checkStorageAccountType _); by cbn.
Qed.

Lemma check_hyperv_nil a :
  (check_hyperv a).(errs) = None ->
  checkHyperVGeneration a.(cfg).(ImageHyperVGeneration) = None /\ a.(errs) = None.
Proof. unfold check_hyperv. by destruct (checkHyperVGeneration _). Qed.

Lemma check_image_resource_id_nil a :
  (check_image_resource_id a).(errs) = None ->
  (a.(cfg).(ImageResourceID) = "" \/ not_an_image_id a.(cfg).(ImageResourceID) = false) /\
  a.(errs) = None.
Proof.
  unfold check_image_resource_id.
  destruct (decide (a.(cfg).(ImageResourceID) <> "")) as [Hne|He].
  - destruct (not_an_image_id _); [done|]. intros H. split; [by right|done].
  - intros H. split; [left|done]. by destruct (decide (a.(cfg).(ImageResourceID) = "")).
Qed.

Lemma check_outputs_nil keys a :
  (check_outputs keys a).(errs) = None ->
  (a.(cfg).(ImageResourceID) <> "" \/ valid_shared_image_destination keys a.(cfg)) /\
  a.(errs) = None.
Proof.
  intros H. split; [|by apply nil_before in H; [|apply check_outputs_errs]].
  destruct (decide (a.(cfg).(ImageResourceID) = "")) as [He|Hne]; [|by left].
  right. revert H. unfold check_outputs, valid_shared_image_destination.
  destruct (StringsContains keys _); cbn [negb andb].
  - destruct (Validate _ _) as [e w]. cbn [fst]. destruct e as [|e0 e]; [done|].
    repeat case_decide; cbn in *; try lia; done.
  - by rewrite bool_decide_eq_true_2.
Qed.

(** Everything the checks of lines 259-293 have established when [resolve]
    ends with [errs] nil. *)
Lemma resolve_nil_checks keys c :
  (resolve keys c).(errs) = None ->
  let c' := (resolve keys c).(cfg) in
  checkDiskCacheType c'.(OSDiskCacheType) = None /\
  checkStorageAccountType c'.(OSDiskStorageAccountType) = None /\
  checkHyperVGeneration c'.(ImageHyperVGeneration) = None /\
  (c'.(ImageResourceID) = "" \/ not_an_image_id c'.(ImageResourceID) = false) /\
  (c'.(ImageResourceID) <> "" \/ valid_shared_image_destination keys c').
Proof.
  cbn zeta. rewrite resolve_cfg. unfold resolve. cbn zeta.
  set (a := check_source (apply_defaults c)). intros H.
  apply check_hyperv_nil in H as [Hh H].
  apply check_outputs_nil in H as [Ho H].
  apply check_image_resource_id_nil in H as [Hi H].
  apply check_os_disk_nil in H as (Hc & Hs & _).
  rewrite check_outputs_cfg, check_image_resource_id_cfg, check_os_disk_cfg in Hh.
  rewrite check_image_resource_id_cfg, check_os_disk_cfg in Ho.
  rewrite check_os_disk_cfg in Hi. done.
Qed.

(** ** The enumeration checks *)

Lemma is_possible_value_spec s values : is_possible_value s values = true <-> s ∈ values.
Proof.
  induction values as [|v values IH]; cbn.
  - split; [done|]. by intros ?%elem_of_nil.
  - rewrite elem_of_cons. case_decide as Hsv; [by split; [left|]|].
    rewrite IH. split; [by right|]. by intros [?|?].
Qed.

(** X6. Each of the three checks of lines 303-331 returns nil exactly for the
    values of its list (compared as they are, case included), and otherwise
    an error that carries the rejected value and the list. *)
Theorem enum_checks_accept_listed_values s :
  (checkDiskCacheType s = None <-> s ∈ PossibleCachingTypesValues) /\
  (checkStorageAccountType s = None <-> s ∈ PossibleDiskStorageAccountTypesValues) /\
  (checkHyperVGeneration s = None <-> s ∈ PossibleHyperVGenerationValues) /\
  (s ∉ PossibleCachingTypesValues ->
   checkDiskCacheType s = Some (not_a_valid_value s PossibleCachingTypesValues)) /\
  (s ∉ PossibleDiskStorageAccountTypesValues ->
   checkStorageAccountType s
   = Some (not_a_valid_value s PossibleDiskStorageAccountTypesValues)) /\
  (s ∉ PossibleHyperVGenerationValues ->
   checkHyperVGeneration s = Some (not_a_valid_value s PossibleHyperVGenerationValues)).
Proof.
  unfold checkDiskCacheType, checkStorageAccountType, checkHyperVGeneration.
  rewrite <-!is_possible_value_spec.
  destruct (is_possible_value s PossibleCachingTypesValues),
    (is_possible_value s PossibleDiskStorageAccountTypesValues),
    (is_possible_value s PossibleHyperVGenerationValues); naive_solver.
Qed.

Lemma check_accepts (check : string -> option error) values s :
  (check s = if is_possible_value s values then None
             else Some (not_a_valid_value s values)) ->
  check s = None -> s ∈ values.
Proof.
  intros -> H. apply is_possible_value_spec. by destruct (is_possible_value s values).
Qed.

(** X5. In a configuration that [Prepare] accepted, the cache type, the storage
    account type and the Hyper-V generation are each one of the possible
    values of the compute package. *)
Theorem prepared_enums_valid b raws :
  (Prepare b raws).2.(err) = nil_error ->
  let c := (Prepare b raws).1.(config) in
  c.(OSDiskCacheType) ∈ PossibleCachingTypesValues /\
  c.(OSDiskStorageAccountType) ∈ PossibleDiskStorageAccountTypesValues /\
  c.(ImageHyperVGeneration) ∈ PossibleHyperVGenerationValues.
Proof.
  intros Hnil. destruct (Prepare_success _ _ Hnil) as (c0 & keys & cc & _ & _ & Hres & Hcfg).
  cbn zeta. rewrite Hcfg.
  destruct (resolve_nil_checks _ _ Hres) as (Hc & Hs & Hh & _).
  split_and!.
  - exact (check_accepts checkDiskCacheType _ _ eq_refl Hc).
  - exact (check_accepts checkStorageAccountType _ _ eq_refl Hs).
  - exact (check_accepts checkHyperVGeneration _ _ eq_refl Hh).
Qed.

(** X7. In a configuration that [Prepare] accepted, [image_resource_id] is
    empty or parses as a resource of provider [Microsoft.Compute] and type
    [images] under [EqualFold]. *)
Theorem prepared_image_id_valid b raws :
  (Prepare b raws).2.(err) = nil_error ->
  let c := (Prepare b raws).1.(config) in
  c.(ImageResourceID) = "" \/ is_image_id c.(ImageResourceID).
Proof.
  intros Hnil. destruct (Prepare_success _ _ Hnil) as (c0 & keys & cc & _ & _ & Hres & Hcfg).
  cbn zeta. rewrite Hcfg.
  destruct (resolve_nil_checks _ _ Hres) as (_ & _ & _ & [He|Hok] & _); [by left|].
  right. revert Hok. unfold not_an_image_id, is_image_id.
  destruct (ParseResourceID _) as [r|e]; [|done].
  destruct (EqualFold r.(Provider) _) eqn:H1, (EqualFold r.(ResourceType) _) eqn:H2;
    try done. intros _. by exists r.
Qed.

(** ** The requirements of [from_scratch] *)

Lemma check_source_from_scratch a :
  a.(cfg).(FromScratch) = true ->
  (check_source a).(errs) = None ->
  a.(cfg).(Source) = "" /\ a.(cfg).(OSDiskSizeGB) <> 0%Z /\ len a.(cfg).(PreMountCommands) <> 0.
Proof.
  unfold check_source. intros ->.
  destruct (decide (a.(cfg).(Source) = "")), (decide (a.(cfg).(OSDiskSizeGB) = 0%Z)),
    (decide (len a.(cfg).(PreMountCommands) = 0)); by repeat case_decide.
Qed.

(** X4. With [from_scratch], a configuration without [os_disk_size_gb] or
    without [pre_mount_commands] makes [Prepare] return an error, and a
    configuration that [Prepare] accepts has both. *)
Theorem from_scratch_requirements b raws c keys derr :
  decode_raws b raws = (c, keys, derr) ->
  c.(FromScratch) = true ->
  (c.(OSDiskSizeGB) = 0%Z \/ len c.(PreMountCommands) = 0 ->
   (Prepare b raws).2.(err) <> nil_error) /\
  ((Prepare b raws).2.(err) = nil_error ->
   (Prepare b raws).1.(config).(OSDiskSizeGB) <> 0%Z /\
   len (Prepare b raws).1.(config).(PreMountCommands) <> 0).
Proof.
  intros Hdec Hfs.
  assert (Hok : (Prepare b raws).2.(err) = nil_error ->
    same_request c (Prepare b raws).1.(config) /\
    c.(OSDiskSizeGB) <> 0%Z /\ len c.(PreMountCommands) <> 0).
  { intros Hnil. destruct (Prepare_success _ _ Hnil) as (c0 & keys0 & cc & Hdec0 & _ & Hres & Hcfg).
    rewrite Hdec in Hdec0. simplify_eq. rewrite Hcfg.
    pose proof (same_request_trans _ _ _ (set_ClientConfig_request cc c0)
                  (resolve_request keys0 _)) as Hreq.
    split; [done|]. destruct (resolve_nil _ _ Hres) as (Hsrc & _).
    pose proof (same_request_trans _ _ _ (set_ClientConfig_request cc c0)
                  (apply_defaults_request _)) as (_ & Hfs0 & _ & Hpm & _ & _ & Hsz & _).
    destruct (check_source_from_scratch _ (eq_trans Hfs0 Hfs) Hsrc) as (_ & ? & ?).
    split; congruence. }
  split.
  - intros Hmiss Hnil. destruct (Hok Hnil) as (_ & ? & ?). by destruct Hmiss.
  - intros Hnil. destruct (Hok Hnil) as ((_ & _ & _ & -> & _ & _ & -> & _) & ? & ?). done.
Qed.

(** ** The shape of the returned error *)

Lemma append_errs_nonempty es a m :
  es <> [] -> (append_errs es a).(errs) = Some m -> m.(Errors) <> [].
Proof.
  intros Hes [= <-]. destruct a.(errs) as [m0|]; cbn; [|done].
  destruct m0.(Errors); [done|]. by destruct es.
Qed.

Ltac nonempty_block :=
  repeat first [case_decide | case_match]; cbn [on_cfg errs]; intros Hacc mres Hres;
  first [ by apply (Hacc mres) | by eapply append_errs_nonempty; [|exact Hres] ].

Lemma default_TemporaryOSDiskID_nonempty a :
  (forall m, a.(errs) = Some m -> m.(Errors) <> []) ->
  forall m, (default_TemporaryOSDiskID a).(errs) = Some m -> m.(Errors) <> [].
Proof. unfold default_TemporaryOSDiskID. nonempty_block. Qed.

Lemma default_TemporaryOSDiskSnapshotID_nonempty a :
  (forall m, a.(errs) = Some m -> m.(Errors) <> []) ->
  forall m, (default_TemporaryOSDiskSnapshotID a).(errs) = Some m -> m.(Errors) <> [].
Proof. unfold default_TemporaryOSDiskSnapshotID. nonempty_block. Qed.

Lemma check_source_nonempty a :
  (forall m, a.(errs) = Some m -> m.(Errors) <> []) ->
  forall m, (check_source a).(errs) = Some m -> m.(Errors) <> [].
Proof. unfold check_source. nonempty_block. Qed.

Lemma check_os_disk_nonempty a :
  (forall m, a.(errs) = Some m -> m.(Errors) <> []) ->
  forall m, (check_os_disk a).(errs) = Some m -> m.(Errors) <> [].
Proof. unfold check_os_disk. nonempty_block. Qed.

Lemma check_image_resource_id_nonempty a :
  (forall m, a.(errs) = Some m -> m.(Errors) <> []) ->
  forall m, (check_image_resource_id a).(errs) = Some m -> m.(Errors) <> [].
Proof.
  unfold check_image_resource_id. block_cases; intros Hacc mres Hres;
    first [ by apply (Hacc mres) | by simplify_eq ].
Qed.

Lemma check_hyperv_nonempty a :
  (forall m, a.(errs) = Some m -> m.(Errors) <> []) ->
  forall m, (check_hyperv a).(errs) = Some m -> m.(Errors) <> [].
Proof. unfold check_hyperv. nonempty_block. Qed.

Lemma check_outputs_nonempty keys a :
  (forall m, a.(errs) = Some m -> m.(Errors) <> []) ->
  forall m, (check_outputs keys a).(errs) = Some m -> m.(Errors) <> [].
Proof.
  intros Ha. unfold check_outputs.
  assert (Hval : forall e w m,
    (let a := if decide (0 < length e) then append_errs e a else a in
     if decide (0 < length w) then append_warns w a else a).(errs) = Some m ->
    m.(Errors) <> []).
  { intros e w m. cbn zeta. destruct (decide (0 < length e)) as [He|He].
    - assert (e <> []) by (intros ->; cbn in He; lia).
      case_decide; cbn [append_warns errs]; by apply append_errs_nonempty.
    - case_decide; cbn [append_warns errs]; apply Ha. }
  destruct (StringsContains keys _); cbn [negb andb].
  - destruct (Validate _ _) as [e w]. apply Hval.
  - case_bool_decide; intros m Hm; [by eapply append_errs_nonempty; [|exact Hm]|by apply Ha].
Qed.

Lemma resolve_nonempty keys c m : (resolve keys c).(errs) = Some m -> m.(Errors) <> [].
Proof.
  revert m. unfold resolve. cbn zeta.
  apply check_hyperv_nonempty, check_outputs_nonempty, check_image_resource_id_nonempty,
    check_os_disk_nonempty, check_source_nonempty.
  rewrite apply_defaults_stage2. cbn [on_cfg errs].
  apply default_TemporaryOSDiskSnapshotID_nonempty, default_TemporaryOSDiskID_nonempty.
  by intros m.
Qed.

(** X2. The error [Prepare] returns is nil, or the error of decoding or of the
    client defaults, returned as it is with no warnings, or an aggregate
    that is not nil and holds at least one error. *)
Theorem Prepare_error_shape b raws :
  match (Prepare b raws).2.(err) with
  | nil_error => True
  | plain_error e =>
      (Prepare b raws).2.(warnings) = [] /\
      ((decode_raws b raws).2 = Some e \/
       (SetDefaultValues (decode_raws b raws).1.1.(ClientConfig)).2 = Some e)
  | multi_error p => exists m, p = Some m /\ m.(Errors) <> []
  end.
Proof.
  unfold Prepare. destruct (decode_raws b raws) as [[c keys] [e|]]; cbn; [by auto|].
  destruct (SetDefaultValues c.(ClientConfig)) as [cc [e|]]; cbn; [by auto|].
  destruct (resolve keys (set_ClientConfig cc c)).(errs) as [m|] eqn:Hm; cbn; [|done].
  exists m. split; [done|]. by eapply resolve_nonempty.
Qed.

(** ** What the defaults leave behind *)

Lemma default_lists_mounts c : len (default_lists c).(ChrootMounts) <> 0.
Proof.
  unfold default_lists.
  destruct c.(ChrootMounts) as [[|m l]|] eqn:H; destruct c; cbn in H |- *;
    rewrite ?H; block_cases; cbn in *; simplify_eq; cbn in *; lia.
Qed.

Lemma default_templates_filled c :
  (default_templates c).(CommandWrapper) <> "" /\
  (default_templates c).(MountPath) <> "" /\
  (default_templates c).(MountPartition) <> "".
Proof. unfold default_templates. block_cases; by repeat split. Qed.

(** X10. Once decoding and the client defaults have succeeded, the
    configuration [Prepare] leaves has at least one chroot mount and a
    non-empty command wrapper, mount path and mount partition, whether
    [Prepare] then fails or not. *)
Theorem defaults_fill_templates b raws c keys cc :
  decode_raws b raws = (c, keys, None) ->
  SetDefaultValues c.(ClientConfig) = (cc, None) ->
  let c' := (Prepare b raws).1.(config) in
  len c'.(ChrootMounts) <> 0 /\
  c'.(CommandWrapper) <> "" /\
  c'.(MountPath) <> "" /\
  c'.(MountPartition) <> "".
Proof.
  intros Hdec Hdef. cbn zeta. rewrite (Prepare_config _ _ _ _ _ Hdec Hdef).
  set (c1 := set_ClientConfig cc c).
  destruct (after_default_lists keys c1) as [[-> _] _].
  split; [apply default_lists_mounts|].
  assert (K : given_kept (default_templates (default_lists c1)) (resolve keys c1).(cfg)).
  { apply after_stage0;
      [exact given_kept_trans|intros a; apply default_TemporaryOSDiskID_kept|
       intros a; apply default_TemporaryOSDiskSnapshotID_kept|
       intros c0; apply default_enums_kept|intros a; apply check_source_kept]. }
  destruct K as (K1 & K2 & K3 & _).
  destruct (default_templates_filled (default_lists c1)) as (F1 & F2 & F3).
  rewrite (K1 F1), (K2 F2), (K3 F3). done.
Qed.

(** ** The temporary identifiers *)

Lemma default_lists_ids c : same_ids c (default_lists c).
Proof. unfold default_lists. same_request_block. Qed.

Lemma default_templates_ids c : same_ids c (default_templates c).
Proof. unfold default_templates. same_request_block. Qed.

Lemma default_enums_ids c : same_ids c (default_enums c).
Proof. unfold default_enums. same_request_block. Qed.

Lemma check_source_ids a : same_ids a.(cfg) (check_source a).(cfg).
Proof. unfold check_source. same_request_block. Qed.

Lemma default_TemporaryOSDiskID_snapshot a :
  (default_TemporaryOSDiskID a).(cfg).(TemporaryOSDiskSnapshotID)
  = a.(cfg).(TemporaryOSDiskSnapshotID).
Proof. unfold default_TemporaryOSDiskID. by block_cases. Qed.

Lemma default_TemporaryOSDiskSnapshotID_disk a :
  (default_TemporaryOSDiskSnapshotID a).(cfg).(TemporaryOSDiskID)
  = a.(cfg).(TemporaryOSDiskID).
Proof. unfold default_TemporaryOSDiskSnapshotID. by block_cases. Qed.

Lemma stage0_cfg c :
  same_ids c (stage0 c).(cfg) /\ same_client c (stage0 c).(cfg).
Proof.
  cbn [stage0 cfg].
  destruct (default_lists_ids c) as [I1 I2], (default_lists_client c) as [C1 C2],
    (default_templates_ids (default_lists c)) as [J1 J2],
    (default_templates_client (default_lists c)) as [D1 D2].
  unfold same_ids, same_client. split_and!; congruence.
Qed.

Lemma stage1_disk_id c :
  c.(TemporaryOSDiskID) = "" ->
  match interpolate_Render temporary_disk_template c.(ctx) with
  | inl s => (stage1 c).(cfg).(TemporaryOSDiskID) = s
  | inr _ => (stage1 c).(cfg).(TemporaryOSDiskID) = "" /\ is_Some (stage1 c).(errs)
  end.
Proof.
  intros Hempty. destruct (stage0_cfg c) as [[Hid _] [_ Hctx]].
  unfold stage1, default_TemporaryOSDiskID.
  rewrite decide_True by congruence. rewrite Hctx.
  destruct (interpolate_Render _ _) as [s|e]; cbn [on_cfg append_errs cfg errs].
  - by destruct (stage0 c).(cfg).
  - split; [congruence|by eexists].
Qed.

Lemma stage2_snapshot_id c :
  c.(TemporaryOSDiskSnapshotID) = "" ->
  match interpolate_Render temporary_snapshot_template c.(ctx) with
  | inl s => (stage2 c).(cfg).(TemporaryOSDiskSnapshotID) = s
  | inr _ => (stage2 c).(cfg).(TemporaryOSDiskSnapshotID) = "" /\ is_Some (stage2 c).(errs)
  end.
Proof.
  intros Hempty. destruct (stage0_cfg c) as [[_ Hid] [_ Hctx]].
  destruct (default_TemporaryOSDiskID_client (stage0 c)) as [_ Hctx1].
  pose proof (default_TemporaryOSDiskID_snapshot (stage0 c)) as Hid1.
  fold (stage1 c) in Hctx1, Hid1.
  unfold stage2, default_TemporaryOSDiskSnapshotID.
  rewrite decide_True by congruence. rewrite Hctx1, Hctx.
  destruct (interpolate_Render _ _) as [s|e]; cbn [on_cfg append_errs cfg errs].
  - by destruct (stage1 c).(cfg).
  - split; [congruence|by eexists].
Qed.

Lemma stage2_error keys c : is_Some (stage2 c).(errs) -> is_Some (resolve keys c).(errs).
Proof.
  intros H. apply resolve_source_error, check_source_errs.
  rewrite apply_defaults_stage2. cbn [on_cfg errs]. exact H.
Qed.

Lemma stage1_error keys c : is_Some (stage1 c).(errs) -> is_Some (resolve keys c).(errs).
Proof.
  intros H. apply stage2_error. by apply default_TemporaryOSDiskSnapshotID_errs.
Qed.

Lemma resolve_disk_id keys c :
  (resolve keys c).(cfg).(TemporaryOSDiskID) = (stage1 c).(cfg).(TemporaryOSDiskID).
Proof.
  apply (after_stage1 (fun c1 c2 => c2.(TemporaryOSDiskID) = c1.(TemporaryOSDiskID))).
  - intros; congruence.
  - apply default_TemporaryOSDiskSnapshotID_disk.
  - intros c0. apply default_enums_ids.
  - intros a. apply check_source_ids.
Qed.

Lemma resolve_snapshot_id keys c :
  (resolve keys c).(cfg).(TemporaryOSDiskSnapshotID)
  = (stage2 c).(cfg).(TemporaryOSDiskSnapshotID).
Proof.
  apply (after_stage2
           (fun c1 c2 => c2.(TemporaryOSDiskSnapshotID) = c1.(TemporaryOSDiskSnapshotID))).
  - intros; congruence.
  - intros c0. apply default_enums_ids.
  - intros a. apply check_source_ids.
Qed.

(** X11. An identifier of the temporary disk or snapshot that is left empty is
    replaced by the rendering of its template in the decoded context; when
    the rendering fails the identifier stays empty and [Prepare] returns an
    error. *)
Theorem temporary_ids_rendered b raws c keys cc :
  decode_raws b raws = (c, keys, None) ->
  SetDefaultValues c.(ClientConfig) = (cc, None) ->
  let c' := (Prepare b raws).1.(config) in
  (c.(TemporaryOSDiskID) = "" ->
   match interpolate_Render temporary_disk_template c.(ctx) with
   | inl s => c'.(TemporaryOSDiskID) = s
   | inr _ => c'.(TemporaryOSDiskID) = "" /\ (Prepare b raws).2.(err) <> nil_error
   end) /\
  (c.(TemporaryOSDiskSnapshotID) = "" ->
   match interpolate_Render temporary_snapshot_template c.(ctx) with
   | inl s => c'.(TemporaryOSDiskSnapshotID) = s
   | inr _ => c'.(TemporaryOSDiskSnapshotID) = "" /\ (Prepare b raws).2.(err) <> nil_error
   end).
Proof.
  intros Hdec Hdef. cbn zeta. rewrite (Prepare_config _ _ _ _ _ Hdec Hdef).
  destruct (Prepare_return _ _ _ _ _ Hdec Hdef) as (_ & _ & Hend).
  set (c1 := set_ClientConfig cc c) in *.
  rewrite resolve_disk_id, resolve_snapshot_id.
  assert (Hfail : is_Some (resolve keys c1).(errs) -> (Prepare b raws).2.(err) <> nil_error).
  { intros [m Hm]. rewrite Hm in Hend. destruct Hend as [-> _]. done. }
  split; intros Hempty.
  - pose proof (stage1_disk_id c1 Hempty) as H. change c1.(ctx) with c.(ctx) in H.
    destruct (interpolate_Render _ _); [done|]. destruct H as [? ?].
    split; [done|]. by apply Hfail, stage1_error.
  - pose proof (stage2_snapshot_id c1 Hempty) as H. change c1.(ctx) with c.(ctx) in H.
    destruct (interpolate_Render _ _); [done|]. destruct H as [? ?].
    split; [done|]. by apply Hfail, stage2_error.
Qed.

(** X12. [GetContext] on the configuration [Prepare] leaves returns the context
    that decoding left: the defaults and the checks never change it. *)
Theorem GetContext_after_Prepare b raws c keys cc :
  decode_raws b raws = (c, keys, None) ->
  SetDefaultValues c.(ClientConfig) = (cc, None) ->
  GetContext (Prepare b raws).1.(config) = GetContext c.
Proof.
  intros Hdec Hdef. rewrite (Prepare_config _ _ _ _ _ Hdec Hdef). unfold GetContext.
  by destruct (resolve_client keys (set_ClientConfig cc c)) as [_ ->].
Qed.

(** ** Accumulation *)

Lemma errors_of_append_errs es a : errors_of (append_errs es a) = errors_of a ++ es.
Proof. unfold errors_of. cbn. by destruct a.(errs). Qed.

Lemma check_source_from_scratch_errors a :
  a.(cfg).(FromScratch) = true ->
  a.(cfg).(Source) <> "" ->
  a.(cfg).(OSDiskSizeGB) = 0%Z ->
  len a.(cfg).(PreMountCommands) = 0 ->
  errors_of (check_source a) = errors_of a ++ from_scratch_errors.
Proof.
  intros Hfs Hs Hsz Hpm. unfold check_source. rewrite Hfs.
  rewrite !decide_True by done. rewrite !errors_of_append_errs.
  by rewrite <-!app_assoc.
Qed.

Lemma check_os_disk_grows a :
  exists rest, errors_of (check_os_disk a) = errors_of a ++ rest.
Proof.
  unfold check_os_disk.
  destruct (checkDiskCacheType _); cbn [cfg append_errs];
    destruct (checkStorageAccountType _);
    rewrite ?errors_of_append_errs, <-?app_assoc; try (by eauto).
  exists []. by rewrite app_nil_r.
Qed.

Lemma check_hyperv_grows a :
  exists rest, errors_of (check_hyperv a) = errors_of a ++ rest.
Proof.
  unfold check_hyperv. destruct (checkHyperVGeneration _);
    rewrite ?errors_of_append_errs; [by eauto|]. exists []. by rewrite app_nil_r.
Qed.

Lemma check_outputs_grows keys a :
  exists rest, errors_of (check_outputs keys a) = errors_of a ++ rest.
Proof.
  assert (Hw : forall w x, errors_of (append_warns w x) = errors_of x) by done.
  unfold check_outputs. destruct (StringsContains keys _); cbn [negb andb].
  - destruct (Validate _ _) as [e w].
    repeat case_decide; rewrite ?Hw, ?errors_of_append_errs; try (by eauto).
    all: exists []; by rewrite app_nil_r.
  - case_bool_decide; rewrite ?errors_of_append_errs; [by eauto|].
    exists []. by rewrite app_nil_r.
Qed.

Lemma check_image_resource_id_same a :
  a.(cfg).(ImageResourceID) = "" \/ not_an_image_id a.(cfg).(ImageResourceID) = false ->
  check_image_resource_id a = a.
Proof.
  unfold check_image_resource_id. intros [->| ->]; [done|]. by case_decide.
Qed.

(** X3. With [from_scratch], a source, no disk size and no pre-mount commands,
    and an [image_resource_id] that is empty or well formed, the aggregate
    [Prepare] returns holds the three errors of lines 233-244 together and
    in that order. *)
Theorem from_scratch_errors_reported_together b raws c keys cc :
  decode_raws b raws = (c, keys, None) ->
  SetDefaultValues c.(ClientConfig) = (cc, None) ->
  c.(FromScratch) = true ->
  c.(Source) <> "" ->
  c.(OSDiskSizeGB) = 0%Z ->
  len c.(PreMountCommands) = 0 ->
  c.(ImageResourceID) = "" \/ not_an_image_id c.(ImageResourceID) = false ->
  exists m pre post,
    (Prepare b raws).2.(err) = multi_error (Some m) /\
    m.(Errors) = pre ++ from_scratch_errors ++ post.
Proof.
  intros Hdec Hdef Hfs Hs Hsz Hpm Hid.
  destruct (Prepare_return _ _ _ _ _ Hdec Hdef) as (_ & _ & Hend).
  set (c1 := set_ClientConfig cc c) in *.
  pose proof (same_request_trans _ _ _ (set_ClientConfig_request cc c)
                (apply_defaults_request c1))
    as (_ & Hfs0 & Hs0 & Hpm0 & _ & _ & Hsz0 & _).
  pose proof (same_request_trans _ _ _ (set_ClientConfig_request cc c)
                (resolve_request keys c1)) as (_ & _ & _ & _ & _ & _ & _ & _ & Hid0 & _).
  revert Hid0 Hend. rewrite resolve_cfg. unfold resolve. cbn zeta.
  set (a := apply_defaults c1) in *. intros Hid0.
  assert (Hsrc : errors_of (check_source a) = errors_of a ++ from_scratch_errors).
  { apply check_source_from_scratch_errors; congruence. }
  rewrite (check_image_resource_id_same (check_os_disk (check_source a)))
    by (rewrite check_os_disk_cfg, Hid0; exact Hid).
  destruct (check_os_disk_grows (check_source a)) as [r1 H1].
  destruct (check_outputs_grows keys (check_os_disk (check_source a))) as [r2 H2].
  destruct (check_hyperv_grows (check_outputs keys (check_os_disk (check_source a))))
    as [r3 H3].
  rewrite H2, H1, Hsrc in H3. revert H3. unfold errors_of at 1.
  destruct (check_hyperv _).(errs) as [m|]; intros H3 [Herr _].
  - exists m, (errors_of a), (r1 ++ r2 ++ r3). split; [done|].
    rewrite H3. by rewrite <-!app_assoc.
  - exfalso. symmetry in H3. do 3 apply app_eq_nil in H3 as [H3 _].
    apply app_eq_nil in H3 as [_ H3]. done.
Qed.

(** ** More on the step list *)

(** X13. [buildsteps] panics exactly when [from_scratch] is false and either the
    source type is [PlatformImage] while the source does not parse as a
    platform image, or the source type is neither of the two constants. *)
Theorem buildsteps_panics_iff config info :
  (exists p, buildsteps config info = Panicked p) <->
  config.(FromScratch) = false /\
  ((config.(sourceType) = sourcePlatformImage /\ ~ is_platform_image config.(Source)) \/
   (config.(sourceType) <> sourcePlatformImage /\ config.(sourceType) <> sourceDisk)).
Proof.
  rewrite buildsteps_eq. unfold source_steps, is_platform_image.
  destruct config.(FromScratch).
  { split; [by intros [p ?]|by intros [? _]]. }
  destruct (decide (config.(sourceType) = sourcePlatformImage)) as [Hp|Hp].
  - destruct (ParsePlatformImageURN _) as [pi|e].
    + split; [by intros [p ?]|]. intros [_ [[_ Hn]|[Hn _]]]; [|done].
      destruct Hn. by exists pi.
    + split; [|by eauto]. intros _. split; [done|]. left. split; [done|]. by intros [pi ?].
  - destruct (decide (config.(sourceType) = sourceDisk)) as [Hd|Hd].
    + split; [by intros [p ?]|]. intros [_ [[? _]|[_ ?]]]; done.
    + split; [|by eauto]. intros _. split; [done|]. by right.
Qed.



Lemma create_disk_in_source config info steps d :
  buildsteps config info = Returned steps ->
  StepCreateNewDisk d ∈ steps ->
  exists src, source_steps config info = Returned src /\ StepCreateNewDisk d ∈ src /\
    steps = verify_destination_steps config info ++ src ++
            mount_and_provision_steps config ++ output_steps config info.
Proof.
  rewrite buildsteps_eq. destruct (source_steps config info) as [src|p]; [|done].
  intros Heq Hin.
  assert (steps = verify_destination_steps config info ++ src ++
                  mount_and_provision_steps config ++ output_steps config info)
    as -> by congruence.
  clear Heq. exists src. split; [done|]. split; [|done].
  pose proof (around_source_steps config info _ not_source_not_create_disk) as Hno.
  rewrite !Forall_app, !Forall_forall in Hno. destruct Hno as (Hv & Hm & Ho).
  rewrite !elem_of_app in Hin. destruct Hin as [Hin|[Hin|[Hin|Hin]]]; [|done| |].
  - by apply Hv in Hin.
  - by apply Hm in Hin.
  - by apply Ho in Hin.
Qed.

(** X15. Every disk creation step of a step list carries the temporary disk
    identifier, size, storage account type, Hyper-V generation and location;
    from scratch it has neither a platform image nor a source disk, for a
    platform image it has the parsed image and no source disk, and for a
    disk it has the source as source disk, no platform image, and comes
    immediately after the verification of that source disk. *)
Theorem create_disk_source config info steps d :
  buildsteps config info = Returned steps ->
  StepCreateNewDisk d ∈ steps ->
  (d.(cnd_ResourceID) = config.(TemporaryOSDiskID) /\
   d.(cnd_DiskSizeGB) = config.(OSDiskSizeGB) /\
   d.(cnd_DiskStorageAccountType) = config.(OSDiskStorageAccountType) /\
   d.(cnd_HyperVGeneration) = config.(ImageHyperVGeneration) /\
   d.(cnd_Location) = info.(Location)) /\
  (config.(FromScratch) = true ->
   d.(cnd_PlatformImage) = None /\ d.(cnd_SourceDiskResourceID) = "") /\
  (config.(FromScratch) = false -> config.(sourceType) = sourcePlatformImage ->
   exists pi,
     ParsePlatformImageURN config.(Source) = inl pi /\
     d.(cnd_PlatformImage) = Some pi /\
     d.(cnd_SourceDiskResourceID) = "") /\
  (config.(FromScratch) = false -> config.(sourceType) = sourceDisk ->
   d.(cnd_PlatformImage) = None /\
   d.(cnd_SourceDiskResourceID) = config.(Source) /\
   exists pre post,
     steps = pre ++ StepVerifySourceDisk config.(Source) info.(Location)
                 :: StepCreateNewDisk d :: post).
Proof.
  intros Hsteps Hin.
  destruct (create_disk_in_source _ _ _ _ Hsteps Hin) as (src & Hsrc & Hd & ->).
  revert Hsrc. unfold source_steps. destruct config.(FromScratch).
  { intros [= <-]. apply list_elem_of_singleton in Hd as [= ->]. by split_and!. }
  destruct (decide (config.(sourceType) = sourcePlatformImage)) as [Hp|Hp].
  - destruct (ParsePlatformImageURN _) as [pi|e]; [|done]. intros [= <-].
    assert (Hd' : StepCreateNewDisk d ∈
                  [StepCreateNewDisk
                     {| cnd_ResourceID := config.(TemporaryOSDiskID);
                        cnd_DiskSizeGB := config.(OSDiskSizeGB);
                        cnd_DiskStorageAccountType := config.(OSDiskStorageAccountType);
                        cnd_HyperVGeneration := config.(ImageHyperVGeneration);
                        cnd_Location := info.(Location);
                        cnd_PlatformImage := Some pi;
                        cnd_SourceDiskResourceID := "";
                        cnd_SkipCleanup := config.(SkipCleanup) |}]).
    { apply elem_of_app in Hd as [Hd|Hd]; [|done].
      destruct (EqualFold _ _); [|by apply elem_of_nil in Hd].
      by apply list_elem_of_singleton in Hd. }
    apply list_elem_of_singleton in Hd' as [= ->]. cbn.
    split_and!; try done; [by exists pi|]. intros _ Hdisk. by rewrite Hp in Hdisk.
  - destruct (decide (config.(sourceType) = sourceDisk)) as [Hdisk|Hdisk]; [|done].
    intros [= <-]. apply elem_of_cons in Hd as [Hd|Hd]; [done|].
    apply list_elem_of_singleton in Hd as [= ->]. cbn.
    split_and!; try done. intros _ _. split_and!; try done.
    by exists (verify_destination_steps config info),
              (mount_and_provision_steps config ++ output_steps config info).
Qed.

Lemma hasValidSharedImage_spec config :
  hasValidSharedImage config = true <->
  (Validate config.(SharedImageGalleryDestination) "").1 = [].
Proof.
  unfold hasValidSharedImage. destruct (Validate _ _) as [e w]. cbn [fst].
  rewrite bool_decide_eq_true. by destruct e.
Qed.

(** X16. When the destination's validator finds the same destinations free of
    errors whatever prefix it is given, the step list of a configuration
    that [Prepare] accepted has at least one output step: the image step
    or the snapshot and shared image version steps. *)
Theorem prepared_has_output b raws info :
  (forall d p q, (Validate d p).1 = [] -> (Validate d q).1 = []) ->
  (Prepare b raws).2.(err) = nil_error ->
  let c := (Prepare b raws).1.(config) in
  (c.(ImageResourceID) <> "" \/ hasValidSharedImage c = true) /\
  output_steps c info <> [].
Proof.
  intros Hprefix Hnil.
  destruct (Prepare_success _ _ Hnil) as (c0 & keys & cc & _ & _ & Hres & Hcfg).
  cbn zeta. rewrite Hcfg.
  destruct (resolve_nil_checks _ _ Hres) as (_ & _ & _ & _ & Hout).
  set (c := (resolve keys (set_ClientConfig cc c0)).(cfg)) in *.
  assert (Hone : c.(ImageResourceID) <> "" \/ hasValidSharedImage c = true).
  { destruct Hout as [?|[_ Hvalid]]; [by left|right].
    apply hasValidSharedImage_spec. by eapply Hprefix. }
  split; [done|]. unfold output_steps.
  destruct Hone as [Hid| ->].
  - rewrite decide_True by done. destruct (hasValidSharedImage c); done.
  - case_decide; done.
Qed.

(** ** Run *)

(** X17. Whatever [Run] returns, it is an artifact with a nil error or no
    artifact with an error that is not nil, never both and never neither. *)
Theorem Run_artifact_xor_error b ctx ui hook b' a e :
  Run b ctx ui hook = Returned (b', (a, e)) ->
  (a = None /\ e <> nil_error) \/ (is_Some a /\ e = nil_error).
Proof.
  unfold Run. case_decide; [intros [= <- <- <-]; by left|].
  destruct (FillParameters _) as [cc [e1|]]; [intros [= <- <- <-]; by left|].
  destruct (client_New _ _) as [azcli|e2]; [|intros [= <- <- <-]; by left].
  destruct (GetComputeInfo _) as [info|e3]; [|intros [= <- <- <-]; by left].
  destruct (buildsteps _ _) as [steps|p]; [|done].
  destruct (Runner_Run _ _ _ _) as [c state].
  destruct (state !! "error") as [[]|]; try done.
  - intros [= <- <- <-]. by left.
  - intros [= <- <- <-]. right. split; [by eexists|done].
Qed.

Lemma buildsteps_set_ClientConfig cc c info :
  buildsteps (set_ClientConfig cc c) info = buildsteps c info.
Proof. by destruct c. Qed.

Lemma prepared_buildsteps_returns b raws info :
  (Prepare b raws).2.(err) = nil_error ->
  exists steps, buildsteps (Prepare b raws).1.(config) info = Returned steps.
Proof.
  intros Hnil. destruct (Prepare_success _ _ Hnil) as (c0 & keys & cc & _ & _ & Hres & Hcfg).
  rewrite Hcfg, resolve_cfg. destruct (resolve_nil _ _ Hres) as (Hsrc & _).
  set (a := apply_defaults (set_ClientConfig cc c0)) in *.
  destruct (check_source_request a) as (_ & Hfs & Hs & _).
  rewrite buildsteps_eq. unfold source_steps. rewrite Hfs, Hs. clear Hfs Hs.
  destruct a.(cfg).(FromScratch) eqn:Hfalse; [by eexists|].
  destruct (check_source_cases a Hfalse) as [[[pi Hp] Hc]|[(_ & _ & Hc)|(_ & _ & Hc)]];
    rewrite Hc in Hsrc |- *; [|by eexists|done].
  cbn [on_cfg cfg set_sourceType sourceType]. rewrite decide_True by done.
  rewrite Hp. by eexists.
Qed.

(** X18. After a successful [Prepare], [Run] does not panic while it builds the
    steps: the only panic left is the type assertion on a value that a
    step stored under ["error"] and that is not an error. *)
Theorem Run_after_Prepare_panics_on_assertion_only b raws ctx ui hook p :
  (Prepare b raws).2.(err) = nil_error ->
  Run (Prepare b raws).1 ctx ui hook = Panicked p ->
  exists v, p = panic_type_assertion v /\ forall e, v <> error_in_state e.
Proof.
  intros Hnil. unfold Run. case_decide; [done|].
  destruct (FillParameters _) as [cc [e1|]]; [done|].
  destruct (client_New _ _) as [azcli|e2]; [|done].
  destruct (GetComputeInfo _) as [info|e3]; [|done].
  cbn [config set_config]. rewrite buildsteps_set_ClientConfig.
  destruct (prepared_buildsteps_returns b raws info Hnil) as [steps ->].
  destruct (Runner_Run _ _ _ _) as [c state].
  destruct (state !! "error") as [[]|]; try done; intros [= <-]; by eexists.
Qed.

(** ** When [Prepare] succeeds *)

Lemma default_lists_checked c : same_checked c (default_lists c).
Proof. unfold default_lists. same_request_block. Qed.

Lemma default_templates_checked c : same_checked c (default_templates c).
Proof. unfold default_templates. same_request_block. Qed.

Lemma default_TemporaryOSDiskID_checked a :
  same_checked a.(cfg) (default_TemporaryOSDiskID a).(cfg).
Proof. unfold default_TemporaryOSDiskID. same_request_block. Qed.

Lemma default_TemporaryOSDiskSnapshotID_checked a :
  same_checked a.(cfg) (default_TemporaryOSDiskSnapshotID a).(cfg).
Proof. unfold default_TemporaryOSDiskSnapshotID. same_request_block. Qed.

Lemma check_source_checked a : same_checked a.(cfg) (check_source a).(cfg).
Proof. unfold check_source. same_request_block. Qed.

Lemma default_enums_spec c :
  (default_enums c).(OSDiskCacheType)
  = enum_or_default c.(OSDiskCacheType) compute_CachingTypesReadOnly /\
  (default_enums c).(OSDiskStorageAccountType)
  = enum_or_default c.(OSDiskStorageAccountType) compute_PremiumLRS /\
  (default_enums c).(ImageHyperVGeneration)
  = enum_or_default c.(ImageHyperVGeneration) compute_V1.
Proof. unfold default_enums, enum_or_default. block_cases; by repeat split. Qed.

Lemma stage2_checked c : same_checked c (stage2 c).(cfg).
Proof.
  destruct (default_lists_checked c) as (A1 & A2 & A3).
  destruct (default_templates_checked (default_lists c)) as (B1 & B2 & B3).
  assert (C : same_checked (default_templates (default_lists c)) (stage1 c).(cfg))
    by exact (default_TemporaryOSDiskID_checked (stage0 c)).
  assert (D : same_checked (stage1 c).(cfg) (stage2 c).(cfg))
    by exact (default_TemporaryOSDiskSnapshotID_checked (stage1 c)).
  destruct C as (C1 & C2 & C3), D as (D1 & D2 & D3).
  unfold same_checked. split_and!; congruence.
Qed.

Lemma resolve_enums keys c :
  let c' := (resolve keys c).(cfg) in
  c'.(OSDiskCacheType) = enum_or_default c.(OSDiskCacheType) compute_CachingTypesReadOnly /\
  c'.(OSDiskStorageAccountType)
  = enum_or_default c.(OSDiskStorageAccountType) compute_PremiumLRS /\
  c'.(ImageHyperVGeneration) = enum_or_default c.(ImageHyperVGeneration) compute_V1.
Proof.
  cbn zeta. rewrite resolve_cfg.
  destruct (check_source_checked (apply_defaults c)) as (-> & -> & ->).
  rewrite apply_defaults_stage2, cfg_on_cfg.
  destruct (default_enums_spec (stage2 c).(cfg)) as (-> & -> & ->).
  by destruct (stage2_checked c) as (-> & -> & ->).
Qed.

Lemma apply_defaults_ok c : (apply_defaults c).(errs) = None <-> renders_ok c.
Proof.
  rewrite apply_defaults_stage2. cbn [on_cfg errs]. unfold renders_ok.
  destruct (stage0_cfg c) as [[Hid0 Hsid0] [_ Hctx0]].
  destruct (default_TemporaryOSDiskID_client (stage0 c)) as [_ Hctx1].
  pose proof (default_TemporaryOSDiskID_snapshot (stage0 c)) as Hsid1.
  fold (stage1 c) in Hctx1, Hsid1.
  assert (H1 : (stage1 c).(errs) = None <->
               (c.(TemporaryOSDiskID) = "" ->
                exists s, interpolate_Render temporary_disk_template c.(ctx) = inl s)).
  { unfold stage1, default_TemporaryOSDiskID. rewrite Hid0, Hctx0.
    case_decide as He; [|by split].
    destruct (interpolate_Render _ _) as [s|e]; cbn [on_cfg append_errs errs stage0].
    - split; [by eauto|done].
    - split; [done|]. intros H. by destruct (H He). }
  assert (H2 : (stage2 c).(errs) = None <->
               (stage1 c).(errs) = None /\
               (c.(TemporaryOSDiskSnapshotID) = "" ->
                exists s, interpolate_Render temporary_snapshot_template c.(ctx) = inl s)).
  { unfold stage2, default_TemporaryOSDiskSnapshotID. rewrite Hsid1, Hsid0, Hctx1, Hctx0.
    case_decide as He; [|by intuition].
    destruct (interpolate_Render temporary_snapshot_template _) as [s|e];
      cbn [on_cfg append_errs errs].
    - split; [intros H; split; [done|by eauto]|by intros [? _]].
    - split; [done|]. intros [_ H]. by destruct (H He). }
  rewrite H2, H1. done.
Qed.

Lemma check_source_ok a :
  (check_source a).(errs) = None <-> a.(errs) = None /\ source_ok a.(cfg).
Proof.
  split.
  - intros H. split; [by apply nil_before in H; [|apply check_source_errs]|].
    unfold source_ok. destruct a.(cfg).(FromScratch) eqn:Hfs.
    + by apply check_source_from_scratch.
    + destruct (check_source_nil a H) as [[? _]|[_ ?]]; [congruence|done].
  - intros [Ha Hok]. revert Hok. unfold source_ok.
    destruct a.(cfg).(FromScratch) eqn:Hfs.
    + intros (Hs & Hsz & Hpm). unfold check_source. rewrite Hfs.
      repeat case_decide; done.
    + intros Hok.
      destruct (check_source_cases a Hfs) as [[_ ->]|[(_ & _ & ->)|(Hn1 & Hn2 & _)]];
        [done|done|]. by destruct Hok.
Qed.

Lemma check_value_ok (check : string -> option error) values s :
  (check s = if is_possible_value s values then None
             else Some (not_a_valid_value s values)) ->
  check s = None <-> s ∈ values.
Proof.
  intros ->. rewrite <-is_possible_value_spec.
  by destruct (is_possible_value s values).
Qed.

Lemma check_os_disk_ok a :
  (check_os_disk a).(errs) = None <->
  a.(errs) = None /\
  a.(cfg).(OSDiskCacheType) ∈ PossibleCachingTypesValues /\
  a.(cfg).(OSDiskStorageAccountType) ∈ PossibleDiskStorageAccountTypesValues.
Proof.
  rewrite <-(check_value_ok checkDiskCacheType _ _ eq_refl).
  rewrite <-(check_value_ok checkStorageAccountType _ _ eq_refl).
  split; [intros H; apply check_os_disk_nil in H; tauto|].
  intros (Ha & Hc & Hs). unfold check_os_disk. by rewrite Hc, Hs.
Qed.

Lemma check_hyperv_ok a :
  (check_hyperv a).(errs) = None <->
  a.(errs) = None /\ a.(cfg).(ImageHyperVGeneration) ∈ PossibleHyperVGenerationValues.
Proof.
  rewrite <-(check_value_ok checkHyperVGeneration _ _ eq_refl).
  split; [intros H; apply check_hyperv_nil in H; tauto|].
  intros (Ha & Hh). unfold check_hyperv. by rewrite Hh.
Qed.

Lemma not_an_image_id_false s : not_an_image_id s = false <-> is_image_id s.
Proof.
  unfold not_an_image_id, is_image_id. destruct (ParseResourceID s) as [r|e].
  - destruct (EqualFold r.(Provider) _) eqn:H1, (EqualFold r.(ResourceType) _) eqn:H2;
      cbn; split; try done; try (intros (r' & ? & ? & ?); congruence).
    intros _. by exists r.
  - split; [done|]. by intros (r & ? & _).
Qed.

Lemma check_image_resource_id_ok a :
  (check_image_resource_id a).(errs) = None <-> a.(errs) = None /\ image_ok a.(cfg).
Proof.
  unfold image_ok. rewrite <-not_an_image_id_false. split.
  - intros H. apply check_image_resource_id_nil in H. tauto.
  - intros [Ha Hok]. by rewrite check_image_resource_id_same.
Qed.

Lemma check_outputs_ok keys a :
  (check_outputs keys a).(errs) = None <-> a.(errs) = None /\ outputs_ok keys a.(cfg).
Proof.
  unfold check_outputs, outputs_ok.
  destruct (StringsContains keys _); cbn [negb andb].
  - destruct (Validate _ _) as [e w]. cbn [fst].
    destruct e as [|e0 e]; repeat case_decide; cbn in *; try lia; intuition congruence.
  - case_bool_decide; cbn; intuition congruence.
Qed.

Lemma resolve_ok keys c : (resolve keys c).(errs) = None <-> acceptable keys c.
Proof.
  destruct (resolve_enums keys c) as (Hc & Hs & Hh).
  destruct (resolve_request keys c) as (_ & _ & _ & _ & _ & _ & _ & _ & Hid & Hdest).
  destruct (apply_defaults_request c) as (_ & Hfs & Hsrc & Hpm & _ & _ & Hsz & _).
  revert Hc Hs Hh Hid Hdest. rewrite resolve_cfg. unfold resolve. cbn zeta.
  set (a := apply_defaults c) in *. intros Hc Hs Hh Hid Hdest.
  rewrite check_hyperv_ok, check_outputs_ok, check_image_resource_id_ok, check_os_disk_ok,
    check_source_ok.
  rewrite check_outputs_cfg, !check_image_resource_id_cfg, !check_os_disk_cfg.
  subst a. rewrite apply_defaults_ok.
  unfold acceptable, enums_ok, image_ok, outputs_ok, source_ok.
  rewrite Hc, Hs, Hh, Hid, Hdest, Hfs, Hsrc, Hpm, Hsz. tauto.
Qed.

Lemma acceptable_set_ClientConfig keys cc c :
  acceptable keys (set_ClientConfig cc c) <-> acceptable keys c.
Proof. by destruct c. Qed.

(** X1. Once decoding and the client defaults have succeeded, [Prepare]
    returns no error exactly when the decoded configuration is acceptable:
    the identifiers left empty render, the source mode is well formed, the
    enumerated fields or their defaults are possible values, the image
    identifier is empty or well formed, and the destination validates when
    it was given while there is an image identifier when it was not. *)
Theorem Prepare_succeeds_iff b raws c keys cc :
  decode_raws b raws = (c, keys, None) ->
  SetDefaultValues c.(ClientConfig) = (cc, None) ->
  (Prepare b raws).2.(err) = nil_error <-> acceptable keys c.
Proof.
  intros Hdec Hdef. rewrite <-(acceptable_set_ClientConfig keys cc c), <-resolve_ok.
  destruct (Prepare_return _ _ _ _ _ Hdec Hdef) as (_ & _ & Hend).
  destruct (resolve keys (set_ClientConfig cc c)).(errs) as [m|];
    destruct Hend as [-> _]; by split.
Qed.

End Properties.

(** * The model on examples *)

Section Examples.
Import Sample.
#[local] Existing Instance Sample.opaque.
#[local] Existing Instance Sample.external.

(** The three source strings of the specification. *)
Example classify_platform_image :
  (check_source (apply_defaults (decoded raws_platform_image))).(cfg).(sourceType)
  = sourcePlatformImage.
Proof. reflexivity. Qed.

Example classify_disk :
  (check_source (apply_defaults (decoded raws_disk))).(cfg).(sourceType) = sourceDisk.
Proof. reflexivity. Qed.

Example classify_invalid :
  (check_source (apply_defaults (decoded raws_no_output))).(errs)
  = Some {| Errors := [source_error "not-a-valid-thing"] |}.
Proof. reflexivity. Qed.

(** What line 272 does to three accumulated errors. *)
Example errors_before_and_after_image_resource_id :
  let a := check_os_disk (check_source (apply_defaults (decoded raws_many_errors))) in
  a.(errs) =
    Some {| Errors :=
      [errors_New "source cannot be specified when building from_scratch";
       errors_New "os_disk_size_gb is required with from_scratch";
       errors_New "pre_mount_commands is required with from_scratch"] |} /\
  (Prepare new_Builder raws_many_errors).2.(err) =
    multi_error (Some {| Errors := [image_resource_id_error "not-an-image-id"] |}).
Proof. split; reflexivity. Qed.

(** Witness of C1. *)
Lemma image_resource_id_error_restarts_errs_witness :
  let raws := raws_many_errors in
  let c := decoded raws in
  decode_raws new_Builder raws = (c, decoded_keys raws, None) /\
  SetDefaultValues c.(ClientConfig) = (c.(ClientConfig), None) /\
  c.(ImageResourceID) <> "" /\
  not_an_image_id c.(ImageResourceID) = true /\
  (Prepare new_Builder raws).2.(err) =
  multi_error (Some {| Errors :=
    image_resource_id_error c.(ImageResourceID) ::
    (if StringsContains (decoded_keys raws) "shared_image_destination"
     then (Validate c.(SharedImageGalleryDestination) "shared_image_destination").1
     else []) ++
    match checkHyperVGeneration
            (Prepare new_Builder raws).1.(config).(ImageHyperVGeneration) with
    | Some e => [fmt_Errorf "image_hyperv_generation: %v" [arg_error e]]
    | None => []
    end |}).
Proof.
  cbv zeta.
  assert (H3 : (decoded raws_many_errors).(ImageResourceID) <> "") by (by vm_compute).
  split_and!; [reflexivity|reflexivity|exact H3|reflexivity|].
  apply (image_resource_id_error_restarts_errs new_Builder raws_many_errors
           (decoded raws_many_errors) (decoded_keys raws_many_errors)
           (decoded raws_many_errors).(ClientConfig));
    [reflexivity|reflexivity|exact H3|reflexivity].
Defined.

(** Witness of C2: the run succeeds, the configuration names an image and a
    valid destination, and the artifact has no resources. *)
Lemma Run_artifact_without_resources_witness :
  let b := (Prepare new_Builder (raws_two_outputs)).1 in
  exists b' artifact,
    Run b tt tt tt = Returned (b', (Some artifact, nil_error)) /\
    b'.(config).(ImageResourceID) = image_id /\
    hasValidSharedImage b'.(config) = true /\
    artifact.(Resources) = None /\
    artifact.(BuilderIdValue) = BuilderID /\
    dom artifact.(StateData) = {["generated_data"]} /\
    nil_error = nil_error.
Proof.
  cbv zeta.
  destruct (Run (Prepare new_Builder (raws_two_outputs)).1 tt tt tt)
    as [[b' [[artifact|] e]]|p] eqn:Hrun; try (vm_compute in Hrun; discriminate Hrun).
  assert (e = nil_error) as -> by (vm_compute in Hrun; congruence).
  exists b', artifact. split; [reflexivity|].
  split; [vm_compute in Hrun; by simplify_eq|].
  split; [vm_compute in Hrun; by simplify_eq|].
  exact (Run_artifact_without_resources _ tt tt tt b' artifact nil_error Hrun).
Defined.

(** Witness of C3. *)
Lemma Prepare_source_mode_exclusive_witness :
  let raws := raws_platform_image in
  (forall pi, ParsePlatformImageURN "" <> inl pi) /\
  (forall id, ParseResourceID "" <> inl id) /\
  decode_raws new_Builder raws = (decoded raws, decoded_keys raws, None) /\
  (Prepare new_Builder raws).2.(err) = nil_error /\
  ((Prepare new_Builder raws).2.(err) = nil_error ->
   let c' := (Prepare new_Builder raws).1.(config) in
   (c'.(FromScratch) = true /\ c'.(Source) = "") \/
   (c'.(FromScratch) = false /\ c'.(Source) <> "")) /\
  (((decoded raws).(FromScratch) = true /\ (decoded raws).(Source) <> "") \/
   ((decoded raws).(FromScratch) = false /\ (decoded raws).(Source) = "") ->
   (Prepare new_Builder raws).2.(err) <> nil_error).
Proof.
  cbv zeta.
  assert (H1 : forall pi, ParsePlatformImageURN "" <> inl pi)
    by (intros pi H; vm_compute in H; discriminate H).
  assert (H2 : forall id, ParseResourceID "" <> inl id)
    by (intros id H; vm_compute in H; discriminate H).
  assert (H3 : decode_raws new_Builder raws_platform_image
               = (decoded raws_platform_image, decoded_keys raws_platform_image, None))
    by (vm_compute; reflexivity).
  split_and!; [exact H1|exact H2|exact H3|vm_compute; reflexivity|..];
    apply (Prepare_source_mode_exclusive new_Builder raws_platform_image
             (decoded raws_platform_image) (decoded_keys raws_platform_image) None
             H1 H2 H3).
Defined.

(** Witness of C4. *)
Lemma Prepare_requires_output_witness :
  let raws := raws_no_output in
  decode_raws new_Builder raws = (decoded raws, decoded_keys raws, None) /\
  (decoded raws).(ImageResourceID) = "" /\
  ~ valid_shared_image_destination (decoded_keys raws) (decoded raws) /\
  (Prepare new_Builder raws).2.(err) <> nil_error.
Proof.
  cbv zeta.
  assert (H1 : decode_raws new_Builder raws_no_output
               = (decoded raws_no_output, decoded_keys raws_no_output, None))
    by (vm_compute; reflexivity).
  assert (H2 : (decoded raws_no_output).(ImageResourceID) = "")
    by (vm_compute; reflexivity).
  assert (H3 : ~ valid_shared_image_destination (decoded_keys raws_no_output)
                   (decoded raws_no_output))
    by (intros [H _]; vm_compute in H; discriminate H).
  split_and!; [exact H1|exact H2|exact H3|].
  exact (Prepare_requires_output new_Builder raws_no_output (decoded raws_no_output)
           (decoded_keys raws_no_output) None H1 H2 H3).
Defined.

(** Witness of C5. *)
Lemma source_classification_witness :
  let a := apply_defaults (decoded raws_disk) in
  a.(cfg).(FromScratch) = false /\
  classified sourceDisk a (check_source a) /\
  ~ classified sourcePlatformImage a (check_source a) /\
  ~ rejected a (check_source a) /\
  is_disk_id a.(cfg).(Source) /\
  ~ is_platform_image a.(cfg).(Source).
Proof.
  cbv zeta.
  assert (Hfs : (apply_defaults (decoded raws_disk)).(cfg).(FromScratch) = false)
    by (vm_compute; reflexivity).
  assert (Hd : classified sourceDisk (apply_defaults (decoded raws_disk))
                 (check_source (apply_defaults (decoded raws_disk))))
    by (unfold classified; vm_compute; reflexivity).
  destruct (source_classification (apply_defaults (decoded raws_disk)) new_Builder
              raws_no_output (decoded raws_no_output) (decoded_keys raws_no_output) Hfs)
    as (Hone & _ & Hdisk & _ & _).
  destruct (proj1 Hdisk Hd) as [Hnp Hid].
  destruct Hone as [(_ & Hnd & _)|[(Hn & _ & Hnr)|(_ & Hnd & _)]];
    [destruct (Hnd Hd)| |destruct (Hnd Hd)].
  exact (conj Hfs (conj Hd (conj Hn (conj Hnr (conj Hid Hnp))))).
Defined.

(** Counterexample to C6 as stated: the version [LATEST] is not the string
    [latest], and the step list has a version resolution step. *)
Lemma resolve_step_for_upper_case_latest :
  let config := prepared raws_upper_case_latest in
  (Prepare new_Builder raws_upper_case_latest).2.(err) = nil_error /\
  exists pi steps,
    ParsePlatformImageURN config.(Source) = inl pi /\
    pi.(Version) <> "latest" /\
    buildsteps config info = Returned steps /\
    ~ Forall (fun s => is_resolve_version s = false) steps.
Proof.
  cbv zeta. split; [vm_compute; reflexivity|].
  exists upper_case_latest.
  destruct (buildsteps (prepared raws_upper_case_latest) info) as [steps|p] eqn:Hsteps;
    [|vm_compute in Hsteps; discriminate Hsteps].
  exists steps. split; [vm_compute; reflexivity|].
  split; [intros H; vm_compute in H; discriminate H|].
  split; [reflexivity|].
  vm_compute in Hsteps. injection Hsteps as <-.
  intros H. apply Forall_cons in H as [H _]. discriminate H.
Qed.

(** Witness of C6 as amended. *)
Lemma resolve_version_step_witness :
  let config := prepared raws_upper_case_latest in
  let pi := upper_case_latest in
  config.(FromScratch) = false /\
  config.(sourceType) = sourcePlatformImage /\
  ParsePlatformImageURN config.(Source) = inl pi /\
  EqualFold pi.(Version) "latest" = true /\
  exists steps d pre post,
    buildsteps config info = Returned steps /\
    steps = pre ++ StepResolvePlatformImageVersion pi info.(Location)
                :: StepCreateNewDisk d :: post /\
    precedes (StepResolvePlatformImageVersion pi info.(Location))
             (StepCreateNewDisk d) steps /\
    Forall (fun s => is_create_disk s = false) (pre ++ post).
Proof.
  cbv zeta.
  assert (H1 : (prepared raws_upper_case_latest).(FromScratch) = false)
    by (vm_compute; reflexivity).
  assert (H2 : (prepared raws_upper_case_latest).(sourceType) = sourcePlatformImage)
    by (vm_compute; reflexivity).
  assert (H3 : ParsePlatformImageURN (prepared raws_upper_case_latest).(Source)
               = inl upper_case_latest)
    by (vm_compute; reflexivity).
  assert (H4 : EqualFold upper_case_latest.(Version) "latest" = true)
    by (vm_compute; reflexivity).
  destruct (resolve_version_step (prepared raws_upper_case_latest) info upper_case_latest
              H1 H2 H3) as (steps & Hsteps & Hlatest & _).
  destruct (Hlatest H4) as (d & pre & post & H5 & H6 & H7).
  refine (conj H1 (conj H2 (conj H3 (conj H4 _)))).
  exists steps, d, pre, post.
  exact (conj Hsteps (conj H5 (conj H6 H7))).
Defined.

(** Counterexample to C7 as stated: [chroot_mounts] given as an empty list
    is replaced by the default. *)
Lemma empty_chroot_mounts_replaced :
  (decoded raws_empty_lists).(ChrootMounts) = Some [] /\
  (Prepare new_Builder raws_empty_lists).2.(err) = nil_error /\
  (prepared raws_empty_lists).(ChrootMounts) = Some default_ChrootMounts /\
  (prepared raws_empty_lists).(ChrootMounts) <> (decoded raws_empty_lists).(ChrootMounts).
Proof.
  split; [vm_compute; reflexivity|].
  split; [vm_compute; reflexivity|].
  split; [vm_compute; reflexivity|].
  intros H. vm_compute in H. discriminate H.
Qed.

(** Witness of C7 as amended. *)
Lemma Prepare_defaults_witness :
  let raws := raws_empty_lists in
  let c := decoded raws in
  let c' := (Prepare new_Builder raws).1.(config) in
  decode_raws new_Builder raws = (c, decoded_keys raws, None) /\
  SetDefaultValues c.(ClientConfig) = (c.(ClientConfig), None) /\
  len c.(ChrootMounts) = 0 /\
  c.(CopyFiles) <> None /\
  c'.(ChrootMounts) = Some default_ChrootMounts /\
  c'.(CopyFiles) = c.(CopyFiles) /\
  same_request c c' /\
  given_kept c c'.
Proof.
  cbv zeta.
  assert (Hdec : decode_raws new_Builder raws_empty_lists
                 = (decoded raws_empty_lists, decoded_keys raws_empty_lists, None))
    by (vm_compute; reflexivity).
  assert (Hdef : SetDefaultValues (decoded raws_empty_lists).(ClientConfig)
                 = ((decoded raws_empty_lists).(ClientConfig), None))
    by (vm_compute; reflexivity).
  assert (Hcm : len (decoded raws_empty_lists).(ChrootMounts) = 0)
    by (vm_compute; reflexivity).
  assert (Hcf : (decoded raws_empty_lists).(CopyFiles) <> None)
    by (intros H; vm_compute in H; discriminate H).
  destruct (Prepare_defaults new_Builder raws_empty_lists (decoded raws_empty_lists)
              (decoded_keys raws_empty_lists) (decoded raws_empty_lists).(ClientConfig)
              Hdec Hdef) as (H1 & _ & _ & _ & H5 & H6 & H7).
  exact (conj Hdec (conj Hdef (conj Hcm (conj Hcf
           (conj (H1 Hcm) (conj (H5 Hcf) (conj H6 H7))))))).
Defined.


(** Witness of C9. *)
Lemma buildsteps_never_panics_witness :
  let raws := raws_platform_image in
  (Prepare new_Builder raws).2.(err) = nil_error /\
  (let c := (Prepare new_Builder raws).1.(config) in
   (c.(FromScratch) = false ->
    (c.(sourceType) = sourcePlatformImage /\ is_platform_image c.(Source)) \/
    c.(sourceType) = sourceDisk) /\
   exists steps, buildsteps c info = Returned steps).
Proof.
  cbv zeta.
  assert (H : (Prepare new_Builder raws_platform_image).2.(err) = nil_error)
    by (vm_compute; reflexivity).
  exact (conj H (buildsteps_never_panics new_Builder raws_platform_image info H)).
Defined.

(** Witness of C10: [skip_cleanup] is true in both configurations; from
    scratch the disk step does not carry it, from a disk it does. *)
Lemma create_disk_skip_cleanup_witness :
  (prepared raws_from_scratch).(FromScratch) = true /\
  (prepared raws_from_scratch).(SkipCleanup) = true /\
  (exists d pre post,
     buildsteps (prepared raws_from_scratch) info
     = Returned (pre ++ StepCreateNewDisk d :: post) /\
     Forall (fun s => is_create_disk s = false) (pre ++ post) /\
     d.(cnd_SkipCleanup) = false) /\
  (prepared raws_disk).(FromScratch) = false /\
  (prepared raws_disk).(SkipCleanup) = true /\
  (exists steps d pre post,
     buildsteps (prepared raws_disk) info = Returned steps /\
     steps = pre ++ StepCreateNewDisk d :: post /\
     d.(cnd_SkipCleanup) = true).
Proof.
  assert (H1 : (prepared raws_from_scratch).(FromScratch) = true)
    by (vm_compute; reflexivity).
  assert (H2 : (prepared raws_from_scratch).(SkipCleanup) = true)
    by (vm_compute; reflexivity).
  assert (H3 : (prepared raws_disk).(FromScratch) = false) by (vm_compute; reflexivity).
  assert (H4 : (prepared raws_disk).(SkipCleanup) = true) by (vm_compute; reflexivity).
  refine (conj H1 (conj H2 (conj _ (conj H3 (conj H4 _))))).
  - exact (proj1 (create_disk_skip_cleanup (prepared raws_from_scratch) info) H1).
  - destruct (buildsteps (prepared raws_disk) info) as [steps|p] eqn:Hsteps;
      [|vm_compute in Hsteps; discriminate Hsteps].
    destruct (proj2 (create_disk_skip_cleanup (prepared raws_disk) info) H3
                steps Hsteps) as (d & pre & post & H5 & _ & H6 & _).
    rewrite H4 in H6. exists steps, d, pre, post.
    exact (conj eq_refl (conj H5 H6)).
Defined.


(** ** Witnesses of the further properties *)

(** Witness of X8. *)
Lemma Prepare_warnings_witness :
  let raws := raws_disk in
  decode_raws new_Builder raws = (decoded raws, decoded_keys raws, None) /\
  SetDefaultValues (decoded raws).(ClientConfig) = ((decoded raws).(ClientConfig), None) /\
  (Prepare new_Builder raws).2.(warnings) =
  if StringsContains (decoded_keys raws) "shared_image_destination"
  then (Validate (decoded raws).(SharedImageGalleryDestination)
                 "shared_image_destination").2
  else [].
Proof.
  cbv zeta.
  assert (H1 : decode_raws new_Builder raws_disk
               = (decoded raws_disk, decoded_keys raws_disk, None))
    by (vm_compute; reflexivity).
  assert (H2 : SetDefaultValues (decoded raws_disk).(ClientConfig)
               = ((decoded raws_disk).(ClientConfig), None))
    by (vm_compute; reflexivity).
  exact (conj H1 (conj H2 (Prepare_warnings new_Builder raws_disk (decoded raws_disk)
                             (decoded_keys raws_disk) _ H1 H2))).
Defined.

(** Witness of X5. *)
Lemma prepared_enums_valid_witness :
  (Prepare new_Builder raws_disk).2.(err) = nil_error /\
  (let c := (Prepare new_Builder raws_disk).1.(config) in
   c.(OSDiskCacheType) ∈ PossibleCachingTypesValues /\
   c.(OSDiskStorageAccountType) ∈ PossibleDiskStorageAccountTypesValues /\
   c.(ImageHyperVGeneration) ∈ PossibleHyperVGenerationValues).
Proof.
  assert (H : (Prepare new_Builder raws_disk).2.(err) = nil_error)
    by (vm_compute; reflexivity).
  exact (conj H (prepared_enums_valid new_Builder raws_disk H)).
Defined.

(** Witness of X7. *)
Lemma prepared_image_id_valid_witness :
  (Prepare new_Builder raws_platform_image).2.(err) = nil_error /\
  (let c := (Prepare new_Builder raws_platform_image).1.(config) in
   c.(ImageResourceID) = "" \/ is_image_id c.(ImageResourceID)).
Proof.
  assert (H : (Prepare new_Builder raws_platform_image).2.(err) = nil_error)
    by (vm_compute; reflexivity).
  exact (conj H (prepared_image_id_valid new_Builder raws_platform_image H)).
Defined.

(** Witness of X4. *)
Lemma from_scratch_requirements_witness :
  let raws := raws_many_errors in
  decode_raws new_Builder raws = (decoded raws, decoded_keys raws, None) /\
  (decoded raws).(FromScratch) = true /\
  (decoded raws).(OSDiskSizeGB) = 0%Z /\
  (Prepare new_Builder raws).2.(err) <> nil_error.
Proof.
  cbv zeta.
  assert (H1 : decode_raws new_Builder raws_many_errors
               = (decoded raws_many_errors, decoded_keys raws_many_errors, None))
    by (vm_compute; reflexivity).
  assert (H2 : (decoded raws_many_errors).(FromScratch) = true)
    by (vm_compute; reflexivity).
  assert (H3 : (decoded raws_many_errors).(OSDiskSizeGB) = 0%Z)
    by (vm_compute; reflexivity).
  exact (conj H1 (conj H2 (conj H3
           (proj1 (from_scratch_requirements new_Builder raws_many_errors
                     (decoded raws_many_errors) (decoded_keys raws_many_errors) None
                     H1 H2) (or_introl H3))))).
Defined.

(** Witness of X10. *)
Lemma defaults_fill_templates_witness :
  let raws := raws_empty_lists in
  decode_raws new_Builder raws = (decoded raws, decoded_keys raws, None) /\
  SetDefaultValues (decoded raws).(ClientConfig) = ((decoded raws).(ClientConfig), None) /\
  (let c' := (Prepare new_Builder raws).1.(config) in
   len c'.(ChrootMounts) <> 0 /\
   c'.(CommandWrapper) <> "" /\
   c'.(MountPath) <> "" /\
   c'.(MountPartition) <> "").
Proof.
  cbv zeta.
  assert (H1 : decode_raws new_Builder raws_empty_lists
               = (decoded raws_empty_lists, decoded_keys raws_empty_lists, None))
    by (vm_compute; reflexivity).
  assert (H2 : SetDefaultValues (decoded raws_empty_lists).(ClientConfig)
               = ((decoded raws_empty_lists).(ClientConfig), None))
    by (vm_compute; reflexivity).
  exact (conj H1 (conj H2 (defaults_fill_templates new_Builder raws_empty_lists
                             (decoded raws_empty_lists) (decoded_keys raws_empty_lists)
                             _ H1 H2))).
Defined.

(** Witness of X11. *)
Lemma temporary_ids_rendered_witness :
  let raws := raws_platform_image in
  decode_raws new_Builder raws = (decoded raws, decoded_keys raws, None) /\
  SetDefaultValues (decoded raws).(ClientConfig) = ((decoded raws).(ClientConfig), None) /\
  (decoded raws).(TemporaryOSDiskID) = "" /\
  (decoded raws).(TemporaryOSDiskSnapshotID) = "" /\
  interpolate_Render temporary_disk_template (decoded raws).(ctx)
  = inl temporary_disk_template /\
  match interpolate_Render temporary_disk_template (decoded raws).(ctx) with
  | inl s => (Prepare new_Builder raws).1.(config).(TemporaryOSDiskID) = s
  | inr _ => (Prepare new_Builder raws).1.(config).(TemporaryOSDiskID) = "" /\
             (Prepare new_Builder raws).2.(err) <> nil_error
  end /\
  match interpolate_Render temporary_snapshot_template (decoded raws).(ctx) with
  | inl s => (Prepare new_Builder raws).1.(config).(TemporaryOSDiskSnapshotID) = s
  | inr _ => (Prepare new_Builder raws).1.(config).(TemporaryOSDiskSnapshotID) = "" /\
             (Prepare new_Builder raws).2.(err) <> nil_error
  end.
Proof.
  cbv zeta.
  assert (H1 : decode_raws new_Builder raws_platform_image
               = (decoded raws_platform_image, decoded_keys raws_platform_image, None))
    by (vm_compute; reflexivity).
  assert (H2 : SetDefaultValues (decoded raws_platform_image).(ClientConfig)
               = ((decoded raws_platform_image).(ClientConfig), None))
    by (vm_compute; reflexivity).
  assert (H3 : (decoded raws_platform_image).(TemporaryOSDiskID) = "")
    by (vm_compute; reflexivity).
  assert (H4 : (decoded raws_platform_image).(TemporaryOSDiskSnapshotID) = "")
    by (vm_compute; reflexivity).
  assert (H5 : interpolate_Render temporary_disk_template (decoded raws_platform_image).(ctx)
               = inl temporary_disk_template)
    by (vm_compute; reflexivity).
  destruct (temporary_ids_rendered new_Builder raws_platform_image
              (decoded raws_platform_image) (decoded_keys raws_platform_image) _ H1 H2)
    as [Hdisk Hsnap].
  exact (conj H1 (conj H2 (conj H3 (conj H4 (conj H5 (conj (Hdisk H3) (Hsnap H4))))))).
Defined.

(** Witness of X12. *)
Lemma GetContext_after_Prepare_witness :
  let raws := raws_platform_image in
  decode_raws new_Builder raws = (decoded raws, decoded_keys raws, None) /\
  SetDefaultValues (decoded raws).(ClientConfig) = ((decoded raws).(ClientConfig), None) /\
  GetContext (Prepare new_Builder raws).1.(config) = GetContext (decoded raws).
Proof.
  cbv zeta.
  assert (H1 : decode_raws new_Builder raws_platform_image
               = (decoded raws_platform_image, decoded_keys raws_platform_image, None))
    by (vm_compute; reflexivity).
  assert (H2 : SetDefaultValues (decoded raws_platform_image).(ClientConfig)
               = ((decoded raws_platform_image).(ClientConfig), None))
    by (vm_compute; reflexivity).
  exact (conj H1 (conj H2 (GetContext_after_Prepare new_Builder raws_platform_image
                             (decoded raws_platform_image)
                             (decoded_keys raws_platform_image) _ H1 H2))).
Defined.

(** Witness of X3. *)
Lemma from_scratch_errors_reported_together_witness :
  let raws := raws_from_scratch_with_source in
  let c := decoded raws in
  decode_raws new_Builder raws = (c, decoded_keys raws, None) /\
  SetDefaultValues c.(ClientConfig) = (c.(ClientConfig), None) /\
  c.(FromScratch) = true /\
  c.(Source) <> "" /\
  c.(OSDiskSizeGB) = 0%Z /\
  len c.(PreMountCommands) = 0 /\
  not_an_image_id c.(ImageResourceID) = false /\
  exists m pre post,
    (Prepare new_Builder raws).2.(err) = multi_error (Some m) /\
    m.(Errors) = pre ++ from_scratch_errors ++ post.
Proof.
  cbv zeta.
  assert (H1 : decode_raws new_Builder raws_from_scratch_with_source
               = (decoded raws_from_scratch_with_source,
                  decoded_keys raws_from_scratch_with_source, None))
    by (vm_compute; reflexivity).
  assert (H2 : SetDefaultValues (decoded raws_from_scratch_with_source).(ClientConfig)
               = ((decoded raws_from_scratch_with_source).(ClientConfig), None))
    by (vm_compute; reflexivity).
  assert (H3 : (decoded raws_from_scratch_with_source).(FromScratch) = true)
    by (vm_compute; reflexivity).
  assert (H4 : (decoded raws_from_scratch_with_source).(Source) <> "")
    by (intros H; vm_compute in H; discriminate H).
  assert (H5 : (decoded raws_from_scratch_with_source).(OSDiskSizeGB) = 0%Z)
    by (vm_compute; reflexivity).
  assert (H6 : len (decoded raws_from_scratch_with_source).(PreMountCommands) = 0)
    by (vm_compute; reflexivity).
  assert (H7 : not_an_image_id (decoded raws_from_scratch_with_source).(ImageResourceID)
               = false)
    by (vm_compute; reflexivity).
  exact (conj H1 (conj H2 (conj H3 (conj H4 (conj H5 (conj H6 (conj H7
           (from_scratch_errors_reported_together new_Builder
              raws_from_scratch_with_source (decoded raws_from_scratch_with_source)
              (decoded_keys raws_from_scratch_with_source) _
              H1 H2 H3 H4 H5 H6 (or_intror H7))))))))).
Defined.


(** Witness of X15. *)
Lemma create_disk_source_witness :
  let config := prepared raws_disk in
  exists steps,
    buildsteps config info = Returned steps /\
    StepCreateNewDisk disk_step ∈ steps /\
    config.(FromScratch) = false /\
    config.(sourceType) = sourceDisk /\
    disk_step.(cnd_SourceDiskResourceID) = config.(Source) /\
    exists pre post,
      steps = pre ++ StepVerifySourceDisk config.(Source) info.(Location)
                  :: StepCreateNewDisk disk_step :: post.
Proof.
  cbv zeta.
  destruct (buildsteps (prepared raws_disk) info) as [steps|p] eqn:Hsteps;
    [|vm_compute in Hsteps; discriminate Hsteps].
  assert (Hin : StepCreateNewDisk disk_step ∈ steps).
  { assert (Heq := Hsteps). vm_compute in Heq. injection Heq as <-.
    do 2 apply list_elem_of_further. apply list_elem_of_here. }
  assert (H1 : (prepared raws_disk).(FromScratch) = false) by (vm_compute; reflexivity).
  assert (H2 : (prepared raws_disk).(sourceType) = sourceDisk)
    by (vm_compute; reflexivity).
  destruct (create_disk_source (prepared raws_disk) info steps disk_step Hsteps Hin)
    as (_ & _ & _ & Hdisk).
  destruct (Hdisk H1 H2) as (_ & H3 & H4).
  exists steps. exact (conj eq_refl (conj Hin (conj H1 (conj H2 (conj H3 H4))))).
Defined.

(** Witness of X16. *)
Lemma prepared_has_output_witness :
  (forall d p q, (Validate d p).1 = [] -> (Validate d q).1 = []) /\
  (Prepare new_Builder raws_disk).2.(err) = nil_error /\
  (let c := (Prepare new_Builder raws_disk).1.(config) in
   (c.(ImageResourceID) <> "" \/ hasValidSharedImage c = true) /\
   output_steps c info <> []).
Proof.
  assert (H1 : forall d p q, (Validate d p).1 = [] -> (Validate d q).1 = []).
  { intros d p q. cbn. unfold required.
    destruct (nonempty (SigResourceGroup d)), (nonempty (SigGalleryName d)),
      (nonempty (SigImageName d)), (nonempty (SigImageVersion d));
      cbn; intros H; first [reflexivity | discriminate H]. }
  assert (H2 : (Prepare new_Builder raws_disk).2.(err) = nil_error)
    by (vm_compute; reflexivity).
  exact (conj H1 (conj H2 (prepared_has_output new_Builder raws_disk info H1 H2))).
Defined.

(** Witness of X17. *)
Lemma Run_artifact_xor_error_witness :
  let b := (Prepare new_Builder raws_two_outputs).1 in
  exists b' a e,
    Run b tt tt tt = Returned (b', (a, e)) /\
    ((a = None /\ e <> nil_error) \/ (is_Some a /\ e = nil_error)).
Proof.
  cbv zeta.
  destruct (Run (Prepare new_Builder raws_two_outputs).1 tt tt tt)
    as [[b' [a e]]|p] eqn:Hrun; [|vm_compute in Hrun; discriminate Hrun].
  exists b', a, e.
  exact (conj eq_refl (Run_artifact_xor_error _ tt tt tt b' a e Hrun)).
Defined.

(** Witness of X18. *)
Lemma Run_after_Prepare_panics_on_assertion_only_witness :
  let b := (@Prepare opaque external_stray_value new_Builder raws_two_outputs) in
  b.2.(err) = nil_error /\
  exists p,
    @Run opaque external_stray_value b.1 tt tt tt = Panicked p /\
    exists v, p = panic_type_assertion v /\ forall e, v <> error_in_state e.
Proof.
  cbv zeta.
  assert (H : (@Prepare opaque external_stray_value new_Builder raws_two_outputs).2.(err)
              = nil_error)
    by (vm_compute; reflexivity).
  refine (conj H _).
  destruct (@Run opaque external_stray_value
              (@Prepare opaque external_stray_value new_Builder raws_two_outputs).1
              tt tt tt) as [r|p] eqn:Hrun; [vm_compute in Hrun; discriminate Hrun|].
  exists p.
  exact (conj eq_refl
           (@Run_after_Prepare_panics_on_assertion_only opaque external_stray_value
              new_Builder raws_two_outputs tt tt tt p H Hrun)).
Defined.

(** Witness of X1. *)
Lemma Prepare_succeeds_iff_witness :
  let raws := raws_disk in
  decode_raws new_Builder raws = (decoded raws, decoded_keys raws, None) /\
  SetDefaultValues (decoded raws).(ClientConfig) = ((decoded raws).(ClientConfig), None) /\
  (Prepare new_Builder raws).2.(err) = nil_error /\
  acceptable (decoded_keys raws) (decoded raws).
Proof.
  cbv zeta.
  assert (H1 : decode_raws new_Builder raws_disk
               = (decoded raws_disk, decoded_keys raws_disk, None))
    by (vm_compute; reflexivity).
  assert (H2 : SetDefaultValues (decoded raws_disk).(ClientConfig)
               = ((decoded raws_disk).(ClientConfig), None))
    by (vm_compute; reflexivity).
  assert (H3 : (Prepare new_Builder raws_disk).2.(err) = nil_error)
    by (vm_compute; reflexivity).
  exact (conj H1 (conj H2 (conj H3
           (proj1 (Prepare_succeeds_iff new_Builder raws_disk (decoded raws_disk)
                     (decoded_keys raws_disk) _ H1 H2) H3)))).
Defined.

End Examples.
